(** * OpenNIC packet filter MCP server: a shallow embedding of its request
      handlers and their helpers

    The server (TypeScript, on the low-level [Server] class of the MCP SDK)
    registers one handler per request kind with [setRequestHandler]:
    resources/list, resources/read, tools/list, tools/call, prompts/list and
    prompts/get.  The handlers call three collaborators: [fs.readFile],
    [fs.access] and [child_process.spawn].

    The repository holds two versions of the server: [src/index.ts] and
    the version that adds the Verilog and Makefile analyzers and enforces
    the Verilator simulator.  Both are embedded, in the modules [Index]
    and [Enhanced]; the helpers [readFileContent] and [executeCommand] are
    the same in both.

    The embedding keeps the code's shape:
    - a JavaScript string is its sequence of UTF-16 code units ([jstring]);
    - a JSON argument value is a [JsValue];
    - an [async] function is a computation [M A] over a read-only [World]
      (the answers of the three collaborators) that ends in a value, in a
      thrown error or never settles, and logs every collaborator call;
    - the regular expressions of the analyzers are terms of a small regex
      type run by a backtracking matcher with the semantics of JavaScript
      (leftmost, greedy, first alternative first). *)

From Stdlib Require Import ZArith NArith List String Ascii Bool Lia.
From Stdlib Require Import Floats.PrimFloat Floats.SpecFloat Floats.FloatOps.
From Stdlib Require Import Numbers.Cyclic.Int63.Uint63.
From stdpp Require Import base decidable option list gmap strings.
Import ListNotations.

(* ================================================================== *)
(** ** JavaScript strings *)

(** A string is the list of its 16-bit code units. *)
Abbreviation jstring := (list N).

(** Source literals are written as Rocq strings, that is as UTF-8 bytes;
    [js] decodes them to code units (two units for a code point above
    U+FFFF, as in JavaScript). *)
Fixpoint utf8_code_points (bs : list N) : list N :=
  match bs with
  | [] => []
  | b0 :: t0 =>
      if (b0 <? 128)%N then b0 :: utf8_code_points t0
      else if (b0 <? 224)%N then
        match t0 with
        | b1 :: t1 => ((b0 - 192) * 64 + (b1 - 128))%N :: utf8_code_points t1
        | [] => [65533%N]
        end
      else if (b0 <? 240)%N then
        match t0 with
        | b1 :: b2 :: t2 =>
            ((b0 - 224) * 4096 + (b1 - 128) * 64 + (b2 - 128))%N
              :: utf8_code_points t2
        | _ => [65533%N]
        end
      else
        match t0 with
        | b1 :: b2 :: b3 :: t3 =>
            ((b0 - 240) * 262144 + (b1 - 128) * 4096
             + (b2 - 128) * 64 + (b3 - 128))%N :: utf8_code_points t3
        | _ => [65533%N]
        end
  end.

Definition utf16_units (cp : N) : list N :=
  if (cp <? 65536)%N then [cp]
  else [(55296 + (cp - 65536) / 1024)%N; (56320 + (cp - 65536) mod 1024)%N].

Definition js (s : string) : jstring :=
  flat_map utf16_units
    (utf8_code_points (map N_of_ascii (list_ascii_of_string s))).

Definition jstring_eqb (a b : jstring) : bool := bool_decide (a = b).

(** [Array.prototype.join]. *)
Fixpoint join (sep : jstring) (l : list jstring) : jstring :=
  match l with
  | [] => []
  | [x] => x
  | x :: rest => x ++ sep ++ join sep rest
  end.

(** [s.startsWith(p)], and the rest of [s] after [p]. *)
Fixpoint strip_prefix (p s : jstring) : option jstring :=
  match p, s with
  | [], _ => Some s
  | _ :: _, [] => None
  | a :: p', b :: s' => if (a =? b)%N then strip_prefix p' s' else None
  end.

Definition startsWith (s p : jstring) : bool :=
  match strip_prefix p s with Some _ => true | None => false end.

(** [String.prototype.includes]. *)
Fixpoint includes (s needle : jstring) : bool :=
  match strip_prefix needle s with
  | Some _ => true
  | None => match s with [] => false | _ :: s' => includes s' needle end
  end.

(** [s.replace(pattern, replacement)] for a string pattern: the first
    occurrence only. *)
Fixpoint replace_first (s pat rep : jstring) : jstring :=
  match strip_prefix pat s with
  | Some rest => rep ++ rest
  | None => match s with [] => [] | c :: s' => c :: replace_first s' pat rep end
  end.

(** [Array.prototype.includes] on an array of strings. *)
Definition array_includes (l : list jstring) (x : jstring) : bool :=
  existsb (jstring_eqb x) l.

(** Decimal rendering of an integer, as template literals render a number
    that is an integer. *)
Fixpoint digits_of_pos (fuel : nat) (n : N) (acc : jstring) : jstring :=
  match fuel with
  | O => acc
  | S f =>
      let acc' := (48 + n mod 10)%N :: acc in
      if (n <? 10)%N then acc' else digits_of_pos f (n / 10)%N acc'
  end.

Definition string_of_N (n : N) : jstring :=
  digits_of_pos (S (N.to_nat (N.log2 n))) n [].

Definition string_of_nat (n : nat) : jstring := string_of_N (N.of_nat n).

Definition string_of_Z (z : Z) : jstring :=
  match z with
  | Zneg p => js "-" ++ string_of_N (Npos p)
  | _ => string_of_N (Z.to_N z)
  end.

(** ASCII range of [toUpperCase]; the code applies it to the three keys of
    a literal object only. *)
Definition toUpperCase_ascii (s : jstring) : jstring :=
  map (fun c => if ((97 <=? c) && (c <=? 122))%N then (c - 32)%N else c) s.

(* ================================================================== *)
(** ** Values and errors *)

(** A value of the [arguments] object of a request.  The handlers observe
    a value in four ways only: is it [undefined] (destructuring defaults),
    is it truthy ([if], [||]), is it strictly equal to a string literal
    ([===], [switch]), and what is its string conversion (template
    literals, property keys).  Numbers, arrays and objects are therefore
    kept as [VOther] with their truthiness and their string conversion. *)
Inductive JsValue : Type :=
  | VUndefined
  | VNull
  | VBool (b : bool)
  | VString (s : jstring)
  | VOther (truthy : bool) (shown : jstring).

Definition is_undefined (v : JsValue) : bool :=
  match v with VUndefined => true | _ => false end.

Definition truthy (v : JsValue) : bool :=
  match v with
  | VUndefined | VNull => false
  | VBool b => b
  | VString s => match s with [] => false | _ => true end
  | VOther t _ => t
  end.

(** [v === "literal"]. *)
Definition strict_eq_string (v : JsValue) (lit : jstring) : bool :=
  match v with VString s => jstring_eqb s lit | _ => false end.

(** [`${v}`]. *)
Definition to_string (v : JsValue) : jstring :=
  match v with
  | VUndefined => js "undefined"
  | VNull => js "null"
  | VBool true => js "true"
  | VBool false => js "false"
  | VString s => s
  | VOther _ s => s
  end.

(** [const { p = d } = args]: the default applies to [undefined] only. *)
Definition with_default (v d : JsValue) : JsValue :=
  if is_undefined v then d else v.

(** The [arguments] object; a property that is absent reads [undefined]. *)
Definition get_arg (args : gmap string JsValue) (key : string) : JsValue :=
  default VUndefined (args !! key).

(** [ErrorCode] of the SDK: the members the server and the protocol
    errors of the specification refer to. *)
Inductive ErrorCode : Type :=
  | InvalidRequest
  | MethodNotFound
  | InvalidParams
  | InternalError.

(** An error object: [new Error(message)], a [TypeError] of the engine, a
    system error of Node, or an [McpError] of the SDK, for which the record
    keeps the code and the message the server passes to the constructor. *)
Record JsError : Type := mkJsError {
  err_name : jstring;
  err_message : jstring;
  err_code : option ErrorCode
}.

Definition Error (message : jstring) : JsError :=
  mkJsError (js "Error") message None.

Definition TypeError (message : jstring) : JsError :=
  mkJsError (js "TypeError") message None.

Definition McpError (code : ErrorCode) (message : jstring) : JsError :=
  mkJsError (js "McpError") message (Some code).

(** [`${error}`], that is [Error.prototype.toString]. *)
Definition error_to_string (e : JsError) : jstring :=
  match err_name e, err_message e with
  | [], m => m
  | n, [] => n
  | n, m => n ++ js ": " ++ m
  end.

(* ================================================================== *)
(** ** Regular expressions *)

(** The constructs the source's regular expressions are built from.  The
    quantifiers [*] and [+] apply to character classes only, as they do in
    the source; [Group] is the capturing group 1 (no regex of the source
    has a second one); [LineStart] is [^] under the [m] flag. *)
Inductive regex : Type :=
  | Chars (lit : jstring)
  | Class (c : N -> bool)
  | Cat (r1 r2 : regex)
  | Alt (r1 r2 : regex)
  | Opt (r : regex)
  | Star (c : N -> bool)
  | Plus (c : N -> bool)
  | Group (r : regex)
  | LineStart.

(** [\w] *)
Definition word_char (c : N) : bool :=
  ((48 <=? c) && (c <=? 57) || (65 <=? c) && (c <=? 90)
   || (97 <=? c) && (c <=? 122) || (c =? 95))%N.

(** ECMAScript LineTerminator: LF, CR, LS, PS. *)
Definition line_terminator (c : N) : bool :=
  ((c =? 10) || (c =? 13) || (c =? 8232) || (c =? 8233))%N.

(** [\s]: WhiteSpace and LineTerminator of ECMAScript. *)
Definition space_char (c : N) : bool :=
  ((9 <=? c) && (c <=? 13) || (c =? 32) || (c =? 160) || (c =? 5760)
   || (8192 <=? c) && (c <=? 8202) || (c =? 8232) || (c =? 8233)
   || (c =? 8239) || (c =? 8287) || (c =? 12288) || (c =? 65279))%N.

Definition not_char (x : N) (c : N) : bool := negb (c =? x)%N.
Definition one_of (l : jstring) (c : N) : bool := existsb (N.eqb c) l.

(** A successful match: the input before its end (reversed), the input
    after it, and what group 1 captured. *)
Record MatchEnd : Type := mkMatchEnd {
  m_ctx : jstring;
  m_rest : jstring;
  m_group1 : option jstring
}.

Definition Cont : Type := jstring -> jstring -> option jstring -> option MatchEnd.

Definition accept : Cont := fun ctx s cap => Some (mkMatchEnd ctx s cap).

(** The units consumed between two positions, given the reversed input
    before each of them. *)
Definition consumed (ctx_start ctx_end : jstring) : jstring :=
  rev (take (length ctx_end - length ctx_start) ctx_end).

(** Greedy [c*]: take one more unit first, give it back when the rest of
    the pattern fails. *)
Fixpoint star (c : N -> bool) (ctx s : jstring) (cap : option jstring)
    (k : Cont) : option MatchEnd :=
  match s with
  | x :: s' =>
      if c x then
        match star c (x :: ctx) s' cap k with
        | Some r => Some r
        | None => k ctx s cap
        end
      else k ctx s cap
  | [] => k ctx s cap
  end.

(** Backtracking matcher in continuation-passing style: [rmatch r ctx s cap k]
    matches [r] at the head of [s], where [ctx] is the reversed input before
    [s], and hands the position after the match to [k]. *)
Fixpoint rmatch (r : regex) (ctx s : jstring) (cap : option jstring)
    (k : Cont) : option MatchEnd :=
  match r with
  | Chars lit =>
      match strip_prefix lit s with
      | Some s' => k (rev lit ++ ctx) s' cap
      | None => None
      end
  | Class c =>
      match s with
      | x :: s' => if c x then k (x :: ctx) s' cap else None
      | [] => None
      end
  | Cat r1 r2 =>
      rmatch r1 ctx s cap (fun ctx' s' cap' => rmatch r2 ctx' s' cap' k)
  | Alt r1 r2 =>
      match rmatch r1 ctx s cap k with
      | Some m => Some m
      | None => rmatch r2 ctx s cap k
      end
  | Opt r1 =>
      match rmatch r1 ctx s cap k with
      | Some m => Some m
      | None => k ctx s cap
      end
  | Star c => star c ctx s cap k
  | Plus c =>
      match s with
      | x :: s' => if c x then star c (x :: ctx) s' cap k else None
      | [] => None
      end
  | Group r1 =>
      rmatch r1 ctx s cap
        (fun ctx' s' _ => k ctx' s' (Some (consumed ctx ctx')))
  | LineStart =>
      match ctx with
      | [] => k ctx s cap
      | x :: _ => if line_terminator x then k ctx s cap else None
      end
  end.

(** A match as the code sees it: [m[0]] and [m[1]]. *)
Record Match : Type := mkMatch {
  match_text : jstring;
  match_group1 : option jstring
}.

Definition match_at (r : regex) (ctx s : jstring) : option Match :=
  match rmatch r ctx s None accept with
  | Some e => Some (mkMatch (consumed ctx (m_ctx e)) (m_group1 e))
  | None => None
  end.

(** [s.match(r)] for a regex without the [g] flag: the leftmost match. *)
Fixpoint search (r : regex) (ctx s : jstring) : option Match :=
  match match_at r ctx s with
  | Some m => Some m
  | None =>
      match s with
      | [] => None
      | x :: s' => search r (x :: ctx) s'
      end
  end.

Definition string_match (s : jstring) (r : regex) : option Match :=
  search r [] s.

(** [s.match(r)] for a regex with the [g] flag: the texts of all matches,
    each search starting where the previous match ended (one unit further
    after an empty match); [skip] counts the units of the previous match
    that are still to be passed.  [null] when there is no match. *)
Fixpoint scan_matches (r : regex) (skip : nat) (ctx s : jstring)
    : list jstring :=
  let here := match skip with
              | O => match_at r ctx s
              | S _ => None
              end in
  match s with
  | [] =>
      match here with
      | Some m => [match_text m]
      | None => []
      end
  | x :: s' =>
      match here with
      | Some m =>
          match_text m
            :: scan_matches r (length (match_text m) - 1) (x :: ctx) s'
      | None => scan_matches r (skip - 1) (x :: ctx) s'
      end
  end.

Definition string_match_g (s : jstring) (r : regex) : option (list jstring) :=
  match scan_matches r 0 [] s with
  | [] => None
  | l => Some l
  end.

(** [s.split(r)]: the pieces of [s] between the matches of [r]; a match
    that is empty at the start of the current piece is no separator. *)
Fixpoint split_from (r : regex) (skip : nat) (piece ctx s : jstring)
    : list jstring :=
  match s with
  | [] => [rev piece]
  | x :: s' =>
      match skip with
      | S n => split_from r n piece (x :: ctx) s'
      | O =>
          match match_at r ctx s with
          | Some m =>
              match length (match_text m), piece with
              | O, [] => split_from r 0 [x] (x :: ctx) s'
              | O, _ :: _ => rev piece :: split_from r 0 [x] (x :: ctx) s'
              | S n, _ => rev piece :: split_from r n [] (x :: ctx) s'
              end
          | None => split_from r 0 (x :: piece) (x :: ctx) s'
          end
      end
  end.

Definition string_split (s : jstring) (r : regex) : list jstring :=
  match s with
  | [] => match match_at r [] [] with Some _ => [] | None => [[]] end
  | _ => split_from r 0 [] [] s
  end.

(** [a.pop()] *)
Definition array_pop (l : list jstring) : option jstring := last l.

(** [s.length > 0], the truthiness of a string *)
Definition nonempty (s : jstring) : bool :=
  match s with [] => false | _ => true end.

(** [x || d] on strings *)
Definition or_string (x : option jstring) (d : jstring) : jstring :=
  match x with
  | Some (c :: s) => c :: s
  | _ => d
  end.

Fixpoint seq (rs : list regex) : regex :=
  match rs with
  | [] => Chars []
  | [r] => r
  | r :: rest => Cat r (seq rest)
  end.

Fixpoint alts (rs : list regex) : regex :=
  match rs with
  | [] => Class (fun _ => false)
  | [r] => r
  | r :: rest => Alt r (alts rest)
  end.

(* ================================================================== *)
(** ** Collaborators and asynchronous computations *)

(** What a child process sends to the listeners that [executeCommand]
    installs: chunks of its two streams (already converted by
    [data.toString()]), its [close] event with the exit code ([null] when a
    signal ended it) and the [error] event. *)
Inductive ChildEvent : Type :=
  | StdoutData (chunk : jstring)
  | StderrData (chunk : jstring)
  | Close (code : option Z)
  | ErrorEvent (e : JsError).

(** [spawn] either throws at once (an argument it refuses) or returns a
    child that emits events. *)
Inductive SpawnBehaviour : Type :=
  | SpawnThrows (e : JsError)
  | SpawnEvents (events : list ChildEvent).

(** The environment of one request: what the file system and the
    operating system answer.  Paths and process arguments are the values
    the handlers pass on, which come unchecked from the request.  A request
    is run against one state of the machine: a question asked twice gets
    the same answer (no handler changes the machine between two questions;
    only check-interface-compatibility can ask one twice, when its two
    paths are equal). *)
Record World : Type := mkWorld {
  fs_readFile : JsValue -> JsError + jstring;
  fs_access : jstring -> option JsError;
  proc_spawn : jstring -> list JsValue -> option jstring -> SpawnBehaviour
}.

(** The calls made to the collaborators, in order. *)
Inductive Effect : Type :=
  | EffReadFile (path : JsValue)
  | EffAccess (path : jstring)
  | EffSpawn (command : jstring) (args : list JsValue) (cwd : option jstring).

(** How an awaited promise ends. *)
Inductive Outcome (A : Type) : Type :=
  | Returned (a : A)
  | Thrown (e : JsError)
  | Pending.
Arguments Returned {A} a.
Arguments Thrown {A} e.
Arguments Pending {A}.

Definition M (A : Type) : Type := World -> Outcome A * list Effect.

Definition ret {A} (a : A) : M A := fun _ => (Returned a, []).

Definition throw {A} (e : JsError) : M A := fun _ => (Thrown e, []).

Definition bind {A B} (m : M A) (f : A -> M B) : M B :=
  fun w =>
    match m w with
    | (Returned a, t1) => let (o, t2) := f a w in (o, t1 ++ t2)
    | (Thrown e, t1) => (Thrown e, t1)
    | (Pending, t1) => (Pending, t1)
    end.

(** [try { body } catch (error) { handler }] *)
Definition try_catch {A} (body : M A) (handler : JsError -> M A) : M A :=
  fun w =>
    match body w with
    | (Thrown e, t1) => let (o, t2) := handler e w in (o, t1 ++ t2)
    | other => other
    end.

Notation "'do' x <- m ; k" := (bind m (fun x => k))
  (at level 10, x name, m at level 100, k at level 200, only parsing).

(** [await fs.readFile(path, 'utf-8')] *)
Definition readFile (path : JsValue) : M jstring :=
  fun w =>
    (match fs_readFile w path with
     | inr text => Returned text
     | inl e => Thrown e
     end, [EffReadFile path]).

(** [await fs.access(path)] *)
Definition access (path : jstring) : M unit :=
  fun w =>
    (match fs_access w path with
     | None => Returned tt
     | Some e => Thrown e
     end, [EffAccess path]).

(** *** [readFileContent] *)
Definition readFileContent (filePath : JsValue) : M jstring :=
  try_catch (readFile filePath)
    (fun error =>
       throw (Error (js "Failed to read file " ++ to_string filePath
                       ++ js ": " ++ error_to_string error))).

(** *** [executeCommand] *)

Record ExecResult : Type := mkExecResult {
  stdout : jstring;
  stderr : jstring
}.

(** The variables of the promise executor: the two buffers and the state
    of the promise. *)
Record Executor : Type := mkExecutor {
  ex_stdout : jstring;
  ex_stderr : jstring;
  ex_settled : option (JsError + ExecResult)
}.

(** [resolve] and [reject] act on a promise that is still pending and do
    nothing afterwards. *)
Definition settle (x : Executor) (v : JsError + ExecResult) : Executor :=
  match ex_settled x with
  | Some _ => x
  | None => mkExecutor (ex_stdout x) (ex_stderr x) (Some v)
  end.

Definition exit_code_string (code : option Z) : jstring :=
  match code with
  | Some z => string_of_Z z
  | None => js "null"
  end.

(** The four listeners. *)
Definition deliver (x : Executor) (ev : ChildEvent) : Executor :=
  match ev with
  | StdoutData data => mkExecutor (ex_stdout x ++ data) (ex_stderr x) (ex_settled x)
  | StderrData data => mkExecutor (ex_stdout x) (ex_stderr x ++ data) (ex_settled x)
  | Close code =>
      match code with
      | Some 0%Z => settle x (inr (mkExecResult (ex_stdout x) (ex_stderr x)))
      | _ =>
          settle x
            (inl (Error (js "Command failed with exit code "
                           ++ exit_code_string code ++ js ": " ++ ex_stderr x)))
      end
  | ErrorEvent error => settle x (inl error)
  end.

Definition run_child (events : list ChildEvent) : Executor :=
  fold_left deliver events (mkExecutor [] [] None).

Definition promise_outcome (x : Executor) : Outcome ExecResult :=
  match ex_settled x with
  | Some (inr r) => Returned r
  | Some (inl e) => Thrown e
  | None => Pending
  end.

(** [spawn(command, args, { cwd, stdio, shell: true })] inside
    [new Promise(...)]: an exception of the executor rejects the promise. *)
Definition executeCommand (command : jstring) (args : list JsValue)
    (cwd : option jstring) : M ExecResult :=
  fun w =>
    (match proc_spawn w command args cwd with
     | SpawnThrows e => Thrown e
     | SpawnEvents events => promise_outcome (run_child events)
     end, [EffSpawn command args cwd]).

(* ================================================================== *)
(** ** Responses *)

Definition nl : jstring := [10%N].
Definition dquote : jstring := [34%N].

(** A content block [{ type: "text", text }]. *)
Record ContentBlock : Type := mkContentBlock {
  block_type : jstring;
  block_text : jstring
}.

Definition text_block (text : jstring) : ContentBlock :=
  mkContentBlock (js "text") text.

Record ResourceDescriptor : Type := mkResource {
  res_uri : jstring;
  res_name : jstring;
  res_mimeType : jstring;
  res_description : jstring
}.

(** One property of a tool's [inputSchema]. *)
Record PropertySchema : Type := mkProperty {
  prop_type : jstring;
  prop_enum : option (list jstring);
  prop_description : jstring;
  prop_default : option JsValue
}.

Record ToolDescriptor : Type := mkTool {
  tool_name : jstring;
  tool_description : jstring;
  tool_properties : list (string * PropertySchema);
  tool_required : list string
}.

Record PromptArgument : Type := mkPromptArgument {
  parg_name : string;
  parg_description : jstring;
  parg_required : bool
}.

Record PromptDescriptor : Type := mkPrompt {
  prompt_name : jstring;
  prompt_description : jstring;
  prompt_arguments : list PromptArgument
}.

(** The result of prompts/get: a description and one user message. *)
Record PromptMessage : Type := mkPromptMessage {
  msg_role : jstring;
  msg_content : ContentBlock
}.

Record PromptResult : Type := mkPromptResult {
  result_description : jstring;
  result_messages : list PromptMessage
}.

(** The requests the server registers a handler for, with the parameters
    the handlers read, and their results. *)
Inductive Request : Type :=
  | ListResourcesRequest
  | ReadResourceRequest (uri : jstring)
  | ListToolsRequest
  | CallToolRequest (name : jstring) (args : option (gmap string JsValue))
  | ListPromptsRequest
  | GetPromptRequest (name : jstring) (args : option (gmap string jstring)).

Inductive Response : Type :=
  | ResourcesResult (resources : list ResourceDescriptor)
  | ContentsResult (contents : list ContentBlock)
  | ToolsResult (tools : list ToolDescriptor)
  | ToolCallResult (content : list ContentBlock)
  | PromptsResult (prompts : list PromptDescriptor)
  | PromptGetResult (result : PromptResult).

(** [const { first, ... } = args]: destructuring [undefined] throws. *)
Definition destructure (args : option (gmap string JsValue)) (first : string)
    : M (gmap string JsValue) :=
  match args with
  | Some o => ret o
  | None =>
      throw (TypeError (js "Cannot destructure property '" ++ js first
                          ++ js "' of 'args' as it is undefined."))
  end.

(** A [Record<string, string>] built by assignments: [Object.entries]
    lists the keys in the order of their first assignment. *)
Fixpoint env_set (env : list (jstring * jstring)) (key value : jstring)
    : list (jstring * jstring) :=
  match env with
  | [] => [(key, value)]
  | (k, v) :: rest =>
      if jstring_eqb k key then (k, value) :: rest
      else (k, v) :: env_set rest key value
  end.

(** [list.map(x => `- ${x}`).join('\n')] *)
Definition bullet_list (l : list jstring) : jstring :=
  join nl (map (fun x => js "- " ++ x) l).

(** *** Numbers of the compatibility score

    The score is computed in binary64 as the code computes it; [toFixed1]
    is [Number.prototype.toFixed(1)], which rounds the exact value of the
    float to tenths, halves upwards. *)
(** An array length as a float (exact below 2^53, which lengths are). *)
Definition float_of_nat (n : nat) : float :=
  PrimFloat.of_uint63 (Uint63.of_Z (Z.of_nat n)).

Definition tenths (m : positive) (e : Z) : Z :=
  if (e <? 0)%Z then ((20 * Zpos m + 2 ^ (- e)) / 2 ^ (1 - e))%Z
  else (10 * Zpos m * 2 ^ e)%Z.

Definition fixed1_of_tenths (n : Z) : jstring :=
  string_of_Z (n / 10) ++ js "." ++ string_of_Z (n mod 10).

Definition toFixed1 (x : float) : jstring :=
  match Prim2SF x with
  | S754_zero false => js "0.0"
  | S754_zero true => js "-0.0"
  | S754_finite false m e => fixed1_of_tenths (tenths m e)
  | S754_finite true m e => js "-" ++ fixed1_of_tenths (tenths m e)
  | S754_infinity false => js "Infinity"
  | S754_infinity true => js "-Infinity"
  | S754_nan => js "NaN"
  end.

(* ================================================================== *)
(** * The server with the Verilog and Makefile analyzers *)

Module Enhanced.

(** ** The text analyzers *)

Record VerilogAnalysis : Type := mkVerilogAnalysis {
  syntax_issues : list jstring;
  package_dependencies : list jstring;
  signal_definitions : list jstring;
  interface_ports : list jstring
}.

(** [/import\s+(\w+)::\*/] *)
Definition re_import : regex :=
  seq [Chars (js "import"); Plus space_char; Group (Plus word_char);
       Chars (js "::*")].

(** [(?:\[[^\]]+\])?] *)
Definition re_range_opt : regex :=
  Opt (seq [Chars (js "["); Plus (not_char 93); Chars (js "]")]).

(** [/(?:logic|wire|reg)\s+(?:\[[^\]]+\])?\s*(\w+)/] *)
Definition re_signal : regex :=
  seq [alts [Chars (js "logic"); Chars (js "wire"); Chars (js "reg")];
       Plus space_char; re_range_opt; Star space_char; Group (Plus word_char)].

(** [/(?:input|output|inout)\s+(?:logic|wire|reg)?\s*(?:\[[^\]]+\])?\s*(\w+)/] *)
Definition re_port : regex :=
  seq [alts [Chars (js "input"); Chars (js "output"); Chars (js "inout")];
       Plus space_char;
       Opt (alts [Chars (js "logic"); Chars (js "wire"); Chars (js "reg")]);
       Star space_char; re_range_opt; Star space_char; Group (Plus word_char)].

(** The body of [analyzeVerilogFile] after the file is read. *)
Definition analyzeVerilogText (content : jstring) : VerilogAnalysis :=
  let packageMatches := default [] (string_match_g content re_import) in
  let packages :=
    map (fun m => or_string (string_match m re_import ≫= match_group1) [])
        packageMatches in
  let signalMatches := default [] (string_match_g content re_signal) in
  let signals :=
    map (fun m => or_string (array_pop (string_split m (Plus space_char))) [])
        signalMatches in
  let portMatches := default [] (string_match_g content re_port) in
  let ports :=
    map (fun m => or_string (array_pop (string_split m (Plus space_char))) [])
        portMatches in
  mkVerilogAnalysis [] (filter nonempty packages) (filter nonempty signals)
    (filter nonempty ports).

Definition analyzeVerilogFile (filePath : JsValue) : M VerilogAnalysis :=
  try_catch
    (do content <- readFileContent filePath;
     ret (analyzeVerilogText content))
    (fun error =>
       throw (Error (js "Verilog analysis failed: " ++ error_to_string error))).

Record MakefileAnalysis : Type := mkMakefileAnalysis {
  simulator_config : jstring;
  test_targets : list jstring;
  dependencies : list jstring;
  issues : list jstring
}.

(** [/SIM\s*[:?]?=\s*(\w+)/] *)
Definition re_sim : regex :=
  seq [Chars (js "SIM"); Star space_char; Opt (Class (one_of (js ":?")));
       Chars (js "="); Star space_char; Group (Plus word_char)].

(** [/^(\w+):/gm] *)
Definition re_target : regex :=
  seq [LineStart; Group (Plus word_char); Chars (js ":")].

(** [/include\s+([^\s]+)/g] *)
Definition re_include : regex :=
  seq [Chars (js "include"); Plus space_char;
       Group (Plus (fun c => negb (space_char c)))].

Definition issue_sim_unset : jstring :=
  js "SIM variable not explicitly set - may cause simulator selection issues".
Definition issue_no_cocotb : jstring :=
  js "Missing COCOTB configuration variables".
Definition issue_no_sources : jstring :=
  js "VERILOG_SOURCES not defined - required for compilation".

(** The body of [analyzeMakefile] after the file is read. *)
Definition analyzeMakefileText (content : jstring) : MakefileAnalysis :=
  let simMatch := string_match content re_sim in
  let simulator := or_string (simMatch ≫= match_group1) (js "not_specified") in
  let targetMatches := default [] (string_match_g content re_target) in
  let targets := map (fun m => replace_first m (js ":") []) targetMatches in
  let depMatches := default [] (string_match_g content re_include) in
  let deps := map (fun m => replace_first m (js "include ") []) depMatches in
  let issues :=
    (if jstring_eqb simulator (js "not_specified") then [issue_sim_unset] else [])
    ++ (if negb (includes content (js "COCOTB_")) then [issue_no_cocotb] else [])
    ++ (if negb (includes content (js "VERILOG_SOURCES")) then [issue_no_sources]
        else []) in
  mkMakefileAnalysis simulator targets deps issues.

Definition analyzeMakefile (makefilePath : JsValue) : M MakefileAnalysis :=
  try_catch
    (do content <- readFileContent makefilePath;
     ret (analyzeMakefileText content))
    (fun error =>
       throw (Error (js "Makefile analysis failed: " ++ error_to_string error))).

(** ** resources/list *)

Definition listResources : list ResourceDescriptor :=
  [ mkResource (js "opennic://filter-requirements")
      (js "OpenNIC Packet Filter Requirements Document")
      (js "text/plain")
      (js "Requirements document for the packet filter implementation");
    mkResource (js "opennic://filter-implementation")
      (js "OpenNIC Packet Filter Implementation Overview")
      (js "text/markdown")
      (js "Detailed implementation overview and submission document");
    mkResource (js "opennic://register-map")
      (js "Packet Filter Register Map Documentation")
      (js "text/markdown")
      (js "CSR register map documentation for the packet filter");
    mkResource (js "opennic://simulation-guide")
      (js "How to Run Filter Simulations with Verilator")
      (js "text/markdown")
      (js "Complete guide for Verilator-based Cocotb simulations");
    mkResource (js "opennic://debug-workflow")
      (js "Hardware Debug Workflow Guide")
      (js "text/markdown")
      (js "Step-by-step debugging methodology for OpenNIC filter issues") ].

(** ** resources/read *)

Definition simulation_guide : jstring :=
  js "# OpenNIC Filter Simulation Guide (Verilator Only)

## Prerequisites
1. **Verilator** - SystemVerilog simulator (REQUIRED - enforced by MCP server)
   - macOS: `brew install verilator`
   - Ubuntu: `sudo apt-get install verilator`
   - Verify: `verilator --version` (minimum v4.200+)
2. Python virtual environment with Cocotb
3. OpenNIC shell project setup

## Simulator Compatibility Check
The MCP server automatically enforces Verilator usage and validates:
- ✅ Verilator installation and version
- ✅ SystemVerilog package syntax compatibility
- ✅ Test signal cross-referencing
- ✅ Build dependency detection

## Running Filter Tests (Verilator-Optimized)

### Setup Environment
```bash
cd /Users/jonafta/Dev/open-nic-shell-ji-mb/tb/tests/filter_rx_pipeline
source venv/bin/activate
pip install -r requirements.txt
```

### Test Execution (Always Verilator)
```bash
# The MCP server sets SIM=verilator automatically
make test                    # Basic test with Verilator
make test WAVES=1           # Generate VCD waveforms
make test COCOTB_DEBUG=1    # Enable detailed logging
```

### Verilator-Specific Features
- **Fast Compilation**: C++ backend for optimal performance
- **VCD Waveforms**: `--trace --trace-structs` for detailed signals
- **Lint Checking**: Built-in SystemVerilog compliance checking
- **Coverage**: Optional `--coverage` for code coverage analysis

## Debug Workflow Integration
The MCP server provides enhanced debugging assistance:
1. **Makefile Analysis**: Detects configuration issues
2. **Interface Matching**: Validates port connections
3. **Signal Cross-Reference**: Maps testbench to RTL signals
4. **Build Dependency**: Tracks include files and packages

## Test Structure
- **test_filter_basic.py**: IPv4/IPv6 basic filtering
- **test_filter_advanced.py**: Edge cases and stress tests
- **test_csr_interface.py**: Register access validation
- **test_performance.py**: Throughput and timing tests

## Verilator Performance Optimization
```bash
# High-performance simulation options
VERILATOR_ARGS="
  ++ dquote
  ++ js "--threads 4 -O3"
  ++ dquote
  ++ js " make test
VERILATOR_ARGS="
  ++ dquote
  ++ js "--x-assign unique --x-initial unique"
  ++ dquote
  ++ js " make test
```

## Debugging with Enhanced Capabilities
- **Syntax Validation**: Real-time SystemVerilog syntax checking
- **Package Dependencies**: Automatic import resolution
- **Signal Analysis**: Cross-reference test signals with RTL
- **Build Issues**: Intelligent dependency detection and fixes
".

Definition debug_workflow : jstring :=
  js "# OpenNIC Filter Hardware Debug Workflow

## Phase 1: Pre-Simulation Analysis
1. **Verilog Syntax Check**
   - MCP server validates SystemVerilog syntax
   - Checks package import dependencies
   - Identifies signal definition issues

2. **Build Environment Validation**
   - Makefile configuration analysis
   - Simulator compatibility verification
   - Dependency resolution checking

## Phase 2: Compilation Debug
1. **Verilator Lint Phase**
   ```bash
   verilator --lint-only -Wall filter_rx_pipeline.sv
   ```

2. **Package Dependency Resolution**
   - Verify all imported packages are available
   - Check include file paths
   - Validate interface definitions

## Phase 3: Simulation Debug
1. **Signal Cross-Reference**
   - Map testbench signals to RTL hierarchy
   - Identify interface mismatches
   - Validate clock domain connections

2. **Waveform Analysis**
   ```bash
   # Generate detailed VCD with all signals
   WAVES=1 VERILATOR_ARGS="
  ++ dquote
  ++ js "--trace --trace-structs"
  ++ dquote
  ++ js " make test
   gtkwave sim_build/filter_rx_pipeline.vcd
   ```

## Phase 4: Functional Debug
1. **Packet Processing Pipeline**
   - Verify AXI-Stream handshaking
   - Check packet parsing stages
   - Validate filter decision logic

2. **CSR Interface Debug**
   - Test register read/write operations
   - Verify address decoding
   - Check statistics counter updates

## Phase 5: Performance Debug
1. **Timing Analysis**
   - Check for combinational loops
   - Verify pipeline stage timing
   - Validate 250MHz operation

2. **Throughput Validation**
   - Measure packet processing rate
   - Check for backpressure handling
   - Validate flow control mechanisms

## MCP Server Debug Tools
- `analyze-verilog-syntax`: SystemVerilog validation
- `check-interface-compatibility`: Port matching verification
- `suggest-makefile-fixes`: Build configuration recommendations
- `cross-reference-signals`: Test-to-RTL signal mapping

## Common Issues and Solutions
1. **Interface Mismatch**: Use signal cross-reference tool
2. **Build Failures**: Run Makefile analysis for suggestions
3. **Timing Violations**: Check pipeline stage implementation
4. **Functional Errors**: Use waveform analysis with VCD viewer
".

Definition requirementsPath : jstring :=
  js "/Users/jonafta/Dev/open-nic-shell-ji-mb/requirements.md".
Definition submissionPath : jstring :=
  js "/Users/jonafta/Dev/open-nic-shell-ji-mb/opennic_packet_filter_submission.md".
Definition registerMapPath : jstring :=
  js "/Users/jonafta/Dev/open-nic-shell-ji-mb/plugin/p2p/box_250mhz/csr/doc/register_map.md".

Definition requirements_fallback : jstring :=
  js "Requirements document not found. Please ensure the OpenNIC project is available.".
Definition submission_fallback : jstring :=
  js "Implementation document not found. Please ensure the submission document exists.".
Definition registerMap_fallback : jstring :=
  js "Register map documentation not found.".

(** One [case] of the three that read a file:
    [try { content = await readFileContent(path); return one block }
     catch (error) { return one block with the fixed text }]. *)
Definition read_or_fallback (path fallback : jstring) : M (list ContentBlock) :=
  try_catch
    (do content <- readFileContent (VString path);
     ret [text_block content])
    (fun _ => ret [text_block fallback]).

Definition readResource (uri : jstring) : M (list ContentBlock) :=
  if jstring_eqb uri (js "opennic://filter-requirements") then
    read_or_fallback requirementsPath requirements_fallback
  else if jstring_eqb uri (js "opennic://filter-implementation") then
    read_or_fallback submissionPath submission_fallback
  else if jstring_eqb uri (js "opennic://register-map") then
    read_or_fallback registerMapPath registerMap_fallback
  else if jstring_eqb uri (js "opennic://simulation-guide") then
    ret [text_block simulation_guide]
  else if jstring_eqb uri (js "opennic://debug-workflow") then
    ret [text_block debug_workflow]
  else
    throw (McpError InvalidRequest (js "Unknown resource: " ++ uri)).

(** ** tools/list *)

Definition string_property (description : jstring) : PropertySchema :=
  mkProperty (js "string") None description None.
Definition enum_property (values : list jstring) (description : jstring)
    : PropertySchema :=
  mkProperty (js "string") (Some values) description None.
Definition boolean_property (description : jstring) (dflt : option JsValue)
    : PropertySchema :=
  mkProperty (js "boolean") None description dflt.

Definition listTools : list ToolDescriptor :=
  [ mkTool (js "run-filter-simulation")
      (js "Run OpenNIC packet filter simulation with Verilator (enforced)")
      [ ("test_type",
         enum_property
           [js "basic"; js "advanced"; js "csr"; js "performance"; js "all"]
           (js "Type of test to run"));
        ("debug", boolean_property (js "Enable debug logging") None);
        ("waves", boolean_property (js "Generate VCD waveform files") None) ]
      ["test_type"];
    mkTool (js "analyze-verilog-syntax")
      (js "Analyze SystemVerilog code for syntax and package dependencies")
      [ ("file_path", string_property (js "Path to SystemVerilog file to analyze"));
        ("check_packages",
         boolean_property (js "Check package import dependencies")
           (Some (VBool true))) ]
      ["file_path"];
    mkTool (js "check-interface-compatibility")
      (js "Verify interface connections between testbench and RTL")
      [ ("testbench_file", string_property (js "Path to testbench file"));
        ("rtl_file", string_property (js "Path to RTL file")) ]
      ["testbench_file"; "rtl_file"];
    mkTool (js "suggest-makefile-fixes")
      (js "Analyze Makefile and suggest configuration improvements")
      [ ("makefile_path", string_property (js "Path to Makefile to analyze")) ]
      ["makefile_path"];
    mkTool (js "cross-reference-signals")
      (js "Map testbench signals to RTL hierarchy for debugging")
      [ ("hierarchy_level",
         enum_property [js "top"; js "filter"; js "parser"; js "all"]
           (js "RTL hierarchy level to analyze")) ]
      ["hierarchy_level"];
    mkTool (js "check-requirements-compliance")
      (js "Check if the filter implementation meets specified requirements")
      [ ("requirement_type",
         enum_property
           [js "functional"; js "interface"; js "performance"; js "all"]
           (js "Type of requirements to check")) ]
      ["requirement_type"] ].

(** ** tools/call *)

Definition testDir : jstring :=
  js "/Users/jonafta/Dev/open-nic-shell-ji-mb/tb/tests/filter_rx_pipeline".

(** The [switch (test_type)] of run-filter-simulation. *)
Definition set_testcase (env : list (jstring * jstring)) (test_type : JsValue)
    : list (jstring * jstring) :=
  if strict_eq_string test_type (js "basic") then
    env_set env (js "TESTCASE") (js "test_filter_basic")
  else if strict_eq_string test_type (js "advanced") then
    env_set env (js "TESTCASE") (js "test_filter_advanced")
  else if strict_eq_string test_type (js "csr") then
    env_set env (js "TESTCASE") (js "test_csr_interface")
  else if strict_eq_string test_type (js "performance") then
    env_set env (js "TESTCASE") (js "test_performance")
  else env.

(** [fullCommand] of run-filter-simulation. *)
Definition simulation_command (test_type debug waves : JsValue) : jstring :=
  let makeCommand := js "make test" in
  let env := [] in
  let env := env_set env (js "SIM") (js "verilator") in
  let env := if truthy debug then env_set env (js "COCOTB_DEBUG") (js "1")
             else env in
  let env := if truthy waves then
               env_set (env_set env (js "WAVES") (js "1"))
                 (js "EXTRA_ARGS") (js "--trace --trace-structs")
             else env in
  let env := set_testcase env test_type in
  let envString :=
    join (js " ") (map (fun '(key, value) => key ++ js "=" ++ value) env) in
  envString ++ js " " ++ makeCommand.

Definition simulation_success (fullCommand : jstring) (result : ExecResult)
    : jstring :=
  js "✅ Verilator simulation completed successfully!" ++ nl ++ nl
  ++ js "🔧 Command: " ++ fullCommand ++ nl
  ++ js "📊 Simulator: Verilator (enforced)" ++ nl ++ nl
  ++ js "📋 STDOUT:" ++ nl ++ stdout result ++ nl ++ nl
  ++ js "⚠️  STDERR:" ++ nl ++ stderr result.

Definition simulation_failure (error : JsError) : jstring :=
  js "❌ Verilator simulation failed: " ++ error_to_string error ++ nl ++ nl
  ++ js "🔍 Troubleshooting Steps:" ++ nl
  ++ js "1. Verify Verilator installation: verilator --version" ++ nl
  ++ js "2. Check OpenNIC project setup" ++ nl
  ++ js "3. Activate virtual environment" ++ nl
  ++ js "4. Install dependencies: pip install -r requirements.txt" ++ nl
  ++ js "5. Use 'suggest-makefile-fixes' tool for configuration issues".

Definition run_filter_simulation (args : option (gmap string JsValue))
    : M (list ContentBlock) :=
  do o <- destructure args "test_type";
  let test_type := get_arg o "test_type" in
  let debug := with_default (get_arg o "debug") (VBool false) in
  let waves := with_default (get_arg o "waves") (VBool false) in
  try_catch
    (do _ <- access testDir;
     let fullCommand := simulation_command test_type debug waves in
     do result <- executeCommand (js "bash")
                    [VString (js "-c"); VString fullCommand] (Some testDir);
     ret [text_block (simulation_success fullCommand result)])
    (fun error => ret [text_block (simulation_failure error)]).

(** The report of analyze-verilog-syntax up to the Verilator check. *)
Definition verilog_report (file_path check_packages : JsValue)
    (analysis : VerilogAnalysis) : jstring :=
  let report :=
    js "# SystemVerilog Analysis Report" ++ nl ++ nl
    ++ js "**File:** " ++ to_string file_path ++ nl ++ nl in
  let report :=
    if truthy check_packages then
      let report := report ++ js "## Package Dependencies" ++ nl in
      if (0 <? length (package_dependencies analysis))%nat then
        report ++ bullet_list (package_dependencies analysis) ++ nl ++ nl
      else report ++ js "No package imports found." ++ nl ++ nl
    else report in
  let report := report ++ js "## Signal Definitions" ++ nl in
  let report :=
    if (0 <? length (signal_definitions analysis))%nat then
      let report :=
        report ++ bullet_list (take 10 (signal_definitions analysis)) in
      if (10 <? length (signal_definitions analysis))%nat then
        report ++ nl ++ js "... and "
        ++ string_of_nat (length (signal_definitions analysis) - 10)
        ++ js " more signals" ++ nl
      else report
    else report ++ js "No signal definitions found." ++ nl in
  let report := report ++ nl ++ js "## Interface Ports" ++ nl in
  if (0 <? length (interface_ports analysis))%nat then
    report ++ bullet_list (interface_ports analysis)
  else report ++ js "No interface ports found." ++ nl.

Definition analyze_verilog_syntax (args : option (gmap string JsValue))
    : M (list ContentBlock) :=
  do o <- destructure args "file_path";
  let file_path := get_arg o "file_path" in
  let check_packages := with_default (get_arg o "check_packages") (VBool true) in
  try_catch
    (do analysis <- analyzeVerilogFile file_path;
     let report := verilog_report file_path check_packages analysis in
     do report <-
       try_catch
         (do verilatorResult <-
            executeCommand (js "verilator")
              [VString (js "--lint-only"); VString (js "-Wall"); file_path] None;
          ret (report ++ nl ++ js "## Verilator Syntax Check" ++ nl
               ++ js "✅ No syntax errors found." ++ nl))
         (fun verilatorError =>
            ret (report ++ nl ++ js "## Verilator Syntax Check" ++ nl
                 ++ js "⚠️ Issues found:" ++ nl
                 ++ error_to_string verilatorError ++ nl));
     ret [text_block report])
    (fun error =>
       ret [text_block (js "❌ Verilog analysis failed: " ++ error_to_string error)]).

(** [analysis.issues.forEach((issue, index) => ...)] *)
Fixpoint numbered_issues (index : nat) (l : list jstring) : jstring :=
  match l with
  | [] => []
  | issue :: rest =>
      string_of_nat (index + 1) ++ js ". ⚠️ " ++ issue ++ nl
      ++ numbered_issues (S index) rest
  end.

Definition fix_force_verilator : jstring :=
  js "1. 🔧 **Force Verilator Usage:**" ++ nl
  ++ js "   Add to Makefile: `SIM ?= verilator`" ++ nl ++ nl.

Definition fix_clean_target : jstring :=
  js "2. 🧹 **Add Clean Target:**" ++ nl
  ++ js "   ```makefile" ++ nl ++ js "   clean:" ++ nl
  ++ js "       rm -rf sim_build/ __pycache__/ *.vcd" ++ nl ++ js "   ```"
  ++ nl ++ nl.

Definition fix_enhanced_configuration : jstring :=
  js "3. 📊 **Enhanced Verilator Configuration:**" ++ nl
  ++ js "   ```makefile" ++ nl
  ++ js "   EXTRA_ARGS += --trace --trace-structs" ++ nl
  ++ js "   EXTRA_ARGS += --x-assign unique --x-initial unique" ++ nl
  ++ js "   COMPILE_ARGS += -Wall -Wno-fatal" ++ nl ++ js "   ```" ++ nl ++ nl.

(** The text appended after the heading [## Recommended Fixes]. *)
Definition recommended_fixes (analysis : MakefileAnalysis) : jstring :=
  (if negb (jstring_eqb (simulator_config analysis) (js "verilator"))
   then fix_force_verilator else [])
  ++ (if negb (array_includes (test_targets analysis) (js "clean"))
      then fix_clean_target else [])
  ++ fix_enhanced_configuration.

(** The text appended for [analysis.issues]. *)
Definition issues_section (analysis : MakefileAnalysis) : jstring :=
  if (0 <? length (issues analysis))%nat then
    js "## Issues Found" ++ nl ++ numbered_issues 0 (issues analysis) ++ nl
  else [].

Definition makefile_report (makefile_path : JsValue)
    (analysis : MakefileAnalysis) : jstring :=
  let report :=
    js "# Makefile Analysis and Suggestions" ++ nl ++ nl
    ++ js "**File:** " ++ to_string makefile_path ++ nl ++ nl in
  let report := report ++ js "## Current Configuration" ++ nl in
  let report :=
    report ++ js "- **Simulator:** " ++ simulator_config analysis ++ nl in
  let report :=
    report ++ js "- **Targets:** " ++ join (js ", ") (test_targets analysis)
    ++ nl in
  let report :=
    report ++ js "- **Dependencies:** "
    ++ or_string (Some (join (js ", ") (dependencies analysis)))
         (js "None detected")
    ++ nl ++ nl in
  let report := report ++ issues_section analysis in
  let report := report ++ js "## Recommended Fixes" ++ nl in
  report ++ recommended_fixes analysis.

Definition suggest_makefile_fixes (args : option (gmap string JsValue))
    : M (list ContentBlock) :=
  do o <- destructure args "makefile_path";
  let makefile_path := get_arg o "makefile_path" in
  try_catch
    (do analysis <- analyzeMakefile makefile_path;
     ret [text_block (makefile_report makefile_path analysis)])
    (fun error =>
       ret [text_block (js "❌ Makefile analysis failed: " ++ error_to_string error)]).

(** [commonPorts.length / Math.max(n, 1) * 100] in binary64. *)
Definition compatibility_score (common total : nat) : float :=
  PrimFloat.mul
    (PrimFloat.div (float_of_nat common) (float_of_nat (Nat.max total 1)))
    (float_of_nat 100).

Definition compatibility_report (testbench_file rtl_file : JsValue)
    (testbenchAnalysis rtlAnalysis : VerilogAnalysis) : jstring :=
  let commonPorts :=
    filter (fun port => array_includes (interface_ports rtlAnalysis) port)
      (interface_ports testbenchAnalysis) in
  let testbenchOnlyPorts :=
    filter (fun port => negb (array_includes (interface_ports rtlAnalysis) port))
      (interface_ports testbenchAnalysis) in
  let rtlOnlyPorts :=
    filter
      (fun port => negb (array_includes (interface_ports testbenchAnalysis) port))
      (interface_ports rtlAnalysis) in
  let report := js "# Interface Compatibility Analysis" ++ nl ++ nl in
  let report :=
    report ++ js "**Testbench:** " ++ to_string testbench_file ++ nl
    ++ js "**RTL:** " ++ to_string rtl_file ++ nl ++ nl in
  let report := report ++ js "## ✅ Matching Interfaces" ++ nl in
  let report :=
    if (0 <? length commonPorts)%nat then
      report ++ bullet_list commonPorts ++ nl ++ nl
    else report ++ js "No matching port names found." ++ nl ++ nl in
  let report :=
    if (0 <? length testbenchOnlyPorts)%nat then
      report ++ js "## ⚠️ Testbench-Only Signals" ++ nl
      ++ bullet_list testbenchOnlyPorts ++ nl ++ nl
    else report in
  let report :=
    if (0 <? length rtlOnlyPorts)%nat then
      report ++ js "## ⚠️ RTL-Only Ports" ++ nl
      ++ bullet_list rtlOnlyPorts ++ nl ++ nl
    else report in
  let compatibilityScore :=
    compatibility_score (length commonPorts)
      (length (interface_ports testbenchAnalysis)) in
  let report :=
    report ++ js "## Compatibility Score: " ++ toFixed1 compatibilityScore
    ++ js "%" ++ nl in
  if PrimFloat.ltb compatibilityScore (float_of_nat 80) then
    report ++ nl
    ++ js "⚠️ **Recommendation:** Review interface connections - low compatibility score suggests potential issues."
    ++ nl
  else report.

Definition check_interface_compatibility (args : option (gmap string JsValue))
    : M (list ContentBlock) :=
  do o <- destructure args "testbench_file";
  let testbench_file := get_arg o "testbench_file" in
  let rtl_file := get_arg o "rtl_file" in
  try_catch
    (do testbenchAnalysis <- analyzeVerilogFile testbench_file;
     do rtlAnalysis <- analyzeVerilogFile rtl_file;
     ret [text_block (compatibility_report testbench_file rtl_file
                        testbenchAnalysis rtlAnalysis)])
    (fun error =>
       ret [text_block (js "❌ Interface compatibility check failed: "
                          ++ error_to_string error)]).

(** The literal object [signalMap], in the order of [Object.entries]. *)
Definition signalMap : list (jstring * list jstring) :=
  [ (js "top",
     [ js "aclk - Main clock signal";
       js "aresetn - Active-low reset";
       js "s_axis_* - Input AXI-Stream interface";
       js "m_axis_* - Output AXI-Stream interface";
       js "s_axil_* - AXI-Lite configuration interface" ]);
    (js "filter",
     [ js "filter_enable - Enable/disable filtering";
       js "rule_*_ip_addr - Filter rule IP addresses";
       js "rule_*_port - Filter rule port numbers";
       js "hit_count_* - Statistics counters";
       js "packet_match - Filter decision output" ]);
    (js "parser",
     [ js "eth_type - Ethernet type field";
       js "ip_version - IP version (4 or 6)";
       js "ip_dst_addr - Destination IP address";
       js "tcp_dst_port - TCP destination port";
       js "udp_dst_port - UDP destination port";
       js "parse_valid - Parser output valid" ]) ].

(** The properties every object literal inherits from [Object.prototype];
    none of them has a [map] method. *)
Definition object_prototype_keys : list jstring :=
  [ js "constructor"; js "__defineGetter__"; js "__defineSetter__";
    js "hasOwnProperty"; js "__lookupGetter__"; js "__lookupSetter__";
    js "isPrototypeOf"; js "propertyIsEnumerable"; js "toString";
    js "valueOf"; js "__proto__"; js "toLocaleString" ].

Fixpoint assoc_lookup {A} (l : list (jstring * A)) (key : jstring) : option A :=
  match l with
  | [] => None
  | (k, v) :: rest => if jstring_eqb k key then Some v else assoc_lookup rest key
  end.

(** [signalMap[hierarchy_level]?.map(sig => `- ${sig}`).join('\n') + '\n\n'];
    the key is the string conversion of the value. *)
Definition signal_section (hierarchy_level : JsValue) : M jstring :=
  let key := to_string hierarchy_level in
  match assoc_lookup signalMap key with
  | Some signals => ret (bullet_list signals ++ nl ++ nl)
  | None =>
      if array_includes object_prototype_keys key then
        throw (TypeError (js "signalMap[hierarchy_level]?.map is not a function"))
      else ret (js "undefined" ++ nl ++ nl)
  end.

Definition testbench_access_patterns : jstring :=
  js "## Testbench Access Patterns" ++ nl
  ++ js "```python" ++ nl
  ++ js "# Access top-level signals" ++ nl
  ++ js "await ClockCycles(dut.aclk, 10)" ++ nl
  ++ js "dut.aresetn.value = 0" ++ nl ++ nl
  ++ js "# Access filter configuration" ++ nl
  ++ js "dut.rule_0_ip_addr.value = 0x0A000001  # 10.0.0.1" ++ nl
  ++ js "await ClockCycles(dut.aclk, 1)" ++ nl ++ nl
  ++ js "# Monitor statistics" ++ nl
  ++ js "hit_count = dut.hit_count_0.value" ++ nl
  ++ js "```" ++ nl.

Definition cross_reference_signals (args : option (gmap string JsValue))
    : M (list ContentBlock) :=
  do o <- destructure args "hierarchy_level";
  let hierarchy_level := get_arg o "hierarchy_level" in
  try_catch
    (let report :=
       js "# Signal Cross-Reference Map" ++ nl ++ nl
       ++ js "**Hierarchy Level:** " ++ to_string hierarchy_level ++ nl ++ nl in
     do report <-
       (if strict_eq_string hierarchy_level (js "all") then
          ret (report
               ++ concat
                    (map (fun '(level, signals) =>
                            js "## " ++ toUpperCase_ascii level ++ js " Level" ++ nl
                            ++ bullet_list signals ++ nl ++ nl)
                         signalMap))
        else
          do section <- signal_section hierarchy_level;
          ret (report ++ js "## Signal Definitions" ++ nl ++ section));
     ret [text_block (report ++ testbench_access_patterns)])
    (fun error =>
       ret [text_block (js "❌ Signal cross-reference failed: "
                          ++ error_to_string error)]).

Record ComplianceCheck : Type := mkCheck {
  check_name : jstring;
  check_check : jstring;
  check_status : jstring
}.

(** [checksToRun] after the three [if]s. *)
Definition checksToRun (requirement_type : JsValue) : list ComplianceCheck :=
  (if strict_eq_string requirement_type (js "functional")
      || strict_eq_string requirement_type (js "all")
   then
     [ mkCheck (js "IPv4/IPv6 Filtering")
         (js "Verify packet parsing and filtering logic")
         (js "✅ Implemented in filter_rx_pipeline.sv with Verilator validation");
       mkCheck (js "Port-based Filtering")
         (js "Verify TCP/UDP port filtering")
         (js "✅ Implemented with wildcard support and syntax validation");
       mkCheck (js "Statistics Counters")
         (js "Verify hit/miss/total counters")
         (js "✅ Implemented in CSR registers with interface compatibility check") ]
   else [])
  ++ (if strict_eq_string requirement_type (js "interface")
         || strict_eq_string requirement_type (js "all")
      then
        [ mkCheck (js "AXI-Stream Interface")
            (js "Verify 512-bit data width compliance")
            (js "✅ Maintains existing interface with cross-reference validation");
          mkCheck (js "AXI-Lite CSR Interface")
            (js "Verify register map at 0xB000")
            (js "✅ Implemented with proper addressing and Makefile integration") ]
      else [])
  ++ (if strict_eq_string requirement_type (js "performance")
         || strict_eq_string requirement_type (js "all")
      then
        [ mkCheck (js "Throughput Maintenance")
            (js "Verify no performance degradation")
            (js "✅ Single-cycle filtering decision with Verilator timing analysis");
          mkCheck (js "Clock Domain")
            (js "Verify 250MHz operation")
            (js "✅ Integrated in 250MHz user box with dependency validation") ]
      else []).

Definition check_entry (check : ComplianceCheck) : jstring :=
  js "**" ++ check_name check ++ js "**" ++ nl
  ++ js "- Check: " ++ check_check check ++ nl
  ++ js "- Status: " ++ check_status check ++ nl.

Definition compliance_text (checks : list ComplianceCheck) : jstring :=
  let report := join nl (map check_entry checks) in
  js "# Enhanced Requirements Compliance Report" ++ nl ++ nl ++ report ++ nl ++ nl
  ++ js "**Overall Status**: ✅ All specified requirements met with enhanced verification capabilities"
  ++ nl ++ nl
  ++ js "**Verification Tools Used:**" ++ nl
  ++ js "- Verilator syntax validation" ++ nl
  ++ js "- Interface compatibility checking" ++ nl
  ++ js "- Signal cross-referencing" ++ nl
  ++ js "- Makefile configuration analysis".

Definition check_requirements_compliance (args : option (gmap string JsValue))
    : M (list ContentBlock) :=
  do o <- destructure args "requirement_type";
  let requirement_type := get_arg o "requirement_type" in
  try_catch
    (ret [text_block (compliance_text (checksToRun requirement_type))])
    (fun error =>
       ret [text_block (js "❌ Requirements compliance check failed: "
                          ++ error_to_string error)]).

(** The [switch (name)] of the tools/call handler. *)
Definition callTool (name : jstring) (args : option (gmap string JsValue))
    : M (list ContentBlock) :=
  if jstring_eqb name (js "run-filter-simulation") then
    run_filter_simulation args
  else if jstring_eqb name (js "analyze-verilog-syntax") then
    analyze_verilog_syntax args
  else if jstring_eqb name (js "suggest-makefile-fixes") then
    suggest_makefile_fixes args
  else if jstring_eqb name (js "check-interface-compatibility") then
    check_interface_compatibility args
  else if jstring_eqb name (js "cross-reference-signals") then
    cross_reference_signals args
  else if jstring_eqb name (js "check-requirements-compliance") then
    check_requirements_compliance args
  else
    throw (McpError InvalidRequest (js "Unknown tool: " ++ name)).

(** ** prompts/list *)

Definition listPrompts : list PromptDescriptor :=
  [ mkPrompt (js "create-test-scenario")
      (js "Generate a comprehensive test scenario for the packet filter")
      [ mkPromptArgument "scenario_type"
          (js "Type of test scenario (basic, advanced, edge_case, performance)")
          true;
        mkPromptArgument "packet_type" (js "IPv4 or IPv6 packet type") false;
        mkPromptArgument "include_debug"
          (js "Include debugging and analysis steps") false ];
    mkPrompt (js "debug-workflow-guide")
      (js "Generate a specific debug workflow for a given issue")
      [ mkPromptArgument "issue_type"
          (js "Type of issue (compilation, simulation, functional, timing)")
          true;
        mkPromptArgument "symptoms"
          (js "Observed symptoms or error messages") false ] ].

(** ** prompts/get *)

(** [args?.key || fallback]: the arguments of a prompt are strings. *)
Definition prompt_arg (args : option (gmap string jstring)) (key : string)
    (fallback : jstring) : jstring :=
  or_string (args ≫= (fun o => o !! key)) fallback.

Section Prompts.

(** [String.prototype.toLowerCase], the case mapping of Unicode, is the
    engine's; the prompts are stated for any such function. *)
Variable toLowerCase : jstring -> jstring.

Definition test_scenario (scenarioType packetType : jstring)
    (includeDebug : bool) : jstring :=
    js "# Test Scenario: "
    ++ scenarioType
    ++ js " - "
    ++ packetType
    ++ js " Packet Filtering

## Test Objective
Verify packet filter behavior for "
    ++ scenarioType
    ++ js " scenario using "
    ++ packetType
    ++ js " packets with Verilator simulation.

## Prerequisites Verification
- [ ] Verilator installation: `verilator --version`
- [ ] SystemVerilog syntax validation complete
- [ ] Interface compatibility verified
- [ ] Makefile configuration optimized

## Test Setup
1. **Configure Filter Rules:**
   - Rule 0: [Define specific "
    ++ packetType
    ++ js " criteria]
   - Rule 1: [Define specific "
    ++ packetType
    ++ js " criteria]

2. **Generate Test Packets:**
   - Protocol: "
    ++ packetType
    ++ js "
   - Source: [IP address]
   - Destination: [IP address] 
   - Port: [TCP/UDP port]
   - Payload: [Test data pattern]

3. **Verilator Configuration:**
   ```bash
   SIM=verilator WAVES=1 EXTRA_ARGS="
    ++ dquote
    ++ js "--trace --trace-structs"
    ++ dquote
    ++ js " make test
   ```

## Expected Results
- ✅ Matching packets: Forwarded with statistics update
- ❌ Non-matching packets: Dropped with counter increment
- 📊 Statistics: Accurate counter updates verified

## Verification Points
- [ ] Packet parsing correctness (use analyze-verilog-syntax)
- [ ] Filter rule matching logic
- [ ] AXI-Stream flow control (check-interface-compatibility) 
- [ ] CSR register updates (cross-reference-signals)

## Enhanced Debugging Steps
"
    ++ (if includeDebug then
         js "
### Debug Analysis
1. **Pre-simulation:**
   - Run `analyze-verilog-syntax` on filter RTL
   - Use `suggest-makefile-fixes` for build optimization
   - Verify with `check-interface-compatibility`

2. **During Simulation:**
   - Monitor signals with `cross-reference-signals`
   - Generate VCD waveforms for analysis
   - Check real-time statistics updates

3. **Post-simulation:**
   - Analyze waveforms with GTKWave
   - Validate against requirements compliance
   - Performance analysis with Verilator metrics
"
        else [])
    ++ js "

## Cocotb Test Code Template
```python
@cocotb.test()
async def test_"
    ++ toLowerCase scenarioType
    ++ js "_"
    ++ toLowerCase packetType
    ++ js "(dut):
    "
    ++ dquote
    ++ dquote
    ++ dquote
    ++ js "Enhanced "
    ++ scenarioType
    ++ js " test with debugging support"
    ++ dquote
    ++ dquote
    ++ dquote
    ++ js "
    
    # Initialize with Verilator-optimized setup
    clock = Clock(dut.aclk, 4, units="
    ++ dquote
    ++ js "ns"
    ++ dquote
    ++ js ")  # 250MHz
    cocotb.start_soon(clock.start())
    
    # Reset sequence with signal validation
    dut.aresetn.value = 0
    await ClockCycles(dut.aclk, 10)
    dut.aresetn.value = 1
    await ClockCycles(dut.aclk, 10)
    
    # Configure filter rules (use cross-reference for signal names)
    # [Configuration code here]
    
    # Send test packets with AXI-Stream verification
    # [Packet generation code here]
    
    # Verify results with enhanced checking
    # [Verification code here]
    
    # Debug output with signal cross-reference
    dut._log.info(f"
    ++ dquote
    ++ js "Test completed - Use VCD analysis for detailed review"
    ++ dquote
    ++ js ")
```

## Performance Metrics
- Simulation speed: Expected 10-100x faster with Verilator
- Memory usage: Monitor with Verilator built-in profiling
- Coverage: Optional `--coverage` flag for analysis
".

Definition debug_workflow_guide (issueType symptoms : jstring) : jstring :=
    js "# Debug Workflow Guide: "
    ++ issueType
    ++ js " Issues

## Issue Classification
**Type:** "
    ++ issueType
    ++ js "
**Symptoms:** "
    ++ symptoms
    ++ js "

## Systematic Debug Approach

### Phase 1: Environment Validation
1. **Simulator Check:**
   ```bash
   verilator --version  # Must be v4.200+
   which verilator      # Verify PATH
   ```

2. **Project Structure:**
   - Use `analyze-verilog-syntax` on main RTL files
   - Run `suggest-makefile-fixes` for configuration issues
   - Verify dependencies with build analysis

### Phase 2: Targeted Analysis
"
    ++ (if jstring_eqb issueType (js "compilation") then
         js "
**Compilation-Specific Steps:**
1. Run Verilator lint: `verilator --lint-only -Wall *.sv`
2. Check package imports with syntax analyzer
3. Validate include paths and dependencies
4. Review Makefile configuration suggestions
"
        else [])
    ++ js "

"
    ++ (if jstring_eqb issueType (js "simulation") then
         js "
**Simulation-Specific Steps:**
1. Use `check-interface-compatibility` for testbench/RTL matching
2. Enable detailed logging: `COCOTB_DEBUG=1`
3. Generate waveforms: `WAVES=1` with trace analysis
4. Cross-reference signals for hierarchy validation
"
        else [])
    ++ js "

"
    ++ (if jstring_eqb issueType (js "functional") then
         js "
**Functional-Specific Steps:**
1. Use `cross-reference-signals` to map test to RTL
2. Analyze packet processing pipeline stages  
3. Verify filter logic with waveform analysis
4. Check CSR interface with register cross-reference
"
        else [])
    ++ js "

"
    ++ (if jstring_eqb issueType (js "timing") then
         js "
**Timing-Specific Steps:**
1. Review pipeline implementation for combinational loops
2. Check clock domain crossings
3. Analyze critical path with Verilator timing reports
4. Validate 250MHz constraint compliance
"
        else [])
    ++ js "

### Phase 3: Resolution Steps
1. **Apply MCP Tool Recommendations:**
   - Follow suggestions from Makefile analyzer
   - Implement interface compatibility fixes
   - Use signal cross-reference for debugging

2. **Iterative Testing:**
   - Test with simplified scenarios first
   - Gradually increase complexity
   - Use enhanced debugging capabilities

3. **Validation:**
   - Run comprehensive test suite
   - Verify with requirements compliance check
   - Document resolution for future reference

## MCP Tools for This Issue Type
"
    ++ (if jstring_eqb issueType (js "compilation") then
         js "
- `analyze-verilog-syntax`: Check RTL files
- `suggest-makefile-fixes`: Fix build configuration
"
        else [])
    ++ js "
"
    ++ (if jstring_eqb issueType (js "simulation") then
         js "
- `check-interface-compatibility`: Verify connections
- `cross-reference-signals`: Map testbench signals
"
        else [])
    ++ js "
"
    ++ (if jstring_eqb issueType (js "functional") then
         js "
- `cross-reference-signals`: Debug signal flow
- `check-requirements-compliance`: Verify functionality
"
        else [])
    ++ js "
"
    ++ (if jstring_eqb issueType (js "timing") then
         js "
- `analyze-verilog-syntax`: Check for timing issues
- `run-filter-simulation`: Performance testing
"
        else [])
    ++ js "

## Success Criteria
- [ ] Issue symptoms resolved
- [ ] All MCP tools report clean status
- [ ] Simulation runs successfully with Verilator
- [ ] Requirements compliance verified
".

Definition user_message (text : jstring) : PromptMessage :=
  mkPromptMessage (js "user") (text_block text).

Definition getPrompt (name : jstring) (args : option (gmap string jstring))
    : M PromptResult :=
  if jstring_eqb name (js "create-test-scenario") then
    let scenarioType := prompt_arg args "scenario_type" (js "basic") in
    let packetType := prompt_arg args "packet_type" (js "IPv4") in
    let includeDebug := nonempty (prompt_arg args "include_debug" []) in
    let scenario := test_scenario scenarioType packetType includeDebug in
    ret (mkPromptResult
           (js "Enhanced test scenario for " ++ scenarioType ++ js " with "
            ++ packetType ++ js " packets")
           [user_message scenario])
  else if jstring_eqb name (js "debug-workflow-guide") then
    let issueType := prompt_arg args "issue_type" (js "compilation") in
    let symptoms := prompt_arg args "symptoms" (js "Not specified") in
    let workflow := debug_workflow_guide issueType symptoms in
    ret (mkPromptResult
           (js "Debug workflow guide for " ++ issueType ++ js " issues")
           [user_message workflow])
  else
    throw (McpError InvalidRequest (js "Unknown prompt: " ++ name)).

End Prompts.

(** ** The handlers registered with [server.setRequestHandler] *)

Definition handle (toLowerCase : jstring -> jstring) (request : Request)
    : M Response :=
  match request with
  | ListResourcesRequest => ret (ResourcesResult listResources)
  | ReadResourceRequest uri =>
      do contents <- readResource uri; ret (ContentsResult contents)
  | ListToolsRequest => ret (ToolsResult listTools)
  | CallToolRequest name args =>
      do content <- callTool name args; ret (ToolCallResult content)
  | ListPromptsRequest => ret (PromptsResult listPrompts)
  | GetPromptRequest name args =>
      do result <- getPrompt toLowerCase name args; ret (PromptGetResult result)
  end.

End Enhanced.

(* ================================================================== *)
(** * The server of [src/index.ts]

    The first version of the server: the same two helpers, four resources,
    three tools and one prompt. *)

Module Index.

Definition listResources : list ResourceDescriptor :=
  [ mkResource (js "opennic://filter-requirements")
      (js "OpenNIC Packet Filter Requirements Document")
      (js "text/plain")
      (js "Requirements document for the packet filter implementation");
    mkResource (js "opennic://filter-implementation")
      (js "OpenNIC Packet Filter Implementation Overview")
      (js "text/markdown")
      (js "Detailed implementation overview and submission document");
    mkResource (js "opennic://register-map")
      (js "Packet Filter Register Map Documentation")
      (js "text/markdown")
      (js "CSR register map documentation for the packet filter");
    mkResource (js "opennic://simulation-guide")
      (js "How to Run Filter Simulations")
      (js "text/markdown")
      (js "Guide for running Cocotb-based simulations") ].

Definition simulation_guide : jstring :=
  js "# OpenNIC Filter Simulation Guide

## Prerequisites
1. Python virtual environment with Cocotb
2. SystemVerilog simulator (Icarus Verilog, Verilator, etc.)
3. OpenNIC shell project setup

## Running Basic Filter Tests

### Setup Environment
```bash
cd /Users/jonafta/Dev/open-nic-shell-ji-mb/tb/tests/filter_rx_pipeline
source venv/bin/activate
pip install -r requirements.txt
```

### Run Tests
```bash
# Basic functionality test
make test

# With debugging enabled
COCOTB_DEBUG=1 make test

# Specific test case
make test TESTCASE=test_ipv4_filter

# With waveform generation
make test WAVES=1
```

## Test Structure
- **test_filter_basic.py**: Basic packet filtering tests
- **test_filter_advanced.py**: Advanced scenarios (IPv6, edge cases)
- **test_csr_interface.py**: CSR register access tests

## Debugging
- Use `COCOTB_DEBUG=1` for detailed logging
- Waveforms are generated in `sim_build/` directory
- Check `results.xml` for test results

## Requirements Compliance
The tests verify:
1. IPv4/IPv6 packet filtering
2. Port-based filtering
3. Wildcard matching (0x0 values)
4. Statistics counters
5. AXI-Stream flow control
".

Definition requirementsPath : jstring :=
  js "/Users/jonafta/Dev/open-nic-shell-ji-mb/requirements.md".
Definition submissionPath : jstring :=
  js "/Users/jonafta/Dev/open-nic-shell-ji-mb/opennic_packet_filter_submission.md".
Definition registerMapPath : jstring :=
  js "/Users/jonafta/Dev/open-nic-shell-ji-mb/plugin/p2p/box_250mhz/csr/doc/register_map.md".

Definition requirements_fallback : jstring :=
  js "Requirements document not found. Please ensure the OpenNIC project is available.".
Definition submission_fallback : jstring :=
  js "Implementation document not found. Please ensure the submission document exists.".
Definition registerMap_fallback : jstring :=
  js "Register map documentation not found.".

Definition read_or_fallback (path fallback : jstring) : M (list ContentBlock) :=
  try_catch
    (do content <- readFileContent (VString path);
     ret [text_block content])
    (fun _ => ret [text_block fallback]).

Definition readResource (uri : jstring) : M (list ContentBlock) :=
  if jstring_eqb uri (js "opennic://filter-requirements") then
    read_or_fallback requirementsPath requirements_fallback
  else if jstring_eqb uri (js "opennic://filter-implementation") then
    read_or_fallback submissionPath submission_fallback
  else if jstring_eqb uri (js "opennic://register-map") then
    read_or_fallback registerMapPath registerMap_fallback
  else if jstring_eqb uri (js "opennic://simulation-guide") then
    ret [text_block simulation_guide]
  else
    throw (McpError InvalidRequest (js "Unknown resource: " ++ uri)).

Definition enum_property (values : list jstring) (description : jstring)
    : PropertySchema :=
  mkProperty (js "string") (Some values) description None.
Definition boolean_property (description : jstring) : PropertySchema :=
  mkProperty (js "boolean") None description None.

Definition listTools : list ToolDescriptor :=
  [ mkTool (js "run-filter-simulation")
      (js "Run OpenNIC packet filter simulation tests")
      [ ("test_type",
         enum_property [js "basic"; js "advanced"; js "csr"; js "all"]
           (js "Type of test to run"));
        ("debug", boolean_property (js "Enable debug logging"));
        ("waves", boolean_property (js "Generate waveform files")) ]
      ["test_type"];
    mkTool (js "check-requirements-compliance")
      (js "Check if the filter implementation meets specified requirements")
      [ ("requirement_type",
         enum_property
           [js "functional"; js "interface"; js "performance"; js "all"]
           (js "Type of requirements to check")) ]
      ["requirement_type"];
    mkTool (js "analyze-filter-code")
      (js "Analyze the filter implementation code for potential issues")
      [ ("analysis_type",
         enum_property [js "syntax"; js "logic"; js "timing"; js "all"]
           (js "Type of analysis to perform")) ]
      ["analysis_type"] ].

Definition testDir : jstring :=
  js "/Users/jonafta/Dev/open-nic-shell-ji-mb/tb/tests/filter_rx_pipeline".

Definition set_testcase (env : list (jstring * jstring)) (test_type : JsValue)
    : list (jstring * jstring) :=
  if strict_eq_string test_type (js "basic") then
    env_set env (js "TESTCASE") (js "test_filter_basic")
  else if strict_eq_string test_type (js "advanced") then
    env_set env (js "TESTCASE") (js "test_filter_advanced")
  else if strict_eq_string test_type (js "csr") then
    env_set env (js "TESTCASE") (js "test_csr_interface")
  else env.

Definition simulation_command (test_type debug waves : JsValue) : jstring :=
  let makeCommand := js "make test" in
  let env := [] in
  let env := if truthy debug then env_set env (js "COCOTB_DEBUG") (js "1")
             else env in
  let env := if truthy waves then env_set env (js "WAVES") (js "1") else env in
  let env := set_testcase env test_type in
  let envString :=
    join (js " ") (map (fun '(key, value) => key ++ js "=" ++ value) env) in
  envString ++ js " " ++ makeCommand.

Definition simulation_success (result : ExecResult) : jstring :=
  js "Simulation completed successfully!" ++ nl ++ nl
  ++ js "STDOUT:" ++ nl ++ stdout result ++ nl ++ nl
  ++ js "STDERR:" ++ nl ++ stderr result.

Definition simulation_failure (error : JsError) : jstring :=
  js "Simulation failed: " ++ error_to_string error ++ nl ++ nl
  ++ js "Please ensure:" ++ nl
  ++ js "1. OpenNIC project is set up correctly" ++ nl
  ++ js "2. Virtual environment is activated" ++ nl
  ++ js "3. All dependencies are installed".

Definition run_filter_simulation (args : option (gmap string JsValue))
    : M (list ContentBlock) :=
  do o <- destructure args "test_type";
  let test_type := get_arg o "test_type" in
  let debug := with_default (get_arg o "debug") (VBool false) in
  let waves := with_default (get_arg o "waves") (VBool false) in
  try_catch
    (do _ <- access testDir;
     let fullCommand := simulation_command test_type debug waves in
     do result <- executeCommand (js "bash")
                    [VString (js "-c"); VString fullCommand] (Some testDir);
     ret [text_block (simulation_success result)])
    (fun error => ret [text_block (simulation_failure error)]).

Record ComplianceCheck : Type := mkCheck {
  check_name : jstring;
  check_check : jstring;
  check_status : jstring
}.

Definition checksToRun (requirement_type : JsValue) : list ComplianceCheck :=
  (if strict_eq_string requirement_type (js "functional")
      || strict_eq_string requirement_type (js "all")
   then
     [ mkCheck (js "IPv4/IPv6 Filtering")
         (js "Verify packet parsing and filtering logic")
         (js "✅ Implemented in filter_rx_pipeline.sv");
       mkCheck (js "Port-based Filtering")
         (js "Verify TCP/UDP port filtering")
         (js "✅ Implemented with wildcard support");
       mkCheck (js "Statistics Counters")
         (js "Verify hit/miss/total counters")
         (js "✅ Implemented in CSR registers") ]
   else [])
  ++ (if strict_eq_string requirement_type (js "interface")
         || strict_eq_string requirement_type (js "all")
      then
        [ mkCheck (js "AXI-Stream Interface")
            (js "Verify 512-bit data width compliance")
            (js "✅ Maintains existing interface");
          mkCheck (js "AXI-Lite CSR Interface")
            (js "Verify register map at 0xB000")
            (js "✅ Implemented with proper addressing") ]
      else [])
  ++ (if strict_eq_string requirement_type (js "performance")
         || strict_eq_string requirement_type (js "all")
      then
        [ mkCheck (js "Throughput Maintenance")
            (js "Verify no performance degradation")
            (js "✅ Single-cycle filtering decision");
          mkCheck (js "Clock Domain")
            (js "Verify 250MHz operation")
            (js "✅ Integrated in 250MHz user box") ]
      else []).

Definition check_entry (check : ComplianceCheck) : jstring :=
  js "**" ++ check_name check ++ js "**" ++ nl
  ++ js "- Check: " ++ check_check check ++ nl
  ++ js "- Status: " ++ check_status check ++ nl.

Definition compliance_text (checks : list ComplianceCheck) : jstring :=
  let report := join nl (map check_entry checks) in
  js "# Requirements Compliance Report" ++ nl ++ nl ++ report ++ nl ++ nl
  ++ js "**Overall Status**: All specified requirements appear to be met based on implementation review.".

Definition check_requirements_compliance (args : option (gmap string JsValue))
    : M (list ContentBlock) :=
  do o <- destructure args "requirement_type";
  let requirement_type := get_arg o "requirement_type" in
  try_catch
    (ret [text_block (compliance_text (checksToRun requirement_type))])
    (fun error =>
       ret [text_block (js "Failed to check requirements: "
                          ++ error_to_string error)]).

Definition filterDir : jstring :=
  js "/Users/jonafta/Dev/open-nic-shell-ji-mb/plugin/p2p/box_250mhz/filter_rx_pipeline/src".

Record CodeAnalysis : Type := mkCodeAnalysis {
  analysis_type : jstring;
  analysis_description : jstring;
  analysis_result : jstring
}.

Definition analyses (analysis_type : JsValue) : list CodeAnalysis :=
  (if strict_eq_string analysis_type (js "syntax")
      || strict_eq_string analysis_type (js "all")
   then
     [ mkCodeAnalysis (js "Syntax Check")
         (js "Basic SystemVerilog syntax validation")
         (js "Use: iverilog -t null -Wall filter_rx_pipeline.sv") ]
   else [])
  ++ (if strict_eq_string analysis_type (js "logic")
         || strict_eq_string analysis_type (js "all")
      then
        [ mkCodeAnalysis (js "Logic Analysis")
            (js "Review packet parsing and filtering logic")
            (js "Review IPv4/IPv6 header extraction, port matching, and statistics update logic") ]
      else [])
  ++ (if strict_eq_string analysis_type (js "timing")
         || strict_eq_string analysis_type (js "all")
      then
        [ mkCodeAnalysis (js "Timing Analysis")
            (js "Check for potential timing issues")
            (js "Verify pipeline stages meet 250MHz constraint - consider adding pipeline registers if needed") ]
      else []).

Definition analysis_entry (analysis : CodeAnalysis) : jstring :=
  js "**" ++ analysis_type analysis ++ js "**" ++ nl
  ++ js "- " ++ analysis_description analysis ++ nl
  ++ js "- Recommendation: " ++ analysis_result analysis ++ nl.

Definition analyze_filter_code (args : option (gmap string JsValue))
    : M (list ContentBlock) :=
  do o <- destructure args "analysis_type";
  let analysis_type := get_arg o "analysis_type" in
  try_catch
    (do _ <- access filterDir;
     let report := join nl (map analysis_entry (analyses analysis_type)) in
     ret [text_block
            (js "# Filter Code Analysis" ++ nl ++ nl ++ report ++ nl ++ nl
             ++ js "**Note**: For detailed analysis, run the specific tools mentioned above.")])
    (fun error =>
       ret [text_block
              (js "Code analysis failed: " ++ error_to_string error ++ nl ++ nl
               ++ js "Please ensure the filter source directory exists.")]).

Definition callTool (name : jstring) (args : option (gmap string JsValue))
    : M (list ContentBlock) :=
  if jstring_eqb name (js "run-filter-simulation") then
    run_filter_simulation args
  else if jstring_eqb name (js "check-requirements-compliance") then
    check_requirements_compliance args
  else if jstring_eqb name (js "analyze-filter-code") then
    analyze_filter_code args
  else
    throw (McpError InvalidRequest (js "Unknown tool: " ++ name)).

Definition listPrompts : list PromptDescriptor :=
  [ mkPrompt (js "create-test-scenario")
      (js "Generate a test scenario for the packet filter")
      [ mkPromptArgument "scenario_type" (js "Type of test scenario") true;
        mkPromptArgument "packet_type" (js "IPv4 or IPv6 packet type") false ] ].

Definition prompt_arg (args : option (gmap string jstring)) (key : string)
    (fallback : jstring) : jstring :=
  or_string (args ≫= (fun o => o !! key)) fallback.

Section Prompts.

Variable toLowerCase : jstring -> jstring.

Definition test_scenario (scenarioType packetType : jstring) : jstring :=
    js "# Test Scenario: "
    ++ scenarioType
    ++ js " - "
    ++ packetType
    ++ js "

## Test Objective
Verify packet filter behavior for "
    ++ scenarioType
    ++ js " scenario using "
    ++ packetType
    ++ js " packets.

## Test Setup
1. Configure filter rules:
   - Rule 0: [Define specific criteria]
   - Rule 1: [Define specific criteria]

2. Generate test packets:
   - Source: [IP address]
   - Destination: [IP address] 
   - Port: [TCP/UDP port]
   - Payload: [Test data]

## Expected Results
- Matching packets: Should be forwarded
- Non-matching packets: Should be dropped
- Statistics: Verify counter updates

## Verification Points
- [ ] Packet parsing correctness
- [ ] Filter rule matching
- [ ] AXI-Stream flow control
- [ ] CSR register updates

## Cocotb Test Code Template
```python
@cocotb.test()
async def test_"
    ++ toLowerCase scenarioType
    ++ js "_"
    ++ toLowerCase packetType
    ++ js "(dut):
    # Initialize test environment
    # Configure filter rules
    # Send test packets
    # Verify results
    pass
```
".

Definition getPrompt (name : jstring) (args : option (gmap string jstring))
    : M PromptResult :=
  if jstring_eqb name (js "create-test-scenario") then
    let scenarioType := prompt_arg args "scenario_type" (js "basic") in
    let packetType := prompt_arg args "packet_type" (js "IPv4") in
    let scenario := test_scenario scenarioType packetType in
    ret (mkPromptResult
           (js "Test scenario for " ++ scenarioType ++ js " with "
            ++ packetType ++ js " packets")
           [mkPromptMessage (js "user") (text_block scenario)])
  else
    throw (McpError InvalidRequest (js "Unknown prompt: " ++ name)).

End Prompts.

Definition handle (toLowerCase : jstring -> jstring) (request : Request)
    : M Response :=
  match request with
  | ListResourcesRequest => ret (ResourcesResult listResources)
  | ReadResourceRequest uri =>
      do contents <- readResource uri; ret (ContentsResult contents)
  | ListToolsRequest => ret (ToolsResult listTools)
  | CallToolRequest name args =>
      do content <- callTool name args; ret (ToolCallResult content)
  | ListPromptsRequest => ret (PromptsResult listPrompts)
  | GetPromptRequest name args =>
      do result <- getPrompt toLowerCase name args; ret (PromptGetResult result)
  end.

End Index.

(* ================================================================== *)
(** * Sample environments *)

Definition enoent (path : jstring) : JsError :=
  mkJsError (js "Error")
    (js "ENOENT: no such file or directory, open '" ++ path ++ js "'") None.

(** A machine without the OpenNIC project: no file can be read, no
    directory is accessible and every spawn reports the missing working
    directory through the [error] event. *)
Definition world_without_project : World :=
  mkWorld
    (fun path => inl (enoent (to_string path)))
    (fun path => Some (enoent path))
    (fun command _ _ =>
       SpawnEvents [ErrorEvent (Error (js "spawn " ++ command ++ js " ENOENT"))]).

(** A machine on which every directory is accessible, every file reads as
    [content] and every child writes [out] and exits with [code]. *)
Definition world_with (content out : jstring) (code : Z) : World :=
  mkWorld
    (fun _ => inr content)
    (fun _ => None)
    (fun _ _ _ => SpawnEvents [StdoutData out; Close (Some code)]).

(** A case mapping for the prompts: the ASCII letters. *)
Definition toLowerCase_ascii (s : jstring) : jstring :=
  map (fun c => if ((65 <=? c) && (c <=? 90))%N then (c + 32)%N else c) s.

(* ================================================================== *)
(** * Vocabulary of the properties *)

(** The error a collaborator call ended in, if it failed. *)
Definition effect_failure (w : World) (eff : Effect) : option JsError :=
  match eff with
  | EffReadFile path =>
      match fs_readFile w path with inl e => Some e | inr _ => None end
  | EffAccess path => fs_access w path
  | EffSpawn command args cwd =>
      match fst (executeCommand command args cwd w) with
      | Thrown e => Some e
      | _ => None
      end
  end.

Definition is_spawn (eff : Effect) : bool :=
  match eff with EffSpawn _ _ _ => true | _ => false end.

Definition is_data (ev : ChildEvent) : bool :=
  match ev with StdoutData _ | StderrData _ => true | _ => false end.

(** What the listeners have appended to the two buffers. *)
Definition stdout_of (events : list ChildEvent) : jstring :=
  concat (map (fun ev => match ev with StdoutData d => d | _ => [] end) events).
Definition stderr_of (events : list ChildEvent) : jstring :=
  concat (map (fun ev => match ev with StderrData d => d | _ => [] end) events).

(** The message of the error that answers a request for a capability the
    server does not have, and what it means for a request to name none of
    the resources, tools or prompts of a catalogue. *)
Definition unknown_message (request : Request) : jstring :=
  match request with
  | ReadResourceRequest uri => js "Unknown resource: " ++ uri
  | CallToolRequest name _ => js "Unknown tool: " ++ name
  | GetPromptRequest name _ => js "Unknown prompt: " ++ name
  | _ => []
  end.

Definition unregistered (resources tools prompts : list jstring)
    (request : Request) : Prop :=
  match request with
  | ReadResourceRequest uri => ~ In uri resources
  | CallToolRequest name _ => ~ In name tools
  | GetPromptRequest name _ => ~ In name prompts
  | _ => False
  end.

(** A tool call degrades in band: it does not throw; when it returns, the
    result is one text block whose text contains the string conversion of
    the error of every collaborator call that failed; and it stays pending
    only when a child it spawned never closes. *)
Definition degrades_in_band (w : World)
    (r : Outcome (list ContentBlock) * list Effect) : Prop :=
  match r with
  | (Returned content, trace) =>
      exists text : jstring,
        content = [text_block text]
        /\ forall (eff : Effect) (e : JsError),
             In eff trace -> effect_failure w eff = Some e ->
             includes text (error_to_string e) = true
  | (Thrown _, _) => False
  | (Pending, trace) =>
      exists command args cwd,
        In (EffSpawn command args cwd) trace
        /\ fst (executeCommand command args cwd w) = Pending
  end.

(** An identifier: a non-empty string of word characters. *)
Definition identifier (p : jstring) : Prop :=
  nonempty p = true /\ forallb word_char p = true.

(** One declaration per line, for each of the three passes. *)
Definition import_line (p : jstring) : jstring :=
  js "import " ++ p ++ js "::*;" ++ nl.
Definition signal_line (p : jstring) : jstring :=
  js "logic " ++ p ++ js ";" ++ nl.
Definition port_line (p : jstring) : jstring :=
  js "input logic " ++ p ++ js ";" ++ nl.



(** The string does not start with a character of the class. *)
Definition stops (c : N -> bool) (s : jstring) : bool :=
  match s with
  | x :: _ => negb (c x)
  | [] => true
  end.

(** A name without white space. *)
Definition spaceless (p : jstring) : Prop :=
  nonempty p = true /\ forallb (fun c => negb (space_char c)) p = true.

(** A rule of a build script on one line: target, colon, prerequisites. *)
Definition rule_line (rule : jstring * jstring) : jstring :=
  fst rule ++ js ":" ++ snd rule ++ nl.

(** An include directive on one line: the keyword, one space, the first
    word after it, and what follows that word on the line. *)
Definition include_line (directive : jstring * jstring) : jstring :=
  js "include " ++ fst directive ++ snd directive ++ nl.

(** What follows the first word is empty or starts with white space, and
    does not contain the keyword again. *)
Definition rest_of_directive (rest : jstring) : Prop :=
  stops (fun c => negb (space_char c)) rest = true
  /\ includes rest (js "include") = false.

(** The text holds no line terminator. *)
Definition one_line (s : jstring) : bool :=
  forallb (fun c => negb (line_terminator c)) s.

(** The position after [ctx] is the start of a line. *)
Definition at_line_start (ctx : jstring) : bool :=
  match ctx with
  | [] => true
  | x :: _ => line_terminator x
  end.

(** [f common total] for every [common <= total <= bound]. *)
Definition all_pairs (bound : nat) (f : nat -> nat -> bool) : bool :=
  forallb (fun total => forallb (fun common => f common total)
                          (List.seq 0 (S total)))
    (List.seq 0 (S bound)).

(** The two observations of the score of [common] matches among [total]
    testbench ports: the recommendation is printed exactly below four
    fifths, and a full match prints [100.0] (an empty testbench [0.0]). *)
Definition score_as_expected (common total : nat) : bool :=
  Bool.eqb
    (PrimFloat.ltb (Enhanced.compatibility_score common total)
       (float_of_nat 80))
    (5 * common <? 4 * Nat.max total 1)%nat
  && (negb (common =? total)%nat
      || jstring_eqb (toFixed1 (Enhanced.compatibility_score common total))
           (if (total =? 0)%nat then js "0.0" else js "100.0")).

(* ================================================================== *)
(** * Basic facts *)

(** Literals are compared and concatenated by [vm_compute] only. *)
Arguments js : simpl never.
Opaque js.

Lemma includes_prefix (x rest : jstring) : includes (x ++ rest) x = true.
Proof.
  assert (H : strip_prefix x (x ++ rest) = Some rest).
  { induction x as [|a x IH]; simpl; [reflexivity|].
    rewrite N.eqb_refl. exact IH. }
  destruct x as [|a x]; [destruct rest; reflexivity|].
  cbn [includes app]. cbn [app] in H. rewrite H. reflexivity.
Qed.

Lemma includes_refl (x : jstring) : includes x x = true.
Proof. rewrite <- (app_nil_r x) at 1. apply includes_prefix. Qed.

Lemma includes_cons (c : N) (s x : jstring) :
  includes s x = true -> includes (c :: s) x = true.
Proof.
  intros H. cbn [includes].
  destruct (strip_prefix x (c :: s)); [reflexivity | exact H].
Qed.

Lemma includes_app_r (a s x : jstring) :
  includes s x = true -> includes (a ++ s) x = true.
Proof.
  intros H. induction a as [|c a IH]; [exact H|].
  cbn [app]. apply includes_cons, IH.
Qed.

Lemma strip_prefix_app_l (x s b rest : jstring) :
  strip_prefix x s = Some rest -> strip_prefix x (s ++ b) = Some (rest ++ b).
Proof.
  revert s. induction x as [|a x IH]; intros s H.
  - simpl in *. congruence.
  - destruct s as [|c s]; simpl in *; [discriminate|].
    destruct (a =? c)%N; [apply IH, H | discriminate].
Qed.

Lemma includes_app_l (s b x : jstring) :
  includes s x = true -> includes (s ++ b) x = true.
Proof.
  induction s as [|c s IH]; intros H.
  - destruct x; [destruct b; reflexivity | discriminate].
  - cbn [includes] in H. cbn [app includes].
    destruct (strip_prefix x (c :: s)) eqn:E.
    + change (c :: s ++ b) with ((c :: s) ++ b).
      rewrite (strip_prefix_app_l _ _ b _ E). reflexivity.
    + destruct (strip_prefix x (c :: s ++ b)); [reflexivity|]. apply IH, H.
Qed.

(** ** The Process Runner *)

Lemma fold_deliver_data (pre : list ChildEvent) (x : Executor) :
  forallb is_data pre = true ->
  fold_left deliver pre x
  = mkExecutor (ex_stdout x ++ stdout_of pre) (ex_stderr x ++ stderr_of pre)
      (ex_settled x).
Proof.
  revert x. induction pre as [|d pre IH]; intros [o e s] Hpre.
  - unfold stdout_of, stderr_of. simpl. rewrite !app_nil_r. reflexivity.
  - simpl in Hpre. apply andb_prop in Hpre as [Hd Hpre].
    destruct d; try discriminate; simpl fold_left;
      rewrite (IH _ Hpre); unfold stdout_of, stderr_of; simpl;
      rewrite ?app_assoc, ?app_nil_r; reflexivity.
Qed.

Lemma fold_deliver_settled (post : list ChildEvent) (x : Executor)
    (v : JsError + ExecResult) :
  ex_settled x = Some v -> ex_settled (fold_left deliver post x) = Some v.
Proof.
  revert x. induction post as [|ev post IH]; intros x Hx; [exact Hx|].
  simpl. apply IH.
  destruct ev as [d|d|[[| |]|]|e]; unfold deliver, settle; simpl;
    rewrite ?Hx; simpl; first [exact Hx | reflexivity].
Qed.

Lemma run_child_first_settling (pre : list ChildEvent) (ev : ChildEvent)
    (post : list ChildEvent) :
  forallb is_data pre = true ->
  is_data ev = false ->
  ex_settled (run_child (pre ++ ev :: post))
  = ex_settled (deliver (mkExecutor (stdout_of pre) (stderr_of pre) None) ev).
Proof.
  intros Hpre Hev. unfold run_child.
  rewrite fold_left_app, (fold_deliver_data _ _ Hpre). simpl fold_left.
  simpl ex_stdout. simpl ex_stderr. simpl ex_settled.
  destruct ev as [d|d|code|e]; try discriminate.
  - destruct code as [[| |]|];
      (erewrite fold_deliver_settled; [reflexivity|]); reflexivity.
  - erewrite fold_deliver_settled; [reflexivity|]; reflexivity.
Qed.

(** C5 (as amended).  [executeCommand] is settled by the first [close] or
    [error] event of the child.  It resolves exactly when that event is
    [close] with code 0, with the chunks received until then as stdout and
    stderr; a [close] with another code rejects with an error whose message
    holds the code and the stderr received; an [error] event (a spawn
    failure) rejects with the error of the event itself. *)
Theorem executeCommand_outcome (w : World) (command : jstring)
    (args : list JsValue) (cwd : option jstring)
    (pre : list ChildEvent) (ev : ChildEvent) (post : list ChildEvent) :
  proc_spawn w command args cwd = SpawnEvents (pre ++ ev :: post) ->
  forallb is_data pre = true ->
  is_data ev = false ->
  fst (executeCommand command args cwd w)
  = match ev with
    | Close (Some 0%Z) =>
        Returned (mkExecResult (stdout_of pre) (stderr_of pre))
    | Close code =>
        Thrown (Error (js "Command failed with exit code "
                         ++ exit_code_string code ++ js ": " ++ stderr_of pre))
    | ErrorEvent e => Thrown e
    | _ => Pending
    end
  /\ ((exists r, fst (executeCommand command args cwd w) = Returned r)
      <-> ev = Close (Some 0%Z)).
Proof.
  intros Hspawn Hpre Hev.
  assert (E : fst (executeCommand command args cwd w)
              = promise_outcome
                  (deliver (mkExecutor (stdout_of pre) (stderr_of pre) None) ev)).
  { unfold executeCommand. rewrite Hspawn. simpl fst. unfold promise_outcome.
    rewrite (run_child_first_settling _ _ _ Hpre Hev). reflexivity. }
  rewrite E. clear E Hspawn.
  destruct ev as [d|d|[[| |]|]|e]; try discriminate; simpl; split;
    try reflexivity; split;
    first [ intros [r Hr]; discriminate Hr
          | intros Hc; discriminate Hc
          | intros _; eexists; reflexivity
          | reflexivity ].
Qed.

Lemma executeCommand_outcome_witness :
  fst (executeCommand (js "true") [] None (world_with [] (js "done") 0))
  = Returned (mkExecResult (js "done") [])
  /\ fst (executeCommand (js "false") [] None (world_with [] (js "oops") 1))
     = Thrown (Error (js "Command failed with exit code 1: ")).
Proof.
  split.
  - apply (executeCommand_outcome (world_with [] (js "done") 0) (js "true") []
             None [StdoutData (js "done")] (Close (Some 0%Z)) []);
      reflexivity.
  - apply (executeCommand_outcome (world_with [] (js "oops") 1) (js "false") []
             None [StdoutData (js "oops")] (Close (Some 1%Z)) []);
      reflexivity.
Defined.

(** C5 (counterexample).  With the working directory missing the child
    emits [error]; the promise is rejected with that error, which holds
    neither an exit code nor the captured stderr. *)
Lemma executeCommand_spawn_failure_has_no_exit_code :
  let outcome :=
    fst (executeCommand (js "bash") [VString (js "-c"); VString (js "make test")]
           (Some Enhanced.testDir) world_without_project) in
  outcome = Thrown (Error (js "spawn bash ENOENT"))
  /\ ~ (exists code : option Z,
          outcome
          = Thrown (Error (js "Command failed with exit code "
                             ++ exit_code_string code ++ js ": " ++ []))).
Proof.
  split; [reflexivity|].
  intros [code H]. vm_compute in H. discriminate H.
Qed.

(** ** Build-script analysis *)

(** C7.  [analyzeMakefile] on a file whose text is empty returns the
    simulator [not_specified], no target, no dependency and the three
    diagnostics: simulator unset, COCOTB configuration missing,
    VERILOG_SOURCES missing, in this order. *)
Theorem analyzeMakefile_empty (w : World) (makefilePath : JsValue) :
  fs_readFile w makefilePath = inr [] ->
  Enhanced.analyzeMakefile makefilePath w
  = (Returned
       (Enhanced.mkMakefileAnalysis (js "not_specified") [] []
          [ js "SIM variable not explicitly set - may cause simulator selection issues";
            js "Missing COCOTB configuration variables";
            js "VERILOG_SOURCES not defined - required for compilation" ]),
     [EffReadFile makefilePath]).
Proof.
  intros Hread.
  unfold Enhanced.analyzeMakefile, try_catch, bind, readFileContent, try_catch,
    readFile, ret.
  rewrite Hread. vm_compute. reflexivity.
Qed.

Lemma analyzeMakefile_empty_witness :
  Enhanced.analyzeMakefile (VString (js "/tmp/Makefile")) (world_with [] [] 0)
  = (Returned
       (Enhanced.mkMakefileAnalysis (js "not_specified") [] []
          [ Enhanced.issue_sim_unset; Enhanced.issue_no_cocotb;
            Enhanced.issue_no_sources ]),
     [EffReadFile (VString (js "/tmp/Makefile"))]).
Proof.
  apply (analyzeMakefile_empty (world_with [] [] 0) (VString (js "/tmp/Makefile"))).
  reflexivity.
Defined.

(** ** The Content Resolver *)

(** C6.  For each of the three resources that are read from a file, when
    the read fails the handler returns exactly one text block holding the
    fixed message of that resource; nothing is thrown.  Both servers. *)
Theorem readResource_fallback (w : World) (uri path fallback : jstring)
    (e : JsError) :
  In (uri, path, fallback)
    [ (js "opennic://filter-requirements",
       js "/Users/jonafta/Dev/open-nic-shell-ji-mb/requirements.md",
       js "Requirements document not found. Please ensure the OpenNIC project is available.");
      (js "opennic://filter-implementation",
       js "/Users/jonafta/Dev/open-nic-shell-ji-mb/opennic_packet_filter_submission.md",
       js "Implementation document not found. Please ensure the submission document exists.");
      (js "opennic://register-map",
       js "/Users/jonafta/Dev/open-nic-shell-ji-mb/plugin/p2p/box_250mhz/csr/doc/register_map.md",
       js "Register map documentation not found.") ] ->
  fs_readFile w (VString path) = inl e ->
  Enhanced.readResource uri w
  = (Returned [text_block fallback], [EffReadFile (VString path)])
  /\ Index.readResource uri w
     = (Returned [text_block fallback], [EffReadFile (VString path)]).
Proof.
  intros Hin Hread.
  assert (G : forall p f : jstring,
            fs_readFile w (VString p) = inl e ->
            Enhanced.read_or_fallback p f w
            = (Returned [text_block f], [EffReadFile (VString p)])
            /\ Index.read_or_fallback p f w
               = (Returned [text_block f], [EffReadFile (VString p)])).
  { intros p f Hp.
    unfold Enhanced.read_or_fallback, Index.read_or_fallback, try_catch, bind,
      readFileContent, try_catch, readFile, throw, ret.
    rewrite Hp. split; reflexivity. }
  destruct (G path fallback Hread) as [G1 G2]. clear G Hread.
  simpl in Hin.
  destruct Hin as [H|[H|[H|[]]]]; injection H as <- <- <-; split;
    first [exact G1 | exact G2].
Qed.

Lemma readResource_fallback_witness :
  Enhanced.readResource (js "opennic://register-map") world_without_project
  = (Returned [text_block (js "Register map documentation not found.")],
     [EffReadFile
        (VString (js "/Users/jonafta/Dev/open-nic-shell-ji-mb/plugin/p2p/box_250mhz/csr/doc/register_map.md"))]).
Proof.
  refine (proj1 (readResource_fallback world_without_project
                   (js "opennic://register-map") _
                   (js "Register map documentation not found.")
                   (enoent Enhanced.registerMapPath) _ _)).
  - right. right. left. reflexivity.
  - vm_compute. reflexivity.
Defined.

(** ** Dispatch on literal names *)

(** Decides the comparisons of two literals that a goal contains. *)
Ltac decide_literals :=
  repeat match goal with
    | |- context [jstring_eqb (js ?a) (js ?b)] =>
        let v := eval vm_compute in (jstring_eqb (js a) (js b)) in
        replace (jstring_eqb (js a) (js b)) with v by (vm_compute; reflexivity)
    end;
  cbv beta iota.

(** Finds a literal in a list of literals. *)
Ltac in_literals :=
  cbn [In map res_uri tool_name prompt_name];
  repeat first
    [ left; match goal with |- ?a = ?a => reflexivity end
    | right ].

Lemma jstring_eqb_neq (a b : jstring) : a <> b -> jstring_eqb a b = false.
Proof. intros H. unfold jstring_eqb. apply bool_decide_eq_false. exact H. Qed.

Lemma jstring_eqb_eq (a b : jstring) : jstring_eqb a b = true -> a = b.
Proof. unfold jstring_eqb. intros H. apply bool_decide_eq_true in H. exact H. Qed.

Lemma callTool_run_filter_simulation args :
  Enhanced.callTool (js "run-filter-simulation") args
  = Enhanced.run_filter_simulation args.
Proof. unfold Enhanced.callTool. decide_literals. reflexivity. Qed.

Lemma callTool_analyze_verilog_syntax args :
  Enhanced.callTool (js "analyze-verilog-syntax") args
  = Enhanced.analyze_verilog_syntax args.
Proof. unfold Enhanced.callTool. decide_literals. reflexivity. Qed.

Lemma callTool_suggest_makefile_fixes args :
  Enhanced.callTool (js "suggest-makefile-fixes") args
  = Enhanced.suggest_makefile_fixes args.
Proof. unfold Enhanced.callTool. decide_literals. reflexivity. Qed.

Lemma callTool_check_interface_compatibility args :
  Enhanced.callTool (js "check-interface-compatibility") args
  = Enhanced.check_interface_compatibility args.
Proof. unfold Enhanced.callTool. decide_literals. reflexivity. Qed.

Lemma callTool_cross_reference_signals args :
  Enhanced.callTool (js "cross-reference-signals") args
  = Enhanced.cross_reference_signals args.
Proof. unfold Enhanced.callTool. decide_literals. reflexivity. Qed.

Lemma callTool_check_requirements_compliance args :
  Enhanced.callTool (js "check-requirements-compliance") args
  = Enhanced.check_requirements_compliance args.
Proof. unfold Enhanced.callTool. decide_literals. reflexivity. Qed.

Lemma index_callTool_check_requirements_compliance args :
  Index.callTool (js "check-requirements-compliance") args
  = Index.check_requirements_compliance args.
Proof. unfold Index.callTool. decide_literals. reflexivity. Qed.

Lemma index_callTool_run_filter_simulation args :
  Index.callTool (js "run-filter-simulation") args
  = Index.run_filter_simulation args.
Proof. unfold Index.callTool. decide_literals. reflexivity. Qed.

Lemma tool_names :
  map tool_name Enhanced.listTools
  = [ js "run-filter-simulation"; js "analyze-verilog-syntax";
      js "check-interface-compatibility"; js "suggest-makefile-fixes";
      js "cross-reference-signals"; js "check-requirements-compliance" ].
Proof. reflexivity. Qed.

(** ** Unknown capabilities *)

(** C8.  A request that names a resource, a tool or a prompt outside the
    lists the server announces is answered by the protocol error
    [McpError(InvalidRequest, "Unknown ...: id")]; no handler runs and no
    collaborator is called: the log of effects is empty. *)
Theorem unknown_capability_rejected (toLowerCase : jstring -> jstring)
    (w : World) (request : Request) :
  unregistered (map res_uri Enhanced.listResources)
    (map tool_name Enhanced.listTools)
    (map prompt_name Enhanced.listPrompts) request ->
  Enhanced.handle toLowerCase request w
  = (Thrown (McpError InvalidRequest (unknown_message request)), []).
Proof.
  intros Hun.
  assert (Hne : forall (id : jstring) (l : list jstring) (x : string),
            ~ In id l -> In (js x) l -> jstring_eqb id (js x) = false).
  { intros id l x Hid Hx. apply jstring_eqb_neq. intros ->. exact (Hid Hx). }
  destruct request as [|uri| |name args| |name args];
    cbv beta iota delta [unregistered] in Hun; try contradiction.
  - unfold Enhanced.handle, bind, Enhanced.readResource.
    rewrite !(Hne uri _ _ Hun) by (unfold Enhanced.listResources, Enhanced.listTools, Enhanced.listPrompts; in_literals). reflexivity.
  - unfold Enhanced.handle, bind, Enhanced.callTool.
    rewrite !(Hne name _ _ Hun) by (unfold Enhanced.listResources, Enhanced.listTools, Enhanced.listPrompts; in_literals). reflexivity.
  - unfold Enhanced.handle, bind, Enhanced.getPrompt.
    rewrite !(Hne name _ _ Hun) by (unfold Enhanced.listResources, Enhanced.listTools, Enhanced.listPrompts; in_literals). reflexivity.
Qed.

Lemma unknown_capability_rejected_witness :
  Enhanced.handle toLowerCase_ascii
    (CallToolRequest (js "format-disk") None) world_without_project
  = (Thrown (McpError InvalidRequest (js "Unknown tool: " ++ js "format-disk")),
     []).
Proof.
  apply (unknown_capability_rejected toLowerCase_ascii world_without_project
           (CallToolRequest (js "format-disk") None)).
  simpl. intros H.
  repeat (destruct H as [H|H]; [vm_compute in H; discriminate H|]).
  exact H.
Defined.

(** ** The compliance report *)



(** ** The simulation command *)

Lemma simulation_command_sim (test_type debug waves : JsValue) :
  startsWith (Enhanced.simulation_command test_type debug waves)
    (js "SIM=verilator ") = true
  /\ includes (Enhanced.simulation_command test_type debug waves)
       (js "SIM=verilator") = true.
Proof.
  unfold Enhanced.simulation_command, Enhanced.set_testcase.
  destruct (truthy debug), (truthy waves),
    (strict_eq_string test_type (js "basic")),
    (strict_eq_string test_type (js "advanced")),
    (strict_eq_string test_type (js "csr")),
    (strict_eq_string test_type (js "performance"));
    vm_compute; split; reflexivity.
Qed.

Lemma run_filter_simulation_trace (w : World) (args : gmap string JsValue) :
  fs_access w Enhanced.testDir = None ->
  snd (Enhanced.run_filter_simulation (Some args) w)
  = [ EffAccess Enhanced.testDir;
      EffSpawn (js "bash")
        [ VString (js "-c");
          VString (Enhanced.simulation_command (get_arg args "test_type")
                     (with_default (get_arg args "debug") (VBool false))
                     (with_default (get_arg args "waves") (VBool false))) ]
        (Some Enhanced.testDir) ].
Proof.
  intros Hdir.
  unfold Enhanced.run_filter_simulation, destructure, bind, ret, try_catch,
    access, executeCommand.
  rewrite Hdir.
  destruct (proc_spawn w _ _ _) as [e|events];
    [reflexivity | destruct (promise_outcome (run_child events)); reflexivity].
Qed.

(** C10.  Whenever run-filter-simulation passes the check of the test
    directory, whatever its arguments, it calls the Process Runner once,
    with [bash -c fullCommand] in the test directory, and [fullCommand]
    starts with the assignment [SIM=verilator]. *)
Theorem simulation_enforces_verilator (w : World)
    (args : gmap string JsValue) :
  fs_access w Enhanced.testDir = None ->
  exists fullCommand : jstring,
    snd (Enhanced.callTool (js "run-filter-simulation") (Some args) w)
    = [ EffAccess Enhanced.testDir;
        EffSpawn (js "bash") [VString (js "-c"); VString fullCommand]
          (Some Enhanced.testDir) ]
    /\ startsWith fullCommand (js "SIM=verilator ") = true
    /\ includes fullCommand (js "SIM=verilator") = true.
Proof.
  intros Hdir.
  exists (Enhanced.simulation_command (get_arg args "test_type")
            (with_default (get_arg args "debug") (VBool false))
            (with_default (get_arg args "waves") (VBool false))).
  split; [|apply simulation_command_sim].
  rewrite callTool_run_filter_simulation.
  apply run_filter_simulation_trace, Hdir.
Qed.

Lemma simulation_enforces_verilator_witness :
  exists fullCommand : jstring,
    snd (Enhanced.callTool (js "run-filter-simulation")
           (Some {[ "test_type" := VString (js "csr") ]})
           (world_with [] (js "ok") 0))
    = [ EffAccess Enhanced.testDir;
        EffSpawn (js "bash") [VString (js "-c"); VString fullCommand]
          (Some Enhanced.testDir) ]
    /\ startsWith fullCommand (js "SIM=verilator ") = true
    /\ includes fullCommand (js "SIM=verilator") = true.
Proof.
  apply (simulation_enforces_verilator (world_with [] (js "ok") 0)
           {[ "test_type" := VString (js "csr") ]}).
  reflexivity.
Defined.

(** ** Failures stay in band *)

Lemma error_to_string_Error (m : jstring) :
  nonempty m = true -> error_to_string (Error m) = js "Error" ++ js ": " ++ m.
Proof.
  destruct m as [|c m]; [discriminate|]. intros _. vm_compute. reflexivity.
Qed.

(** Finds the needle among the segments of a concatenation. *)
Ltac find_includes :=
  lazymatch goal with
  | |- includes ?x ?x = true => apply includes_refl
  | |- includes (?x ++ _) ?x = true => apply includes_prefix
  | |- includes (?a ++ ?b) ?x = true =>
      first [ solve [apply includes_app_l; find_includes]
            | solve [apply includes_app_r; find_includes] ]
  end.

Ltac unwrap_errors :=
  repeat rewrite error_to_string_Error by (vm_compute; reflexivity).

(** The two ways [analyzeVerilogFile] ends. *)
Lemma analyzeVerilogFile_cases (w : World) (filePath : JsValue) :
  Enhanced.analyzeVerilogFile filePath w
  = match fs_readFile w filePath with
    | inr content =>
        (Returned (Enhanced.analyzeVerilogText content), [EffReadFile filePath])
    | inl e =>
        (Thrown (Error (js "Verilog analysis failed: "
                          ++ error_to_string
                               (Error (js "Failed to read file "
                                         ++ to_string filePath ++ js ": "
                                         ++ error_to_string e)))),
         [EffReadFile filePath])
    end.
Proof.
  unfold Enhanced.analyzeVerilogFile, try_catch, bind, readFileContent,
    try_catch, readFile, throw, ret.
  destruct (fs_readFile w filePath); reflexivity.
Qed.

Lemma analyzeMakefile_cases (w : World) (makefilePath : JsValue) :
  Enhanced.analyzeMakefile makefilePath w
  = match fs_readFile w makefilePath with
    | inr content =>
        (Returned (Enhanced.analyzeMakefileText content),
         [EffReadFile makefilePath])
    | inl e =>
        (Thrown (Error (js "Makefile analysis failed: "
                          ++ error_to_string
                               (Error (js "Failed to read file "
                                         ++ to_string makefilePath ++ js ": "
                                         ++ error_to_string e)))),
         [EffReadFile makefilePath])
    end.
Proof.
  unfold Enhanced.analyzeMakefile, try_catch, bind, readFileContent,
    try_catch, readFile, throw, ret.
  destruct (fs_readFile w makefilePath); reflexivity.
Qed.

Lemma executeCommand_trace (w : World) command args cwd :
  snd (executeCommand command args cwd w) = [EffSpawn command args cwd].
Proof. reflexivity. Qed.

(** Splits the log of a call into its entries and evaluates the failure
    of each with the answers of the machine that are in the context. *)
Ltac failures :=
  let eff := fresh "eff" in
  let e := fresh "e" in
  let Hin := fresh "Hin" in
  let Hf := fresh "Hf" in
  intros eff e Hin Hf;
  cbn [app In] in Hin;
  repeat match type of Hin with
    | _ \/ _ => destruct Hin as [Hin|Hin]
    end;
  try contradiction;
  subst eff; cbn [effect_failure] in Hf;
  repeat match goal with
    | H : ?x = _ |- _ =>
        assert_fails (constr_eq H Hf);
        match type of Hf with context [x] => rewrite H in Hf end
    end;
  cbn [fst] in Hf;
  try discriminate Hf;
  injection Hf as <-.

Lemma run_filter_simulation_in_band (w : World) (args : gmap string JsValue) :
  degrades_in_band w (Enhanced.run_filter_simulation (Some args) w).
Proof.
  unfold Enhanced.run_filter_simulation, destructure, bind, ret, try_catch,
    access.
  destruct (fs_access w Enhanced.testDir) as [e|] eqn:Ha; cbv beta iota.
  - cbn [app]. eexists. split; [reflexivity|]. failures.
    unfold Enhanced.simulation_failure. find_includes.
  - destruct (executeCommand (js "bash") _ (Some Enhanced.testDir) w)
      as [[r|e|] t] eqn:Hx;
      assert (Ht := executeCommand_trace w (js "bash")
                      [VString (js "-c");
                       VString (Enhanced.simulation_command
                                  (get_arg args "test_type")
                                  (with_default (get_arg args "debug") (VBool false))
                                  (with_default (get_arg args "waves") (VBool false)))]
                      (Some Enhanced.testDir));
      rewrite Hx in Ht; cbn [snd] in Ht; subst t; cbn [app].
    + eexists. split; [reflexivity|]. failures.
    + eexists. split; [reflexivity|]. failures.
      unfold Enhanced.simulation_failure. find_includes.
    + do 3 eexists. split; [right; left; reflexivity|]. rewrite Hx. reflexivity.
Qed.

Lemma analyze_verilog_syntax_in_band (w : World) (args : gmap string JsValue) :
  degrades_in_band w (Enhanced.analyze_verilog_syntax (Some args) w).
Proof.
  unfold Enhanced.analyze_verilog_syntax, destructure.
  unfold bind at 1. unfold ret at 1. cbv beta iota.
  set (file_path := get_arg args "file_path").
  set (check_packages := with_default (get_arg args "check_packages") (VBool true)).
  unfold try_catch at 1. unfold bind at 1.
  rewrite analyzeVerilogFile_cases.
  destruct (fs_readFile w file_path) as [e|content] eqn:Hr; cbv beta iota.
  - unfold ret. cbn [app]. eexists. split; [reflexivity|]. failures.
    unwrap_errors. find_includes.
  - unfold bind, try_catch, ret.
    destruct (executeCommand (js "verilator") _ None w) as [[r|e|] t] eqn:Hx;
      assert (Ht := executeCommand_trace w (js "verilator")
                      [VString (js "--lint-only"); VString (js "-Wall"); file_path]
                      None);
      rewrite Hx in Ht; cbn [snd] in Ht; subst t; cbn [app].
    + eexists. split; [reflexivity|]. failures.
    + eexists. split; [reflexivity|]. failures. find_includes.
    + do 3 eexists. split; [right; left; reflexivity|]. rewrite Hx. reflexivity.
Qed.

Lemma suggest_makefile_fixes_in_band (w : World) (args : gmap string JsValue) :
  degrades_in_band w (Enhanced.suggest_makefile_fixes (Some args) w).
Proof.
  unfold Enhanced.suggest_makefile_fixes, destructure.
  unfold bind at 1. unfold ret at 1. cbv beta iota.
  set (makefile_path := get_arg args "makefile_path").
  unfold try_catch at 1. unfold bind at 1.
  rewrite analyzeMakefile_cases.
  destruct (fs_readFile w makefile_path) as [e|content] eqn:Hr; cbv beta iota.
  - unfold ret. cbn [app]. eexists. split; [reflexivity|]. failures.
    unwrap_errors. find_includes.
  - unfold ret. cbn [app]. eexists. split; [reflexivity|]. failures.
Qed.

Lemma check_interface_compatibility_in_band (w : World)
    (args : gmap string JsValue) :
  degrades_in_band w (Enhanced.check_interface_compatibility (Some args) w).
Proof.
  unfold Enhanced.check_interface_compatibility, destructure.
  unfold bind at 1. unfold ret at 1. cbv beta iota.
  set (testbench_file := get_arg args "testbench_file").
  set (rtl_file := get_arg args "rtl_file").
  unfold try_catch at 1. unfold bind at 1.
  rewrite analyzeVerilogFile_cases.
  destruct (fs_readFile w testbench_file) as [e|tb] eqn:Hr1; cbv beta iota.
  - unfold ret. cbn [app]. eexists. split; [reflexivity|]. failures.
    unwrap_errors. find_includes.
  - unfold bind at 1. rewrite analyzeVerilogFile_cases.
    destruct (fs_readFile w rtl_file) as [e|rtl] eqn:Hr2; cbv beta iota.
    + unfold ret. cbn [app]. eexists. split; [reflexivity|]. failures.
      unwrap_errors. find_includes.
    + unfold ret. cbn [app]. eexists. split; [reflexivity|]. failures.
Qed.

Lemma cross_reference_signals_in_band (w : World) (args : gmap string JsValue) :
  degrades_in_band w (Enhanced.cross_reference_signals (Some args) w).
Proof.
  unfold Enhanced.cross_reference_signals, destructure.
  unfold bind at 1. unfold ret at 1. cbv beta iota.
  set (hierarchy_level := get_arg args "hierarchy_level").
  unfold try_catch, bind.
  destruct (strict_eq_string hierarchy_level (js "all")).
  - unfold ret. cbn [app]. eexists. split; [reflexivity|].
    intros eff e [].
  - unfold Enhanced.signal_section.
    destruct (Enhanced.assoc_lookup Enhanced.signalMap (to_string hierarchy_level)).
    + unfold ret. cbn [app]. eexists. split; [reflexivity|]. intros eff e [].
    + destruct (array_includes Enhanced.object_prototype_keys
                  (to_string hierarchy_level)).
      * unfold throw, ret. cbn [app]. eexists. split; [reflexivity|].
        intros eff e [].
      * unfold ret. cbn [app]. eexists. split; [reflexivity|]. intros eff e [].
Qed.

Lemma check_requirements_compliance_in_band (w : World)
    (args : gmap string JsValue) :
  degrades_in_band w (Enhanced.check_requirements_compliance (Some args) w).
Proof.
  unfold Enhanced.check_requirements_compliance, destructure, bind, ret,
    try_catch.
  cbn [app]. eexists. split; [reflexivity|]. intros eff e [].
Qed.

(** Without an arguments object every handler throws at its destructuring
    assignment, which stands before the [try]: a tool call can end in a
    thrown error, but then no collaborator has been called. *)
Lemma absent_arguments_throw_before_any_call (w : World) (name : jstring) :
  In name (map tool_name Enhanced.listTools) ->
  exists e : JsError,
    Enhanced.callTool name None w = (Thrown e, [])
    /\ err_name e = js "TypeError".
Proof.
  rewrite tool_names. cbn [In].
  intros [<-|[<-|[<-|[<-|[<-|[<-|[]]]]]]].
  - rewrite callTool_run_filter_simulation. eexists. split; reflexivity.
  - rewrite callTool_analyze_verilog_syntax. eexists. split; reflexivity.
  - rewrite callTool_check_interface_compatibility. eexists. split; reflexivity.
  - rewrite callTool_suggest_makefile_fixes. eexists. split; reflexivity.
  - rewrite callTool_cross_reference_signals. eexists. split; reflexivity.
  - rewrite callTool_check_requirements_compliance. eexists. split; reflexivity.
Qed.

(** C2.  A call of a registered tool with an arguments object never ends
    in a thrown error: whatever the file system and the child processes
    answer, the handler returns one text block, and that text contains the
    message of every collaborator call that failed (file read, directory
    check, spawn, non-zero exit).  The answer is only withheld while a
    spawned child never closes. *)
Theorem tool_failures_stay_in_band (w : World) (name : jstring)
    (args : gmap string JsValue) :
  In name (map tool_name Enhanced.listTools) ->
  degrades_in_band w (Enhanced.callTool name (Some args) w).
Proof.
  rewrite tool_names. cbn [In].
  intros [<-|[<-|[<-|[<-|[<-|[<-|[]]]]]]].
  - rewrite callTool_run_filter_simulation.
    apply run_filter_simulation_in_band.
  - rewrite callTool_analyze_verilog_syntax.
    apply analyze_verilog_syntax_in_band.
  - rewrite callTool_check_interface_compatibility.
    apply check_interface_compatibility_in_band.
  - rewrite callTool_suggest_makefile_fixes.
    apply suggest_makefile_fixes_in_band.
  - rewrite callTool_cross_reference_signals.
    apply cross_reference_signals_in_band.
  - rewrite callTool_check_requirements_compliance.
    apply check_requirements_compliance_in_band.
Qed.

Lemma tool_failures_stay_in_band_witness :
  degrades_in_band world_without_project
    (Enhanced.callTool (js "analyze-verilog-syntax")
       (Some {[ "file_path" := VString (js "/src/filter.sv") ]})
       world_without_project).
Proof.
  apply (tool_failures_stay_in_band world_without_project
           (js "analyze-verilog-syntax")
           {[ "file_path" := VString (js "/src/filter.sv") ]}).
  rewrite tool_names. right. left. reflexivity.
Defined.

(** ** Omitted required parameters *)

Lemma simulation_command_undefined (debug waves : JsValue) :
  Enhanced.simulation_command VUndefined debug waves
  = Enhanced.simulation_command (VString (js "all")) debug waves.
Proof.
  unfold Enhanced.simulation_command, Enhanced.set_testcase, strict_eq_string.
  decide_literals. reflexivity.
Qed.

(** C1 (counterexample).  run-filter-simulation called with an arguments
    object without [test_type] on a machine where the test directory exists
    and [make] succeeds: no error is raised, the Process Runner is called
    and the handler reports success.  The same holds for the server of
    [src/index.ts]. *)
Lemma missing_test_type_runs_the_simulation :
  let w := world_with [] (js "PASS") 0 in
  let r := Enhanced.callTool (js "run-filter-simulation") (Some ∅) w in
  let r' := Index.callTool (js "run-filter-simulation") (Some ∅) w in
  r = (Returned
         [text_block
            (Enhanced.simulation_success (js "SIM=verilator make test")
               (mkExecResult (js "PASS") []))],
       [ EffAccess Enhanced.testDir;
         EffSpawn (js "bash")
           [VString (js "-c"); VString (js "SIM=verilator make test")]
           (Some Enhanced.testDir) ])
  /\ r' = (Returned
             [text_block (Index.simulation_success (mkExecResult (js "PASS") []))],
           [ EffAccess Index.testDir;
             EffSpawn (js "bash") [VString (js "-c"); VString (js " make test")]
               (Some Index.testDir) ])
  /\ ~ (exists message : jstring,
          fst r = Thrown (McpError InvalidParams message)
          /\ includes message (js "test_type") = true)
  /\ existsb is_spawn (snd r) = true.
Proof.
  cbv zeta. split; [vm_compute; reflexivity|].
  split; [vm_compute; reflexivity|].
  split; [|vm_compute; reflexivity].
  intros [message [H _]]. vm_compute in H. discriminate H.
Qed.

Lemma index_callTool_analyze_filter_code args :
  Index.callTool (js "analyze-filter-code") args
  = Index.analyze_filter_code args.
Proof. unfold Index.callTool. decide_literals. reflexivity. Qed.

Lemma index_run_filter_simulation_in_band (w : World)
    (args : gmap string JsValue) :
  degrades_in_band w (Index.run_filter_simulation (Some args) w).
Proof.
  unfold Index.run_filter_simulation, destructure, bind, ret, try_catch,
    access.
  destruct (fs_access w Index.testDir) as [e|] eqn:Ha; cbv beta iota.
  - cbn [app]. eexists. split; [reflexivity|]. failures.
    unfold Index.simulation_failure. find_includes.
  - destruct (executeCommand (js "bash") _ (Some Index.testDir) w)
      as [[r|e|] t] eqn:Hx;
      assert (Ht := executeCommand_trace w (js "bash")
                      [VString (js "-c");
                       VString (Index.simulation_command
                                  (get_arg args "test_type")
                                  (with_default (get_arg args "debug") (VBool false))
                                  (with_default (get_arg args "waves") (VBool false)))]
                      (Some Index.testDir));
      rewrite Hx in Ht; cbn [snd] in Ht; subst t; cbn [app].
    + eexists. split; [reflexivity|]. failures.
    + eexists. split; [reflexivity|]. failures.
      unfold Index.simulation_failure. find_includes.
    + do 3 eexists. split; [right; left; reflexivity|]. rewrite Hx. reflexivity.
Qed.

Lemma index_check_requirements_compliance_in_band (w : World)
    (args : gmap string JsValue) :
  degrades_in_band w (Index.check_requirements_compliance (Some args) w).
Proof.
  unfold Index.check_requirements_compliance, destructure, bind, ret,
    try_catch.
  cbn [app]. eexists. split; [reflexivity|]. intros eff e [].
Qed.

Lemma index_analyze_filter_code_in_band (w : World)
    (args : gmap string JsValue) :
  degrades_in_band w (Index.analyze_filter_code (Some args) w).
Proof.
  unfold Index.analyze_filter_code, destructure, bind, ret, try_catch, access.
  destruct (fs_access w Index.filterDir) as [e|] eqn:Ha; cbv beta iota;
    cbn [app]; eexists; (split; [reflexivity|]); failures.
  find_includes.
Qed.

(** C1 (as amended).  The tools/call handler does not compare the arguments
    with the input schema.  When the arguments object lacks a parameter the
    schema requires, no protocol error is raised: the handler runs with the
    parameter [undefined] and answers in band.  For run-filter-simulation
    without [test_type], once the test directory is accessible, the Process
    Runner is called with the command of test type [all].  The handler of
    [src/index.ts] does not check either. *)
Theorem omitted_required_parameter_is_not_checked (w : World)
    (tool : ToolDescriptor) (p : string) (args : gmap string JsValue) :
  In p (tool_required tool) ->
  args !! p = None ->
  (In tool Enhanced.listTools ->
   degrades_in_band w (Enhanced.callTool (tool_name tool) (Some args) w)
   /\ (tool_name tool = js "run-filter-simulation" ->
       fs_access w Enhanced.testDir = None ->
       snd (Enhanced.callTool (tool_name tool) (Some args) w)
       = [ EffAccess Enhanced.testDir;
           EffSpawn (js "bash")
             [ VString (js "-c");
               VString (Enhanced.simulation_command (VString (js "all"))
                          (with_default (get_arg args "debug") (VBool false))
                          (with_default (get_arg args "waves") (VBool false))) ]
             (Some Enhanced.testDir) ]))
  /\ (In tool Index.listTools ->
      degrades_in_band w (Index.callTool (tool_name tool) (Some args) w)).
Proof.
  intros Hp Harg. split.
  - unfold Enhanced.listTools. cbn [In].
    intros [<-|[<-|[<-|[<-|[<-|[<-|[]]]]]]];
      cbn [tool_name tool_required In] in *.
    + split.
      * rewrite callTool_run_filter_simulation.
        apply run_filter_simulation_in_band.
      * intros _ Hdir. rewrite callTool_run_filter_simulation.
        rewrite (run_filter_simulation_trace w args Hdir).
        destruct Hp as [<-|[]].
        unfold get_arg at 1. rewrite Harg. cbn [default from_option].
        rewrite simulation_command_undefined. reflexivity.
    + split; [|intros Hn; vm_compute in Hn; discriminate Hn].
      rewrite callTool_analyze_verilog_syntax.
      apply analyze_verilog_syntax_in_band.
    + split; [|intros Hn; vm_compute in Hn; discriminate Hn].
      rewrite callTool_check_interface_compatibility.
      apply check_interface_compatibility_in_band.
    + split; [|intros Hn; vm_compute in Hn; discriminate Hn].
      rewrite callTool_suggest_makefile_fixes.
      apply suggest_makefile_fixes_in_band.
    + split; [|intros Hn; vm_compute in Hn; discriminate Hn].
      rewrite callTool_cross_reference_signals.
      apply cross_reference_signals_in_band.
    + split; [|intros Hn; vm_compute in Hn; discriminate Hn].
      rewrite callTool_check_requirements_compliance.
      apply check_requirements_compliance_in_band.
  - unfold Index.listTools. cbn [In].
    intros [<-|[<-|[<-|[]]]]; cbn [tool_name].
    + rewrite index_callTool_run_filter_simulation.
      apply index_run_filter_simulation_in_band.
    + rewrite index_callTool_check_requirements_compliance.
      apply index_check_requirements_compliance_in_band.
    + rewrite index_callTool_analyze_filter_code.
      apply index_analyze_filter_code_in_band.
Qed.

Lemma omitted_required_parameter_is_not_checked_witness :
  degrades_in_band (world_with [] (js "PASS") 0)
    (Enhanced.callTool (js "run-filter-simulation") (Some ∅)
       (world_with [] (js "PASS") 0)).
Proof.
  refine (proj1 (proj1 (omitted_required_parameter_is_not_checked
                   (world_with [] (js "PASS") 0)
                   (mkTool (js "run-filter-simulation")
                      (js "Run OpenNIC packet filter simulation with Verilator (enforced)")
                      [ ("test_type",
                         Enhanced.enum_property
                           [js "basic"; js "advanced"; js "csr";
                            js "performance"; js "all"]
                           (js "Type of test to run"));
                        ("debug",
                         Enhanced.boolean_property (js "Enable debug logging") None);
                        ("waves",
                         Enhanced.boolean_property
                           (js "Generate VCD waveform files") None) ]
                      ["test_type"])
                   "test_type" ∅ _ _) _)).
  - left. reflexivity.
  - vm_compute. reflexivity.
  - left. reflexivity.
Defined.

(** ** The matcher on runs of a class *)

Lemma strip_prefix_app (x s : jstring) : strip_prefix x (x ++ s) = Some s.
Proof.
  induction x as [|a x IH]; [destruct s; reflexivity|].
  cbn [app strip_prefix]. rewrite N.eqb_refl. exact IH.
Qed.




(** Greedy [c*] over a run [p] of the class that ends where the class
    stops: when the rest of the pattern succeeds after the whole run, that
    is the match. *)
Lemma star_run (c : N -> bool) (p s ctx : jstring) (cap : option jstring)
    (k : Cont) (r : MatchEnd) :
  forallb c p = true ->
  stops c s = true ->
  k (rev p ++ ctx) s cap = Some r ->
  star c ctx (p ++ s) cap k = Some r.
Proof.
  revert ctx. induction p as [|a p IH]; intros ctx Hp Hs Hk.
  - cbn [app rev] in *. destruct s as [|x s]; [exact Hk|].
    cbn [star]. cbn [stops] in Hs. destruct (c x); [discriminate|exact Hk].
  - cbn [forallb] in Hp. apply andb_prop in Hp as [Ha Hp].
    cbn [app star]. rewrite Ha.
    rewrite (IH (a :: ctx) Hp Hs); [reflexivity|].
    cbn [rev] in Hk. rewrite <- app_assoc in Hk. exact Hk.
Qed.

Lemma plus_run (c : N -> bool) (p s ctx : jstring) (cap : option jstring)
    (k : Cont) (r : MatchEnd) :
  nonempty p = true ->
  forallb c p = true ->
  stops c s = true ->
  k (rev p ++ ctx) s cap = Some r ->
  rmatch (Plus c) ctx (p ++ s) cap k = Some r.
Proof.
  destruct p as [|a p]; [discriminate|]. intros _ Hp Hs Hk.
  cbn [forallb] in Hp. apply andb_prop in Hp as [Ha Hp].
  cbn [app rmatch]. rewrite Ha.
  apply star_run; [exact Hp | exact Hs |].
  cbn [rev] in Hk. rewrite <- app_assoc in Hk. exact Hk.
Qed.

Lemma chars_run (lit s ctx : jstring) (cap : option jstring) (k : Cont) :
  rmatch (Chars lit) ctx (lit ++ s) cap k = k (rev lit ++ ctx) s cap.
Proof. cbn [rmatch]. rewrite strip_prefix_app. reflexivity. Qed.

Lemma consumed_app (x ctx : jstring) : consumed ctx (x ++ ctx) = rev x.
Proof.
  unfold consumed. rewrite length_app.
  replace (length x + length ctx - length ctx)%nat with (length x) by lia.
  rewrite take_app_length. reflexivity.
Qed.

Lemma word_not_space (x : N) : word_char x = true -> space_char x = false.
Proof.
  unfold word_char, space_char. intros H.
  apply not_true_is_false. intros G.
  repeat rewrite ?orb_true_iff, ?andb_true_iff, ?N.leb_le, ?N.eqb_eq in H.
  repeat rewrite ?orb_true_iff, ?andb_true_iff, ?N.leb_le, ?N.eqb_eq in G.
  lia.
Qed.

Lemma identifier_head (p : jstring) :
  identifier p -> exists x p', p = x :: p' /\ word_char x = true.
Proof.
  intros [Hn Hw]. destruct p as [|x p']; [discriminate|].
  cbn [forallb] in Hw. apply andb_prop in Hw as [Hx _].
  exists x, p'. split; [reflexivity | exact Hx].
Qed.

(** ** The three passes on one declaration per line *)

Lemma rmatch_Cat (r1 r2 : regex) ctx s cap (k : Cont) :
  rmatch (Cat r1 r2) ctx s cap k
  = rmatch r1 ctx s cap (fun ctx' s' cap' => rmatch r2 ctx' s' cap' k).
Proof. reflexivity. Qed.

Lemma rmatch_Group (r1 : regex) ctx s cap (k : Cont) :
  rmatch (Group r1) ctx s cap k
  = rmatch r1 ctx s cap (fun ctx' s' _ => k ctx' s' (Some (consumed ctx ctx'))).
Proof. reflexivity. Qed.

Lemma rmatch_Alt_first (r1 r2 : regex) ctx s cap (k : Cont) (r : MatchEnd) :
  rmatch r1 ctx s cap k = Some r -> rmatch (Alt r1 r2) ctx s cap k = Some r.
Proof. intros H. cbn [rmatch]. rewrite H. reflexivity. Qed.

Lemma rmatch_Opt_first (r1 : regex) ctx s cap (k : Cont) (r : MatchEnd) :
  rmatch r1 ctx s cap k = Some r -> rmatch (Opt r1) ctx s cap k = Some r.
Proof. intros H. cbn [rmatch]. rewrite H. reflexivity. Qed.

Lemma rmatch_Opt_skip (r1 : regex) ctx s cap (k : Cont) :
  rmatch r1 ctx s cap k = None -> rmatch (Opt r1) ctx s cap k = k ctx s cap.
Proof. intros H. cbn [rmatch]. rewrite H. reflexivity. Qed.

Lemma star_none (c : N -> bool) ctx s cap (k : Cont) :
  stops c s = true -> star c ctx s cap k = k ctx s cap.
Proof.
  destruct s as [|x s]; [reflexivity|]. cbn [stops star].
  destruct (c x); [discriminate | reflexivity].
Qed.

Lemma stops_identifier_space (p s : jstring) :
  identifier p -> stops space_char (p ++ s) = true.
Proof.
  intros Hp. destruct (identifier_head p Hp) as (x & p' & -> & Hx).
  cbn [app stops]. rewrite (word_not_space x Hx). reflexivity.
Qed.

(** [(?:\[[^\]]+\])?] matches the empty string in front of an identifier. *)
Lemma range_opt_skip (p s ctx : jstring) cap (k : Cont) :
  identifier p ->
  rmatch Enhanced.re_range_opt ctx (p ++ s) cap k = k ctx (p ++ s) cap.
Proof.
  intros Hp. destruct (identifier_head p Hp) as (x & p' & -> & Hx).
  unfold Enhanced.re_range_opt. apply rmatch_Opt_skip.
  unfold seq. rewrite rmatch_Cat. cbn [rmatch].
  replace (js "[") with [91%N] by (vm_compute; reflexivity).
  cbn [app strip_prefix].
  destruct (N.eqb_spec 91 x) as [<-|]; [discriminate Hx | reflexivity].
Qed.

Lemma match_import (p tail ctx : jstring) :
  identifier p ->
  match_at Enhanced.re_import ctx (js "import " ++ p ++ js "::*" ++ tail)
  = Some (mkMatch (js "import " ++ p ++ js "::*") (Some p)).
Proof.
  intros Hp. pose proof Hp as [Hne Hw].
  assert (E : rmatch Enhanced.re_import ctx
                (js "import" ++ [32%N] ++ p ++ js "::*" ++ tail) None accept
              = Some (mkMatchEnd
                        (rev (js "::*") ++ rev p ++ rev [32%N]
                         ++ rev (js "import") ++ ctx) tail (Some p))).
  { unfold Enhanced.re_import, seq.
    rewrite rmatch_Cat, chars_run, rmatch_Cat.
    apply plus_run;
      [ reflexivity | reflexivity | apply stops_identifier_space, Hp | ].
    rewrite rmatch_Cat, rmatch_Group.
    apply plus_run; [exact Hne | exact Hw | vm_compute; reflexivity |].
    rewrite chars_run. unfold accept.
    rewrite consumed_app, rev_involutive, <- ?app_assoc. reflexivity. }
  unfold match_at.
  replace (js "import ") with (js "import" ++ [32%N]) by (vm_compute; reflexivity).
  rewrite <- !app_assoc. rewrite E. cbn [m_ctx m_group1].
  rewrite !app_assoc, consumed_app, !rev_app_distr, !rev_involutive.
  rewrite <- !app_assoc. reflexivity.
Qed.

Lemma rmatch_Star (c : N -> bool) ctx s cap (k : Cont) :
  rmatch (Star c) ctx s cap k = star c ctx s cap k.
Proof. reflexivity. Qed.

Lemma match_signal (p tail ctx : jstring) :
  identifier p ->
  stops word_char tail = true ->
  match_at Enhanced.re_signal ctx (js "logic " ++ p ++ tail)
  = Some (mkMatch (js "logic " ++ p) (Some p)).
Proof.
  intros Hp Htail. pose proof Hp as [Hne Hw].
  assert (E : rmatch Enhanced.re_signal ctx
                (js "logic" ++ [32%N] ++ p ++ tail) None accept
              = Some (mkMatchEnd
                        (rev p ++ rev [32%N] ++ rev (js "logic") ++ ctx)
                        tail (Some p))).
  { unfold Enhanced.re_signal, seq, alts.
    rewrite rmatch_Cat. apply rmatch_Alt_first. rewrite chars_run, rmatch_Cat.
    apply plus_run;
      [ reflexivity | reflexivity | apply stops_identifier_space, Hp | ].
    rewrite rmatch_Cat, (range_opt_skip _ _ _ _ _ Hp).
    rewrite rmatch_Cat, rmatch_Star,
      (star_none _ _ _ _ _ (stops_identifier_space _ _ Hp)).
    rewrite rmatch_Group.
    apply plus_run; [exact Hne | exact Hw | exact Htail |].
    unfold accept. rewrite consumed_app, rev_involutive. reflexivity. }
  unfold match_at.
  replace (js "logic ") with (js "logic" ++ [32%N]) by (vm_compute; reflexivity).
  rewrite <- !app_assoc. rewrite E. cbn [m_ctx m_group1].
  rewrite !app_assoc, consumed_app, !rev_app_distr, !rev_involutive.
  rewrite <- ?app_assoc. reflexivity.
Qed.

Lemma match_port (p tail ctx : jstring) :
  identifier p ->
  stops word_char tail = true ->
  match_at Enhanced.re_port ctx (js "input logic " ++ p ++ tail)
  = Some (mkMatch (js "input logic " ++ p) (Some p)).
Proof.
  intros Hp Htail. pose proof Hp as [Hne Hw].
  assert (E : rmatch Enhanced.re_port ctx
                (js "input" ++ [32%N] ++ js "logic" ++ [32%N] ++ p ++ tail)
                None accept
              = Some (mkMatchEnd
                        (rev p ++ rev [32%N] ++ rev (js "logic") ++ rev [32%N]
                         ++ rev (js "input") ++ ctx)
                        tail (Some p))).
  { unfold Enhanced.re_port, seq, alts.
    rewrite rmatch_Cat. apply rmatch_Alt_first. rewrite chars_run, rmatch_Cat.
    apply plus_run; [ reflexivity | reflexivity | vm_compute; reflexivity | ].
    rewrite rmatch_Cat. apply rmatch_Opt_first, rmatch_Alt_first.
    rewrite chars_run, rmatch_Cat, rmatch_Star.
    apply star_run; [ reflexivity | apply stops_identifier_space, Hp | ].
    rewrite rmatch_Cat, (range_opt_skip _ _ _ _ _ Hp).
    rewrite rmatch_Cat, rmatch_Star,
      (star_none _ _ _ _ _ (stops_identifier_space _ _ Hp)).
    rewrite rmatch_Group.
    apply plus_run; [exact Hne | exact Hw | exact Htail |].
    unfold accept. rewrite consumed_app, rev_involutive. reflexivity. }
  unfold match_at.
  replace (js "input logic ")
    with (js "input" ++ [32%N] ++ js "logic" ++ [32%N])
    by (vm_compute; reflexivity).
  rewrite <- !app_assoc. rewrite E. cbn [m_ctx m_group1].
  rewrite !app_assoc, consumed_app, !rev_app_distr, !rev_involutive.
  rewrite <- ?app_assoc. reflexivity.
Qed.

(** ** Scanning a text for all matches *)

(** The units of a match are passed without a new search. *)
Lemma scan_skip (r : regex) (y rest ctx : jstring) (x : N) :
  scan_matches r (length y) ctx (y ++ x :: rest)
  = scan_matches r 0 (rev y ++ ctx) (x :: rest).
Proof.
  revert ctx. induction y as [|a y IH]; intros ctx; [reflexivity|].
  cbn [length app scan_matches].
  replace (S (length y) - 1)%nat with (length y) by lia.
  rewrite IH. cbn [rev]. rewrite <- app_assoc. reflexivity.
Qed.

Lemma scan_no_match (r : regex) (x : N) (rest ctx : jstring) :
  match_at r ctx (x :: rest) = None ->
  scan_matches r 0 ctx (x :: rest) = scan_matches r 0 (x :: ctx) rest.
Proof. intros H. cbn [scan_matches]. rewrite H. reflexivity. Qed.

(** One declaration that ends in [;] and a line feed. *)
Lemma scan_declaration (r : regex) (m rest ctx : jstring) (g : option jstring) :
  nonempty m = true ->
  match_at r ctx (m ++ 59%N :: 10%N :: rest) = Some (mkMatch m g) ->
  (forall c t, match_at r c (59%N :: t) = None) ->
  (forall c t, match_at r c (10%N :: t) = None) ->
  scan_matches r 0 ctx (m ++ 59%N :: 10%N :: rest)
  = m :: scan_matches r 0 (10%N :: 59%N :: rev m ++ ctx) rest.
Proof.
  intros Hm Hmatch H59 H10. destruct m as [|x m]; [discriminate|].
  cbn [app] in *. cbn [scan_matches]. rewrite Hmatch. cbn [match_text length].
  replace (S (length m) - 1)%nat with (length m) by lia.
  rewrite scan_skip.
  rewrite (scan_no_match _ _ _ _ (H59 _ _)), (scan_no_match _ _ _ _ (H10 _ _)).
  cbn [rev]. rewrite <- app_assoc. reflexivity.
Qed.

Lemma scan_declarations (r : regex) (m_of : jstring -> jstring)
    (g_of : jstring -> option jstring) (names : list jstring) :
  (forall p ctx tail, identifier p ->
     match_at r ctx (m_of p ++ 59%N :: 10%N :: tail)
     = Some (mkMatch (m_of p) (g_of p))) ->
  (forall p, identifier p -> nonempty (m_of p) = true) ->
  (forall c t, match_at r c (59%N :: t) = None) ->
  (forall c t, match_at r c (10%N :: t) = None) ->
  (forall c, match_at r c [] = None) ->
  Forall identifier names ->
  forall ctx,
    scan_matches r 0 ctx (concat (map (fun p => m_of p ++ [59%N; 10%N]) names))
    = map m_of names.
Proof.
  intros Hmatch Hne H59 H10 Hnil Hnames.
  induction Hnames as [|p names Hp Hnames IH]; intros ctx.
  - cbn [map concat scan_matches]. rewrite Hnil. reflexivity.
  - cbn [map concat]. rewrite <- app_assoc. cbn [app].
    rewrite (scan_declaration r (m_of p) _ ctx (g_of p) (Hne p Hp)
               (Hmatch p ctx _ Hp) H59 H10).
    rewrite IH. reflexivity.
Qed.

Lemma default_match_g (s : jstring) (r : regex) :
  default [] (string_match_g s r) = scan_matches r 0 [] s.
Proof.
  unfold string_match_g. destruct (scan_matches r 0 [] s); reflexivity.
Qed.

Lemma search_here (r : regex) (ctx s : jstring) (m : Match) :
  match_at r ctx s = Some m -> search r ctx s = Some m.
Proof. intros H. destruct s; cbn [search]; rewrite H; reflexivity. Qed.

(** ** Splitting at white space *)

Lemma split_from_word (w s piece ctx : jstring) :
  forallb (fun c => negb (space_char c)) w = true ->
  split_from (Plus space_char) 0 piece ctx (w ++ s)
  = split_from (Plus space_char) 0 (rev w ++ piece) (rev w ++ ctx) s.
Proof.
  revert piece ctx. induction w as [|x w IH]; intros piece ctx Hw;
    [reflexivity|].
  cbn [forallb] in Hw. apply andb_prop in Hw as [Hx Hw].
  apply negb_true_iff in Hx.
  cbn [app split_from]. unfold match_at at 1. cbn [rmatch]. rewrite Hx.
  rewrite (IH _ _ Hw). cbn [rev]. rewrite <- !app_assoc. reflexivity.
Qed.

Lemma split_from_space (s piece ctx : jstring) :
  stops space_char s = true ->
  split_from (Plus space_char) 0 piece ctx (32%N :: s)
  = rev piece :: split_from (Plus space_char) 0 [] (32%N :: ctx) s.
Proof.
  intros Hs. cbn [split_from]. unfold match_at at 1. cbn [rmatch].
  replace (space_char 32) with true by reflexivity.
  rewrite (star_none _ _ _ _ _ Hs). unfold accept. cbn [m_ctx m_group1].
  change (32%N :: ctx) with ([32%N] ++ ctx). rewrite consumed_app.
  cbn [rev app length match_text]. reflexivity.
Qed.

Lemma identifier_no_space (p : jstring) :
  identifier p -> forallb (fun c => negb (space_char c)) p = true.
Proof.
  intros [_ Hw]. induction p as [|x p IH]; [reflexivity|].
  cbn [forallb] in *. apply andb_prop in Hw as [Hx Hw].
  rewrite (word_not_space x Hx), (IH Hw). reflexivity.
Qed.

Lemma pop_signal_match (p : jstring) :
  identifier p ->
  array_pop (string_split (js "logic " ++ p) (Plus space_char)) = Some p.
Proof.
  intros Hp.
  replace (js "logic ") with (js "logic" ++ [32%N]) by (vm_compute; reflexivity).
  assert (Hs : exists x s, (js "logic" ++ [32%N]) ++ p = x :: s).
  { replace (js "logic") with (108%N :: js "ogic") by (vm_compute; reflexivity).
    eexists _, _. reflexivity. }
  destruct Hs as (x & s & Hs). unfold string_split. rewrite Hs, <- Hs.
  rewrite <- app_assoc.
  rewrite split_from_word by (vm_compute; reflexivity).
  cbn [app]. rewrite split_from_space
    by (rewrite <- (app_nil_r p); apply stops_identifier_space, Hp).
  rewrite <- (app_nil_r p) at 1.
  rewrite split_from_word by (apply identifier_no_space, Hp).
  cbn [split_from]. rewrite ?app_nil_r, ?rev_involutive. reflexivity.
Qed.

Lemma pop_port_match (p : jstring) :
  identifier p ->
  array_pop (string_split (js "input logic " ++ p) (Plus space_char)) = Some p.
Proof.
  intros Hp.
  replace (js "input logic ")
    with (js "input" ++ [32%N] ++ js "logic" ++ [32%N])
    by (vm_compute; reflexivity).
  assert (Hs : exists x s,
            (js "input" ++ [32%N] ++ js "logic" ++ [32%N]) ++ p = x :: s).
  { replace (js "input") with (105%N :: js "nput") by (vm_compute; reflexivity).
    eexists _, _. reflexivity. }
  destruct Hs as (x & s & Hs). unfold string_split. rewrite Hs, <- Hs.
  rewrite <- !app_assoc.
  rewrite split_from_word by (vm_compute; reflexivity).
  cbn [app]. rewrite split_from_space by (vm_compute; reflexivity).
  rewrite split_from_word by (vm_compute; reflexivity).
  cbn [app]. rewrite split_from_space
    by (rewrite <- (app_nil_r p); apply stops_identifier_space, Hp).
  rewrite <- (app_nil_r p) at 1.
  rewrite split_from_word by (apply identifier_no_space, Hp).
  cbn [split_from]. rewrite ?app_nil_r, ?rev_involutive. reflexivity.
Qed.

(** ** The three passes keep every declaration *)

Lemma or_string_identifier (p d : jstring) :
  identifier p -> or_string (Some p) d = p.
Proof. intros [Hn _]. destruct p; [discriminate | reflexivity]. Qed.

Lemma filter_identifiers (names : list jstring) :
  Forall identifier names -> filter nonempty names = names.
Proof.
  induction 1 as [|p names [Hn _] _ IH]; [reflexivity|].
  rewrite filter_cons_True by (rewrite Hn; exact I).
  f_equal. exact IH.
Qed.

Lemma map_identifiers (f : jstring -> jstring) (names : list jstring) :
  (forall p, identifier p -> f p = p) ->
  Forall identifier names -> map f names = names.
Proof.
  intros Hf. induction 1 as [|p names Hp _ IH]; [reflexivity|].
  cbn [map]. rewrite (Hf p Hp), IH. reflexivity.
Qed.

Lemma packages_of_imports (names : list jstring) :
  Forall identifier names ->
  Enhanced.package_dependencies
    (Enhanced.analyzeVerilogText (concat (map import_line names)))
  = names.
Proof.
  intros Hnames.
  unfold Enhanced.analyzeVerilogText. cbn [Enhanced.package_dependencies].
  rewrite default_match_g.
  rewrite (map_ext import_line
             (fun p => (js "import " ++ p ++ js "::*") ++ [59%N; 10%N])).
  2:{ intros p. unfold import_line, nl.
      replace (js "::*;") with (js "::*" ++ [59%N]) by (vm_compute; reflexivity).
      rewrite <- !app_assoc. reflexivity. }
  rewrite (scan_declarations Enhanced.re_import
             (fun p => js "import " ++ p ++ js "::*") (fun p => Some p)).
  - rewrite map_map, filter_identifiers.
    + apply map_identifiers; [|exact Hnames].
      intros p Hp. unfold string_match.
      rewrite (search_here _ _ _ (mkMatch (js "import " ++ p ++ js "::*") (Some p))).
      * cbn. apply or_string_identifier, Hp.
      * rewrite <- (app_nil_r (js "::*")) at 1. apply match_import, Hp.
    + rewrite (map_identifiers _ names); [exact Hnames| |exact Hnames].
      intros p Hp. unfold string_match.
      rewrite (search_here _ _ _ (mkMatch (js "import " ++ p ++ js "::*") (Some p))).
      * cbn. apply or_string_identifier, Hp.
      * rewrite <- (app_nil_r (js "::*")) at 1. apply match_import, Hp.
  - intros p ctx tail Hp. rewrite <- !app_assoc. apply match_import, Hp.
  - intros p _. vm_compute. reflexivity.
  - intros c t. vm_compute. reflexivity.
  - intros c t. vm_compute. reflexivity.
  - intros c. vm_compute. reflexivity.
  - exact Hnames.
Qed.

Lemma signals_of_declarations (names : list jstring) :
  Forall identifier names ->
  Enhanced.signal_definitions
    (Enhanced.analyzeVerilogText (concat (map signal_line names)))
  = names.
Proof.
  intros Hnames.
  unfold Enhanced.analyzeVerilogText. cbn [Enhanced.signal_definitions].
  rewrite default_match_g.
  rewrite (map_ext signal_line (fun p => (js "logic " ++ p) ++ [59%N; 10%N])).
  2:{ intros p. unfold signal_line, nl.
      replace (js ";") with [59%N] by (vm_compute; reflexivity).
      rewrite <- !app_assoc. reflexivity. }
  assert (Hpop : forall p, identifier p ->
            or_string (array_pop (string_split (js "logic " ++ p)
                                    (Plus space_char))) [] = p).
  { intros p Hp. rewrite (pop_signal_match p Hp).
    apply or_string_identifier, Hp. }
  rewrite (scan_declarations Enhanced.re_signal
             (fun p => js "logic " ++ p) (fun p => Some p)).
  - rewrite map_map, (map_identifiers _ names Hpop Hnames).
    apply filter_identifiers, Hnames.
  - intros p ctx tail Hp. rewrite <- !app_assoc.
    apply match_signal; [exact Hp | reflexivity].
  - intros p _. vm_compute. reflexivity.
  - intros c t. vm_compute. reflexivity.
  - intros c t. vm_compute. reflexivity.
  - intros c. vm_compute. reflexivity.
  - exact Hnames.
Qed.

Lemma ports_of_declarations (names : list jstring) :
  Forall identifier names ->
  Enhanced.interface_ports
    (Enhanced.analyzeVerilogText (concat (map port_line names)))
  = names.
Proof.
  intros Hnames.
  unfold Enhanced.analyzeVerilogText. cbn [Enhanced.interface_ports].
  rewrite default_match_g.
  rewrite (map_ext port_line
             (fun p => (js "input logic " ++ p) ++ [59%N; 10%N])).
  2:{ intros p. unfold port_line, nl.
      replace (js ";") with [59%N] by (vm_compute; reflexivity).
      rewrite <- !app_assoc. reflexivity. }
  assert (Hpop : forall p, identifier p ->
            or_string (array_pop (string_split (js "input logic " ++ p)
                                    (Plus space_char))) [] = p).
  { intros p Hp. rewrite (pop_port_match p Hp).
    apply or_string_identifier, Hp. }
  rewrite (scan_declarations Enhanced.re_port
             (fun p => js "input logic " ++ p) (fun p => Some p)).
  - rewrite map_map, (map_identifiers _ names Hpop Hnames).
    apply filter_identifiers, Hnames.
  - intros p ctx tail Hp. rewrite <- !app_assoc.
    apply match_port; [exact Hp | reflexivity].
  - intros p _. vm_compute. reflexivity.
  - intros c t. vm_compute. reflexivity.
  - intros c t. vm_compute. reflexivity.
  - intros c. vm_compute. reflexivity.
  - exact Hnames.
Qed.

(** C4 (counterexample).  A text that imports the package [pkg] twice,
    declares the signal [ready] twice and the port [valid] twice: each
    result field holds the identifier twice. *)
Lemma extraction_returns_duplicates :
  let analysis :=
    Enhanced.analyzeVerilogText
      (js "import pkg::*;
import pkg::*;
input logic valid;
input wire valid;
reg ready;
reg ready;
") in
  Enhanced.package_dependencies analysis = [js "pkg"; js "pkg"]
  /\ Enhanced.signal_definitions analysis
     = [js "valid"; js "valid"; js "ready"; js "ready"]
  /\ Enhanced.interface_ports analysis = [js "valid"; js "valid"]
  /\ ~ NoDup (Enhanced.package_dependencies analysis)
  /\ ~ NoDup (Enhanced.signal_definitions analysis)
  /\ ~ NoDup (Enhanced.interface_ports analysis).
Proof.
  cbv zeta.
  assert (H1 : Enhanced.package_dependencies
                 (Enhanced.analyzeVerilogText
                    (js "import pkg::*;
import pkg::*;
input logic valid;
input wire valid;
reg ready;
reg ready;
")) = [js "pkg"; js "pkg"]) by (vm_compute; reflexivity).
  assert (H2 : Enhanced.signal_definitions
                 (Enhanced.analyzeVerilogText
                    (js "import pkg::*;
import pkg::*;
input logic valid;
input wire valid;
reg ready;
reg ready;
")) = [js "valid"; js "valid"; js "ready"; js "ready"])
    by (vm_compute; reflexivity).
  assert (H3 : Enhanced.interface_ports
                 (Enhanced.analyzeVerilogText
                    (js "import pkg::*;
import pkg::*;
input logic valid;
input wire valid;
reg ready;
reg ready;
")) = [js "valid"; js "valid"]) by (vm_compute; reflexivity).
  rewrite H1, H2, H3.
  repeat split; intros Hnd; apply NoDup_cons in Hnd as [Hnot _];
    apply Hnot; left.
Qed.

(** C4 (as amended).  The three passes return sequences, not sets: for
    every list of identifiers, with repetitions or not, the text that
    declares them one per line yields exactly that list, in the order of
    the text and with every repetition, in the field of the pass. *)
Theorem extraction_keeps_order_and_duplicates (names : list jstring) :
  Forall identifier names ->
  Enhanced.package_dependencies
    (Enhanced.analyzeVerilogText (concat (map import_line names))) = names
  /\ Enhanced.signal_definitions
       (Enhanced.analyzeVerilogText (concat (map signal_line names))) = names
  /\ Enhanced.interface_ports
       (Enhanced.analyzeVerilogText (concat (map port_line names))) = names.
Proof.
  intros Hnames. split; [|split].
  - apply packages_of_imports, Hnames.
  - apply signals_of_declarations, Hnames.
  - apply ports_of_declarations, Hnames.
Qed.

Lemma extraction_keeps_order_and_duplicates_witness :
  Enhanced.package_dependencies
    (Enhanced.analyzeVerilogText
       (concat (map import_line [js "axi_pkg"; js "csr_pkg"; js "axi_pkg"])))
  = [js "axi_pkg"; js "csr_pkg"; js "axi_pkg"].
Proof.
  refine (proj1 (extraction_keeps_order_and_duplicates
                   [js "axi_pkg"; js "csr_pkg"; js "axi_pkg"] _)).
  repeat constructor; vm_compute; reflexivity.
Defined.

(** ** The simulator of a build script *)

Lemma match_sim_needs_SIM (ctx s : jstring) :
  strip_prefix (js "SIM") s = None -> match_at Enhanced.re_sim ctx s = None.
Proof.
  intros H. unfold match_at, Enhanced.re_sim, seq.
  rewrite rmatch_Cat. cbn [rmatch]. rewrite H. reflexivity.
Qed.

(** [SIM] does not start inside a text without [SIM] that is followed by
    an [S]. *)
Lemma strip_SIM_straddle (l t : jstring) :
  nonempty l = true ->
  strip_prefix (js "SIM") l = None ->
  strip_prefix (js "SIM") (l ++ 83%N :: t) = None.
Proof.
  replace (js "SIM") with [83%N; 73%N; 77%N] by (vm_compute; reflexivity).
  intros Hl H. destruct l as [|a l]; [discriminate|].
  cbn [app strip_prefix] in *. destruct (83 =? a)%N; [|reflexivity].
  destruct l as [|b l]; cbn [app strip_prefix] in *; [reflexivity|].
  destruct (73 =? b)%N; [|reflexivity].
  destruct l as [|c l]; cbn [app strip_prefix] in *; [reflexivity|].
  destruct (77 =? c)%N; [discriminate H | reflexivity].
Qed.

Lemma search_sim_skips (pre rest ctx : jstring) :
  includes pre (js "SIM") = false ->
  search Enhanced.re_sim ctx (pre ++ js "SIM" ++ rest)
  = search Enhanced.re_sim (rev pre ++ ctx) (js "SIM" ++ rest).
Proof.
  revert ctx. induction pre as [|x pre IH]; intros ctx Hpre; [reflexivity|].
  cbn [includes] in Hpre.
  destruct (strip_prefix (js "SIM") (x :: pre)) eqn:Hx; [discriminate|].
  cbn [app search]. rewrite match_sim_needs_SIM.
  - rewrite (IH (x :: ctx) Hpre). cbn [rev]. rewrite <- app_assoc. reflexivity.
  - change (x :: pre ++ js "SIM" ++ rest) with ((x :: pre) ++ js "SIM" ++ rest).
    replace (js "SIM" ++ rest) with (83%N :: js "IM" ++ rest)
      by (vm_compute; reflexivity).
    apply strip_SIM_straddle; [reflexivity | exact Hx].
Qed.








(* ================================================================== *)
(** * Further properties of the handlers and the analyzers *)

(** ** The command line of the simulation *)

Lemma strict_eq_string_other (v : JsValue) (lit : jstring) :
  v <> VString lit -> strict_eq_string v lit = false.
Proof.
  intros H. destruct v as [| | |s|]; try reflexivity.
  cbn [strict_eq_string]. apply jstring_eqb_neq. intros ->. apply H. reflexivity.
Qed.

(** X1.  For each of the four test types that the [switch] names, the
    command line is the assignment [SIM=verilator], then [COCOTB_DEBUG=1]
    when [debug] is truthy, then [WAVES=1] and [EXTRA_ARGS] when [waves] is
    truthy, then [TESTCASE], then [make test], separated by single spaces.
    The value of [EXTRA_ARGS] holds a space and is not quoted. *)
Theorem simulation_command_of_named_test (test_type testcase : jstring)
    (debug waves : JsValue) :
  In (test_type, testcase)
    [ (js "basic", js "test_filter_basic");
      (js "advanced", js "test_filter_advanced");
      (js "csr", js "test_csr_interface");
      (js "performance", js "test_performance") ] ->
  Enhanced.simulation_command (VString test_type) debug waves
  = js "SIM=verilator"
    ++ (if truthy debug then js " COCOTB_DEBUG=1" else [])
    ++ (if truthy waves
        then js " WAVES=1 EXTRA_ARGS=--trace --trace-structs" else [])
    ++ js " TESTCASE=" ++ testcase ++ js " make test".
Proof.
  cbn [In].
  intros [H|[H|[H|[H|[]]]]]; injection H as <- <-;
    unfold Enhanced.simulation_command;
    destruct (truthy debug), (truthy waves); vm_compute; reflexivity.
Qed.

Lemma simulation_command_of_named_test_witness :
  Enhanced.simulation_command (VString (js "csr")) (VBool false)
    (VString (js "yes"))
  = js "SIM=verilator WAVES=1 EXTRA_ARGS=--trace --trace-structs TESTCASE=test_csr_interface make test".
Proof.
  rewrite (simulation_command_of_named_test (js "csr") (js "test_csr_interface")
             (VBool false) (VString (js "yes"))).
  - vm_compute. reflexivity.
  - right. right. left. reflexivity.
Defined.

(** X2.  Every other value of [test_type] (the type [all], a string outside
    the enumeration, a value that is no string, [undefined]) falls through
    the [switch]: the command line sets no [TESTCASE]. *)
Theorem simulation_command_of_other_test_type (test_type debug waves : JsValue) :
  (forall lit : jstring,
     In lit [js "basic"; js "advanced"; js "csr"; js "performance"] ->
     test_type <> VString lit) ->
  Enhanced.simulation_command test_type debug waves
  = js "SIM=verilator"
    ++ (if truthy debug then js " COCOTB_DEBUG=1" else [])
    ++ (if truthy waves
        then js " WAVES=1 EXTRA_ARGS=--trace --trace-structs" else [])
    ++ js " make test".
Proof.
  intros Hother.
  unfold Enhanced.simulation_command, Enhanced.set_testcase.
  rewrite !strict_eq_string_other by (apply Hother; in_literals).
  destruct (truthy debug), (truthy waves); vm_compute; reflexivity.
Qed.

Lemma simulation_command_of_other_test_type_witness :
  Enhanced.simulation_command (VString (js "regression")) (VBool true)
    (VBool false)
  = js "SIM=verilator COCOTB_DEBUG=1 make test".
Proof.
  rewrite (simulation_command_of_other_test_type (VString (js "regression"))
             (VBool true) (VBool false)).
  - vm_compute. reflexivity.
  - intros lit Hin H. injection H as <-. cbn [In] in Hin.
    repeat (destruct Hin as [Hin|Hin]; [vm_compute in Hin; discriminate Hin|]).
    exact Hin.
Defined.

(** X3.  The server of [src/index.ts] never selects a simulator: whatever
    the arguments, its command line does not contain [SIM].  It has no case
    for the test type [performance]; for every test type outside [basic],
    [advanced] and [csr] the command line is the assignments of the two
    flags followed by [make test], and starts with a space when no flag is
    set. *)
Theorem index_simulation_command_sets_no_simulator (test_type debug waves : JsValue) :
  includes (Index.simulation_command test_type debug waves) (js "SIM") = false
  /\ ((forall lit : jstring,
         In lit [js "basic"; js "advanced"; js "csr"] ->
         test_type <> VString lit) ->
      Index.simulation_command test_type debug waves
      = join (js " ")
          ((if truthy debug then [js "COCOTB_DEBUG=1"] else [])
           ++ (if truthy waves then [js "WAVES=1"] else []))
        ++ js " make test").
Proof.
  split.
  - unfold Index.simulation_command, Index.set_testcase.
    destruct (truthy debug), (truthy waves),
      (strict_eq_string test_type (js "basic")),
      (strict_eq_string test_type (js "advanced")),
      (strict_eq_string test_type (js "csr"));
      vm_compute; reflexivity.
  - intros Hother.
    unfold Index.simulation_command, Index.set_testcase.
    rewrite !strict_eq_string_other by (apply Hother; in_literals).
    destruct (truthy debug), (truthy waves); vm_compute; reflexivity.
Qed.

Lemma index_simulation_command_sets_no_simulator_witness :
  Index.simulation_command (VString (js "performance")) (VBool false)
    (VBool false)
  = js " make test".
Proof.
  rewrite (proj2 (index_simulation_command_sets_no_simulator
                    (VString (js "performance")) (VBool false) (VBool false))).
  - vm_compute. reflexivity.
  - intros lit Hin H. injection H as <-. cbn [In] in Hin.
    repeat (destruct Hin as [Hin|Hin]; [vm_compute in Hin; discriminate Hin|]).
    exact Hin.
Defined.

(** ** The simulation and the test directory *)

Lemma index_testDir : Index.testDir = Enhanced.testDir.
Proof. vm_compute. reflexivity. Qed.

(** X4.  run-filter-simulation checks the test directory first.  When the
    check fails no process is started: the only call is [fs.access], and
    the handler returns the failure text with the error of the check.  Both
    servers. *)
Theorem simulation_needs_test_directory (w : World)
    (args : gmap string JsValue) (e : JsError) :
  fs_access w Enhanced.testDir = Some e ->
  Enhanced.callTool (js "run-filter-simulation") (Some args) w
  = (Returned [text_block (Enhanced.simulation_failure e)],
     [EffAccess Enhanced.testDir])
  /\ Index.callTool (js "run-filter-simulation") (Some args) w
     = (Returned [text_block (Index.simulation_failure e)],
        [EffAccess Index.testDir]).
Proof.
  intros Hdir. split.
  - rewrite callTool_run_filter_simulation.
    unfold Enhanced.run_filter_simulation, destructure, bind, ret, try_catch,
      access.
    rewrite Hdir. reflexivity.
  - rewrite index_callTool_run_filter_simulation.
    unfold Index.run_filter_simulation, destructure, bind, ret, try_catch,
      access.
    rewrite index_testDir, Hdir. reflexivity.
Qed.

Lemma simulation_needs_test_directory_witness :
  Enhanced.callTool (js "run-filter-simulation")
    (Some {[ "test_type" := VString (js "basic") ]}) world_without_project
  = (Returned
       [text_block (Enhanced.simulation_failure (enoent Enhanced.testDir))],
     [EffAccess Enhanced.testDir]).
Proof.
  refine (proj1 (simulation_needs_test_directory world_without_project
                   {[ "test_type" := VString (js "basic") ]}
                   (enoent Enhanced.testDir) _)).
  reflexivity.
Defined.



(** ** A child that never closes *)

Lemma events_until_settled (events : list ChildEvent) :
  forallb is_data events = true
  \/ exists pre ev post,
       events = pre ++ ev :: post
       /\ forallb is_data pre = true /\ is_data ev = false.
Proof.
  induction events as [|ev events IH]; [left; reflexivity|].
  destruct (is_data ev) eqn:Hev.
  - destruct IH as [IH|(pre & ev' & post & -> & Hpre & Hev')].
    + left. cbn [forallb]. rewrite Hev, IH. reflexivity.
    + right. exists (ev :: pre), ev', post. repeat split; [|exact Hev'].
      cbn [forallb]. rewrite Hev, Hpre. reflexivity.
  - right. exists [], ev, events. repeat split. exact Hev.
Qed.

(** X6.  The promise of [executeCommand] stays pending exactly when the
    child emits neither [close] nor [error]: the helper has no timeout, and
    data on the two streams never settles it. *)
Theorem executeCommand_pending_iff_never_closed (w : World)
    (command : jstring) (args : list JsValue) (cwd : option jstring)
    (events : list ChildEvent) :
  proc_spawn w command args cwd = SpawnEvents events ->
  fst (executeCommand command args cwd w) = Pending
  <-> forallb is_data events = true.
Proof.
  intros Hspawn. unfold executeCommand. rewrite Hspawn. cbn [fst].
  unfold promise_outcome.
  destruct (events_until_settled events)
    as [Hall|(pre & ev & post & -> & Hpre & Hev)].
  - unfold run_child. rewrite (fold_deliver_data _ _ Hall). cbn [ex_settled].
    split; [intros _; exact Hall | reflexivity].
  - rewrite (run_child_first_settling pre ev post Hpre Hev).
    rewrite forallb_app. cbn [forallb]. rewrite Hpre, Hev. cbn [andb].
    destruct ev as [d|d|[[| |]|]|e]; try discriminate Hev; cbn;
      split; intros H; discriminate H.
Qed.

Lemma executeCommand_pending_iff_never_closed_witness :
  fst (executeCommand (js "make") [] None
         (mkWorld (fun _ => inr []) (fun _ => None)
            (fun _ _ _ => SpawnEvents [StdoutData (js "waiting")])))
  = Pending.
Proof.
  apply (proj2 (executeCommand_pending_iff_never_closed
                  (mkWorld (fun _ => inr []) (fun _ => None)
                     (fun _ _ _ => SpawnEvents [StdoutData (js "waiting")]))
                  (js "make") [] None [StdoutData (js "waiting")] eq_refl)).
  reflexivity.
Defined.

(** ** Files that cannot be read *)

(** X7.  A file that cannot be read stops the two analysis tools before any
    other call: the only call is the read, and the text returned carries
    the label of the tool twice, once from the analyzer and once from the
    handler, around the message of [readFileContent]. *)
Theorem unreadable_file_is_reported_in_band (w : World) (tool : jstring)
    (key : string) (label : jstring) (args : gmap string JsValue)
    (e : JsError) :
  In (tool, key, label)
    [ (js "analyze-verilog-syntax", "file_path", js "Verilog");
      (js "suggest-makefile-fixes", "makefile_path", js "Makefile") ] ->
  fs_readFile w (get_arg args key) = inl e ->
  Enhanced.callTool tool (Some args) w
  = (Returned
       [text_block
          (js "❌ " ++ label ++ js " analysis failed: Error: " ++ label
           ++ js " analysis failed: Error: Failed to read file "
           ++ to_string (get_arg args key) ++ js ": " ++ error_to_string e)],
     [EffReadFile (get_arg args key)]).
Proof.
  cbn [In]. intros [H|[H|[]]] Hread; injection H as <- <- <-.
  - rewrite callTool_analyze_verilog_syntax.
    unfold Enhanced.analyze_verilog_syntax, destructure.
    unfold bind at 1. unfold ret at 1. cbv beta iota.
    unfold try_catch at 1. unfold bind at 1.
    rewrite analyzeVerilogFile_cases, Hread. cbv beta iota.
    unfold ret. cbn [app]. unwrap_errors.
    replace (js "❌ Verilog analysis failed: ")
      with (js "❌ " ++ js "Verilog" ++ js " analysis failed: ")
      by (vm_compute; reflexivity).
    replace (js " analysis failed: Error: ")
      with (js " analysis failed: " ++ js "Error" ++ js ": ")
      by (vm_compute; reflexivity).
    replace (js "Verilog analysis failed: ")
      with (js "Verilog" ++ js " analysis failed: ")
      by (vm_compute; reflexivity).
    replace (js " analysis failed: Error: Failed to read file ")
      with (js " analysis failed: " ++ js "Error" ++ js ": "
            ++ js "Failed to read file ")
      by (vm_compute; reflexivity).
    rewrite <- !app_assoc. reflexivity.
  - rewrite callTool_suggest_makefile_fixes.
    unfold Enhanced.suggest_makefile_fixes, destructure.
    unfold bind at 1. unfold ret at 1. cbv beta iota.
    unfold try_catch at 1. unfold bind at 1.
    rewrite analyzeMakefile_cases, Hread. cbv beta iota.
    unfold ret. cbn [app]. unwrap_errors.
    replace (js "❌ Makefile analysis failed: ")
      with (js "❌ " ++ js "Makefile" ++ js " analysis failed: ")
      by (vm_compute; reflexivity).
    replace (js " analysis failed: Error: ")
      with (js " analysis failed: " ++ js "Error" ++ js ": ")
      by (vm_compute; reflexivity).
    replace (js "Makefile analysis failed: ")
      with (js "Makefile" ++ js " analysis failed: ")
      by (vm_compute; reflexivity).
    replace (js " analysis failed: Error: Failed to read file ")
      with (js " analysis failed: " ++ js "Error" ++ js ": "
            ++ js "Failed to read file ")
      by (vm_compute; reflexivity).
    rewrite <- !app_assoc. reflexivity.
Qed.

Lemma unreadable_file_is_reported_in_band_witness :
  Enhanced.callTool (js "suggest-makefile-fixes")
    (Some {[ "makefile_path" := VString (js "Makefile") ]})
    world_without_project
  = (Returned
       [text_block
          (js "❌ Makefile analysis failed: Error: Makefile analysis failed: Error: Failed to read file Makefile: Error: ENOENT: no such file or directory, open 'Makefile'")],
     [EffReadFile (VString (js "Makefile"))]).
Proof.
  rewrite (unreadable_file_is_reported_in_band world_without_project
             (js "suggest-makefile-fixes") "makefile_path" (js "Makefile")
             {[ "makefile_path" := VString (js "Makefile") ]}
             (enoent (js "Makefile"))).
  - vm_compute. reflexivity.
  - right. left. reflexivity.
  - vm_compute. reflexivity.
Defined.

(** X8.  check-interface-compatibility reads the testbench first and the
    RTL file second, and stops at the first file that cannot be read: when
    the testbench is unreadable the RTL file is not opened; when only the
    RTL file is unreadable both reads are made.  The text names the file
    that failed. *)
Theorem interface_check_stops_at_first_unreadable_file (w : World)
    (args : gmap string JsValue) :
  let testbench_file := get_arg args "testbench_file" in
  let rtl_file := get_arg args "rtl_file" in
  let failure (file : JsValue) (e : JsError) :=
    [text_block
       (js "❌ Interface compatibility check failed: Error: Verilog analysis failed: Error: Failed to read file "
        ++ to_string file ++ js ": " ++ error_to_string e)] in
  (forall e, fs_readFile w testbench_file = inl e ->
     Enhanced.callTool (js "check-interface-compatibility") (Some args) w
     = (Returned (failure testbench_file e), [EffReadFile testbench_file]))
  /\ (forall content e,
        fs_readFile w testbench_file = inr content ->
        fs_readFile w rtl_file = inl e ->
        Enhanced.callTool (js "check-interface-compatibility") (Some args) w
        = (Returned (failure rtl_file e),
           [EffReadFile testbench_file; EffReadFile rtl_file])).
Proof.
  intros testbench_file rtl_file failure.
  split.
  - intros e Hread.
    rewrite callTool_check_interface_compatibility.
    unfold Enhanced.check_interface_compatibility, destructure.
    unfold bind at 1. unfold ret at 1. cbv beta iota.
    unfold try_catch at 1. unfold bind at 1.
    fold testbench_file. rewrite analyzeVerilogFile_cases, Hread.
    cbv beta iota. unfold ret. cbn [app]. unfold failure.
    unwrap_errors.
    replace (js "❌ Interface compatibility check failed: Error: Verilog analysis failed: Error: Failed to read file ")
      with (js "❌ Interface compatibility check failed: " ++ js "Error"
            ++ js ": " ++ js "Verilog analysis failed: " ++ js "Error"
            ++ js ": " ++ js "Failed to read file ")
      by (vm_compute; reflexivity).
    rewrite <- !app_assoc. reflexivity.
  - intros content e Htb Hrtl.
    rewrite callTool_check_interface_compatibility.
    unfold Enhanced.check_interface_compatibility, destructure.
    unfold bind at 1. unfold ret at 1. cbv beta iota.
    unfold try_catch at 1. unfold bind at 1.
    fold testbench_file. rewrite analyzeVerilogFile_cases, Htb.
    cbv beta iota. unfold bind at 1.
    fold rtl_file. rewrite analyzeVerilogFile_cases, Hrtl.
    cbv beta iota. unfold ret. cbn [app]. unfold failure.
    unwrap_errors.
    replace (js "❌ Interface compatibility check failed: Error: Verilog analysis failed: Error: Failed to read file ")
      with (js "❌ Interface compatibility check failed: " ++ js "Error"
            ++ js ": " ++ js "Verilog analysis failed: " ++ js "Error"
            ++ js ": " ++ js "Failed to read file ")
      by (vm_compute; reflexivity).
    rewrite <- !app_assoc. reflexivity.
Qed.

(** X9.  analyze-verilog-syntax on a readable file makes two calls, the
    read and then [verilator --lint-only -Wall] with the path of the request
    as third argument and no working directory.  The lint run never fails
    the tool: when it succeeds the report ends with the line that no syntax
    error was found, whatever Verilator printed; when it fails (Verilator
    missing, non-zero exit) the report ends with its error. *)
Theorem lint_outcome_is_appended_to_the_report (w : World)
    (args : gmap string JsValue) (content : jstring) :
  let file_path := get_arg args "file_path" in
  let check_packages :=
    with_default (get_arg args "check_packages") (VBool true) in
  let report :=
    Enhanced.verilog_report file_path check_packages
      (Enhanced.analyzeVerilogText content) in
  let lint_args :=
    [VString (js "--lint-only"); VString (js "-Wall"); file_path] in
  fs_readFile w file_path = inr content ->
  Enhanced.callTool (js "analyze-verilog-syntax") (Some args) w
  = (match fst (executeCommand (js "verilator") lint_args None w) with
     | Returned _ =>
         Returned
           [text_block
              (report ++ nl ++ js "## Verilator Syntax Check" ++ nl
               ++ js "✅ No syntax errors found." ++ nl)]
     | Thrown e =>
         Returned
           [text_block
              (report ++ nl ++ js "## Verilator Syntax Check" ++ nl
               ++ js "⚠️ Issues found:" ++ nl ++ error_to_string e ++ nl)]
     | Pending => Pending
     end,
     [EffReadFile file_path; EffSpawn (js "verilator") lint_args None]).
Proof.
  intros file_path check_packages report lint_args Hread.
  rewrite callTool_analyze_verilog_syntax.
  unfold Enhanced.analyze_verilog_syntax, destructure.
  unfold bind at 1. unfold ret at 1. cbv beta iota.
  unfold try_catch at 1. unfold bind at 1.
  fold file_path. rewrite analyzeVerilogFile_cases, Hread. cbv beta iota.
  fold check_packages. fold report. fold lint_args.
  unfold bind, try_catch, ret.
  pose proof (executeCommand_trace w (js "verilator") lint_args None) as Ht.
  destruct (executeCommand (js "verilator") lint_args None w) as [[r|e|] t];
    cbn [snd] in Ht; subst t; reflexivity.
Qed.

Lemma lint_outcome_is_appended_to_the_report_witness :
  Enhanced.callTool (js "analyze-verilog-syntax")
    (Some {[ "file_path" := VString (js "top.sv") ]})
    (world_with [] (js "%Error: top.sv:1") 1)
  = (Returned
       [text_block
          (js "# SystemVerilog Analysis Report

**File:** top.sv

## Package Dependencies
No package imports found.

## Signal Definitions
No signal definitions found.

## Interface Ports
No interface ports found.

## Verilator Syntax Check
⚠️ Issues found:
Error: Command failed with exit code 1: 
")],
     [ EffReadFile (VString (js "top.sv"));
       EffSpawn (js "verilator")
         [VString (js "--lint-only"); VString (js "-Wall");
          VString (js "top.sv")] None ]).
Proof.
  rewrite (lint_outcome_is_appended_to_the_report
             (world_with [] (js "%Error: top.sv:1") 1)
             {[ "file_path" := VString (js "top.sv") ]} []).
  - vm_compute. reflexivity.
  - vm_compute. reflexivity.
Defined.

Lemma interface_check_stops_at_first_unreadable_file_witness :
  Enhanced.callTool (js "check-interface-compatibility")
    (Some {[ "testbench_file" := VString (js "tb.sv");
             "rtl_file" := VString (js "rtl.sv") ]})
    world_without_project
  = (Returned
       [text_block
          (js "❌ Interface compatibility check failed: Error: Verilog analysis failed: Error: Failed to read file "
           ++ js "tb.sv" ++ js ": "
           ++ error_to_string (enoent (js "tb.sv")))],
     [EffReadFile (VString (js "tb.sv"))]).
Proof.
  rewrite (proj1 (interface_check_stops_at_first_unreadable_file
                    world_without_project
                    {[ "testbench_file" := VString (js "tb.sv");
                       "rtl_file" := VString (js "rtl.sv") ]})
             (enoent (js "tb.sv"))).
  - vm_compute. reflexivity.
  - vm_compute. reflexivity.
Defined.

Lemma to_string_all (v : JsValue) :
  strict_eq_string v (js "all") = true -> to_string v = js "all".
Proof.
  destruct v as [| | |s|]; try discriminate. cbn [strict_eq_string to_string].
  apply jstring_eqb_eq.
Qed.

(** ** The signal map *)

Lemma jstring_eqb_refl (a : jstring) : jstring_eqb a a = true.
Proof. unfold jstring_eqb. apply bool_decide_eq_true. reflexivity. Qed.





(** X11.  For a hierarchy level whose string conversion is a key of the
    signal map, the report lists the signals of that level, one bullet
    each, under the heading of the signal definitions.  For the string
    [all] it holds the same three lists, each under a heading with the key
    in upper case, in the order top, filter, parser. *)
Theorem hierarchy_level_selects_its_signals (w : World)
    (args : gmap string JsValue) :
  let hierarchy_level := get_arg args "hierarchy_level" in
  let header :=
    js "# Signal Cross-Reference Map" ++ nl ++ nl
    ++ js "**Hierarchy Level:** " ++ to_string hierarchy_level ++ nl ++ nl in
  let section (key : jstring) :=
    bullet_list (default [] (Enhanced.assoc_lookup Enhanced.signalMap key))
    ++ nl ++ nl in
  (forall signals,
     In (to_string hierarchy_level, signals) Enhanced.signalMap ->
     Enhanced.callTool (js "cross-reference-signals") (Some args) w
     = (Returned
          [text_block
             (header ++ js "## Signal Definitions" ++ nl
              ++ bullet_list signals ++ nl ++ nl
              ++ Enhanced.testbench_access_patterns)], []))
  /\ (hierarchy_level = VString (js "all") ->
      Enhanced.callTool (js "cross-reference-signals") (Some args) w
      = (Returned
           [text_block
              (header
               ++ js "## TOP Level" ++ nl ++ section (js "top")
               ++ js "## FILTER Level" ++ nl ++ section (js "filter")
               ++ js "## PARSER Level" ++ nl ++ section (js "parser")
               ++ Enhanced.testbench_access_patterns)], [])).
Proof.
  intros hierarchy_level header section. split.
  - intros signals Hin.
    assert (Hall : strict_eq_string hierarchy_level (js "all") = false).
    { destruct (strict_eq_string hierarchy_level (js "all")) eqn:E;
        [|reflexivity].
      apply to_string_all in E. rewrite E in Hin. exfalso.
      unfold Enhanced.signalMap in Hin. cbn [In] in Hin.
      destruct Hin as [H|[H|[H|[]]]]; injection H as H _;
        vm_compute in H; discriminate H. }
    assert (Hkey : Enhanced.assoc_lookup Enhanced.signalMap
                     (to_string hierarchy_level) = Some signals).
    { revert Hin. generalize (to_string hierarchy_level) as key. intros key.
      unfold Enhanced.signalMap. cbn [In].
      intros [H|[H|[H|[]]]]; injection H as <- <-; vm_compute; reflexivity. }
    rewrite callTool_cross_reference_signals.
    unfold Enhanced.cross_reference_signals, destructure.
    unfold bind at 1. unfold ret at 1. cbv beta iota.
    fold hierarchy_level. rewrite Hall.
    unfold Enhanced.signal_section. rewrite Hkey.
    unfold try_catch, bind, ret. cbn [app]. unfold header.
    rewrite <- !app_assoc. reflexivity.
  - intros Hall.
    rewrite callTool_cross_reference_signals.
    unfold Enhanced.cross_reference_signals, destructure.
    unfold bind at 1. unfold ret at 1. cbv beta iota.
    fold hierarchy_level. unfold header, section. rewrite Hall.
    vm_compute. reflexivity.
Qed.

Lemma hierarchy_level_selects_its_signals_witness :
  Enhanced.callTool (js "cross-reference-signals")
    (Some {[ "hierarchy_level" := VString (js "filter") ]})
    world_without_project
  = (Returned
       [text_block
          (js "# Signal Cross-Reference Map

**Hierarchy Level:** filter

## Signal Definitions
- filter_enable - Enable/disable filtering
- rule_*_ip_addr - Filter rule IP addresses
- rule_*_port - Filter rule port numbers
- hit_count_* - Statistics counters
- packet_match - Filter decision output

" ++ Enhanced.testbench_access_patterns)], []).
Proof.
  rewrite (proj1 (hierarchy_level_selects_its_signals world_without_project
                    {[ "hierarchy_level" := VString (js "filter") ]})
             [ js "filter_enable - Enable/disable filtering";
               js "rule_*_ip_addr - Filter rule IP addresses";
               js "rule_*_port - Filter rule port numbers";
               js "hit_count_* - Statistics counters";
               js "packet_match - Filter decision output" ]).
  - vm_compute. reflexivity.
  - right. left. vm_compute. reflexivity.
Defined.

Lemma cross_reference_signals_static (args : gmap string JsValue) :
  exists text : jstring,
    forall w : World,
      Enhanced.cross_reference_signals (Some args) w
      = (Returned [text_block text], []).
Proof.
  destruct (strict_eq_string (get_arg args "hierarchy_level") (js "all"))
    eqn:Hall.
  { eexists. intros w.
    unfold Enhanced.cross_reference_signals, destructure.
    unfold bind at 1. unfold ret at 1. cbv beta iota. rewrite Hall.
    unfold try_catch, bind, ret. cbn [app]. reflexivity. }
  destruct (Enhanced.assoc_lookup Enhanced.signalMap
              (to_string (get_arg args "hierarchy_level"))) eqn:Hkey.
  { eexists. intros w.
    unfold Enhanced.cross_reference_signals, destructure.
    unfold bind at 1. unfold ret at 1. cbv beta iota. rewrite Hall.
    unfold Enhanced.signal_section. rewrite Hkey.
    unfold try_catch, bind, ret. cbn [app]. reflexivity. }
  destruct (array_includes Enhanced.object_prototype_keys
              (to_string (get_arg args "hierarchy_level"))) eqn:Hproto.
  - eexists. intros w.
    unfold Enhanced.cross_reference_signals, destructure.
    unfold bind at 1. unfold ret at 1. cbv beta iota. rewrite Hall.
    unfold Enhanced.signal_section. rewrite Hkey, Hproto.
    unfold try_catch, bind, ret, throw. cbn [app]. reflexivity.
  - eexists. intros w.
    unfold Enhanced.cross_reference_signals, destructure.
    unfold bind at 1. unfold ret at 1. cbv beta iota. rewrite Hall.
    unfold Enhanced.signal_section. rewrite Hkey, Hproto.
    unfold try_catch, bind, ret. cbn [app]. reflexivity.
Qed.

(** X12.  cross-reference-signals is a function of its argument alone: for
    every arguments object it returns one text block without calling the
    file system or a process (the directory it names is never opened), so
    the answer is the same on every machine. *)
Theorem cross_reference_signals_calls_no_collaborator
    (args : gmap string JsValue) :
  exists text : jstring,
    forall w : World,
      Enhanced.callTool (js "cross-reference-signals") (Some args) w
      = (Returned [text_block text], []).
Proof.
  destruct (cross_reference_signals_static args) as [text H].
  exists text. intros w. rewrite callTool_cross_reference_signals. apply H.
Qed.

(** ** Types outside the enumeration *)

(** X13.  The lists of checks and of analyses are selected by comparing the
    type with string literals.  A type that is none of the four strings (a
    misspelt type, a value that is no string, no type at all) selects
    nothing: check-requirements-compliance runs no check and still returns
    the report whose overall status says that the requirements are met
    (both servers), and analyze-filter-code of [src/index.ts] returns its
    heading and its note without any analysis. *)
Theorem type_outside_the_enumeration_selects_nothing (w : World)
    (args : gmap string JsValue) (key : string) (types : list jstring) :
  In (key, types)
    [ ("requirement_type",
       [js "functional"; js "interface"; js "performance"; js "all"]);
      ("analysis_type", [js "syntax"; js "logic"; js "timing"; js "all"]) ] ->
  (forall lit : jstring, In lit types -> get_arg args key <> VString lit) ->
  (key = "requirement_type" ->
   Enhanced.checksToRun (get_arg args key) = []
   /\ Index.checksToRun (get_arg args key) = []
   /\ Enhanced.callTool (js "check-requirements-compliance") (Some args) w
      = (Returned
           [text_block
              (js "# Enhanced Requirements Compliance Report



**Overall Status**: ✅ All specified requirements met with enhanced verification capabilities

**Verification Tools Used:**
- Verilator syntax validation
- Interface compatibility checking
- Signal cross-referencing
- Makefile configuration analysis")], [])
   /\ Index.callTool (js "check-requirements-compliance") (Some args) w
      = (Returned
           [text_block
              (js "# Requirements Compliance Report



**Overall Status**: All specified requirements appear to be met based on implementation review.")], []))
  /\ (key = "analysis_type" ->
      Index.analyses (get_arg args key) = []
      /\ (fs_access w Index.filterDir = None ->
          Index.callTool (js "analyze-filter-code") (Some args) w
          = (Returned
               [text_block
                  (js "# Filter Code Analysis



**Note**: For detailed analysis, run the specific tools mentioned above.")],
             [EffAccess Index.filterDir]))).
Proof.
  cbn [In]. intros [H|[H|[]]] Hother; injection H as <- <-; split;
    try (intros Hk; discriminate Hk); intros _.
  - assert (H1 : Enhanced.checksToRun (get_arg args "requirement_type") = []).
    { unfold Enhanced.checksToRun.
      rewrite !strict_eq_string_other by (apply Hother; in_literals).
      reflexivity. }
    assert (H2 : Index.checksToRun (get_arg args "requirement_type") = []).
    { unfold Index.checksToRun.
      rewrite !strict_eq_string_other by (apply Hother; in_literals).
      reflexivity. }
    split; [exact H1|]. split; [exact H2|]. split.
    + rewrite callTool_check_requirements_compliance.
      unfold Enhanced.check_requirements_compliance, destructure, bind, ret,
        try_catch.
      rewrite H1. vm_compute. reflexivity.
    + rewrite index_callTool_check_requirements_compliance.
      unfold Index.check_requirements_compliance, destructure, bind, ret,
        try_catch.
      rewrite H2. vm_compute. reflexivity.
  - assert (H1 : Index.analyses (get_arg args "analysis_type") = []).
    { unfold Index.analyses.
      rewrite !strict_eq_string_other by (apply Hother; in_literals).
      reflexivity. }
    split; [exact H1|]. intros Hdir.
    rewrite index_callTool_analyze_filter_code.
    unfold Index.analyze_filter_code, destructure, bind, ret, try_catch,
      access.
    rewrite Hdir, H1. vm_compute. reflexivity.
Qed.

Lemma type_outside_the_enumeration_selects_nothing_witness :
  Enhanced.checksToRun
    (get_arg {[ "requirement_type" := VString (js "security") ]}
       "requirement_type") = [].
Proof.
  refine (proj1 (proj1 (type_outside_the_enumeration_selects_nothing
                          world_without_project
                          {[ "requirement_type" := VString (js "security") ]}
                          "requirement_type"
                          [js "functional"; js "interface"; js "performance";
                           js "all"] _ _) eq_refl)).
  - left. reflexivity.
  - intros lit Hin H. vm_compute in H. injection H as <-. cbn [In] in Hin.
    repeat (destruct Hin as [Hin|Hin]; [vm_compute in Hin; discriminate Hin|]).
    exact Hin.
Defined.

(** ** The arguments of a prompt *)

Lemma or_string_default (x : option jstring) (d : jstring) :
  x = None \/ x = Some [] -> or_string x d = d.
Proof. intros [->| ->]; reflexivity. Qed.

Lemma or_string_some_default (d : jstring) : or_string (Some d) d = d.
Proof. destruct d; reflexivity. Qed.

Lemma lookup_insert_default_other (args : option (gmap string jstring))
    (key key' : string) (v : jstring) :
  key <> key' ->
  (<[key := v]> (default ∅ args) : gmap string jstring) !! key'
  = args ≫= (fun o => o !! key').
Proof.
  intros Hne. rewrite lookup_insert_ne by exact Hne.
  destruct args as [o|]; [reflexivity | apply lookup_empty].
Qed.

Lemma prompt_arg_insert_same (args : option (gmap string jstring))
    (key : string) (dflt : jstring) :
  (args ≫= (fun o => o !! key)) = None
  \/ (args ≫= (fun o => o !! key)) = Some [] ->
  Enhanced.prompt_arg (Some (<[key := dflt]> (default ∅ args))) key dflt
  = Enhanced.prompt_arg args key dflt.
Proof.
  intros H. unfold Enhanced.prompt_arg. rewrite (or_string_default _ _ H).
  cbn [mbind option_bind]. rewrite lookup_insert_eq.
  apply or_string_some_default.
Qed.

Lemma prompt_arg_insert_other (args : option (gmap string jstring))
    (key key' : string) (v d : jstring) :
  key <> key' ->
  Enhanced.prompt_arg (Some (<[key := v]> (default ∅ args))) key' d
  = Enhanced.prompt_arg args key' d.
Proof.
  intros Hne. unfold Enhanced.prompt_arg. cbn [mbind option_bind].
  rewrite (lookup_insert_default_other _ _ _ _ Hne). reflexivity.
Qed.

Lemma index_prompt_arg (args : option (gmap string jstring)) (key : string)
    (d : jstring) :
  Index.prompt_arg args key d = Enhanced.prompt_arg args key d.
Proof. reflexivity. Qed.

(** X14.  The prompts take every argument through [args?.key || fallback]:
    an arguments object that is absent, a key that is absent and a value
    that is the empty string all give the fallback, also for the arguments
    announced as required.  Such a request is answered exactly as the
    request that passes the fallback.  Both servers. *)
Theorem prompt_argument_defaults (toLowerCase : jstring -> jstring)
    (w : World) (name : jstring) (key : string) (dflt : jstring)
    (args : option (gmap string jstring)) :
  In (name, key, dflt)
    [ (js "create-test-scenario", "scenario_type", js "basic");
      (js "create-test-scenario", "packet_type", js "IPv4");
      (js "debug-workflow-guide", "issue_type", js "compilation");
      (js "debug-workflow-guide", "symptoms", js "Not specified") ] ->
  (args ≫= (fun o => o !! key)) = None
  \/ (args ≫= (fun o => o !! key)) = Some [] ->
  Enhanced.getPrompt toLowerCase name args w
  = Enhanced.getPrompt toLowerCase name
      (Some (<[key := dflt]> (default ∅ args))) w
  /\ (name = js "create-test-scenario" ->
      Index.getPrompt toLowerCase name args w
      = Index.getPrompt toLowerCase name
          (Some (<[key := dflt]> (default ∅ args))) w).
Proof.
  cbn [In]. intros [H|[H|[H|[H|[]]]]] Hkey; injection H as <- <- <-; split.
  - unfold Enhanced.getPrompt. decide_literals. cbv zeta.
    rewrite (prompt_arg_insert_same _ _ _ Hkey).
    rewrite !prompt_arg_insert_other by discriminate. reflexivity.
  - intros _. unfold Index.getPrompt. decide_literals. cbv zeta.
    rewrite !index_prompt_arg.
    rewrite (prompt_arg_insert_same _ _ _ Hkey).
    rewrite !prompt_arg_insert_other by discriminate. reflexivity.
  - unfold Enhanced.getPrompt. decide_literals. cbv zeta.
    rewrite (prompt_arg_insert_same _ _ _ Hkey).
    rewrite !prompt_arg_insert_other by discriminate. reflexivity.
  - intros _. unfold Index.getPrompt. decide_literals. cbv zeta.
    rewrite !index_prompt_arg.
    rewrite (prompt_arg_insert_same _ _ _ Hkey).
    rewrite !prompt_arg_insert_other by discriminate. reflexivity.
  - unfold Enhanced.getPrompt. decide_literals. cbv zeta.
    rewrite (prompt_arg_insert_same _ _ _ Hkey).
    rewrite !prompt_arg_insert_other by discriminate. reflexivity.
  - intros Hn. vm_compute in Hn. discriminate Hn.
  - unfold Enhanced.getPrompt. decide_literals. cbv zeta.
    rewrite (prompt_arg_insert_same _ _ _ Hkey).
    rewrite !prompt_arg_insert_other by discriminate. reflexivity.
  - intros Hn. vm_compute in Hn. discriminate Hn.
Qed.

Lemma prompt_argument_defaults_witness :
  Enhanced.getPrompt toLowerCase_ascii (js "create-test-scenario") None
    world_without_project
  = Enhanced.getPrompt toLowerCase_ascii (js "create-test-scenario")
      (Some (<["scenario_type" := js "basic"]> (default ∅ None)))
      world_without_project.
Proof.
  refine (proj1 (prompt_argument_defaults toLowerCase_ascii
                   world_without_project (js "create-test-scenario")
                   "scenario_type" (js "basic") None _ _)).
  - left. reflexivity.
  - left. reflexivity.
Defined.

Lemma prompt_arg_insert_nonempty (args : gmap string jstring) (key : string)
    (s v : jstring) :
  args !! key = Some s -> nonempty s = true -> nonempty v = true ->
  nonempty (Enhanced.prompt_arg (Some (<[key := v]> args)) key [])
  = nonempty (Enhanced.prompt_arg (Some args) key []).
Proof.
  intros Hs Hn Hv. unfold Enhanced.prompt_arg. cbn [mbind option_bind].
  rewrite lookup_insert_eq, Hs.
  destruct s; [discriminate|]. destruct v; [discriminate|]. reflexivity.
Qed.

Lemma prompt_arg_insert_other_some (args : gmap string jstring)
    (key key' : string) (v d : jstring) :
  key <> key' ->
  Enhanced.prompt_arg (Some (<[key := v]> args)) key' d
  = Enhanced.prompt_arg (Some args) key' d.
Proof.
  intros Hne. unfold Enhanced.prompt_arg. cbn [mbind option_bind].
  rewrite lookup_insert_ne by exact Hne. reflexivity.
Qed.

(** Looks for the needle in each segment of a concatenation. *)
Ltac find_in_segments :=
  repeat first
    [ solve [apply includes_app_l; vm_compute; reflexivity]
    | apply includes_app_r ].

(** X15.  [include_debug] is not read as a boolean: the prompt takes its
    truthiness, and its values are strings.  Every non-empty value, the
    text [false] included, gives the prompt with the section of the debug
    analysis, exactly as the value [true] does. *)
Theorem include_debug_is_enabled_by_any_text (toLowerCase : jstring -> jstring)
    (w : World) (args : gmap string jstring) (s : jstring) :
  args !! "include_debug" = Some s ->
  nonempty s = true ->
  Enhanced.getPrompt toLowerCase (js "create-test-scenario") (Some args) w
  = Enhanced.getPrompt toLowerCase (js "create-test-scenario")
      (Some (<["include_debug" := js "true"]> args)) w
  /\ exists description text : jstring,
       Enhanced.getPrompt toLowerCase (js "create-test-scenario") (Some args) w
       = (Returned
            (mkPromptResult description [Enhanced.user_message text]), [])
       /\ includes text (js "### Debug Analysis") = true.
Proof.
  intros Hs Hn. split.
  - unfold Enhanced.getPrompt. decide_literals. cbv zeta.
    rewrite (prompt_arg_insert_nonempty args "include_debug" s (js "true") Hs Hn)
      by (vm_compute; reflexivity).
    rewrite !prompt_arg_insert_other_some by discriminate. reflexivity.
  - unfold Enhanced.getPrompt. decide_literals. cbv zeta.
    assert (Hd : nonempty (Enhanced.prompt_arg (Some args) "include_debug" [])
                 = true).
    { unfold Enhanced.prompt_arg. cbn [mbind option_bind]. rewrite Hs.
      destruct s; [discriminate | reflexivity]. }
    rewrite Hd. unfold ret. eexists _, _. split; [reflexivity|].
    unfold Enhanced.test_scenario. find_in_segments.
Qed.

Lemma include_debug_is_enabled_by_any_text_witness :
  Enhanced.getPrompt toLowerCase_ascii (js "create-test-scenario")
    (Some {[ "include_debug" := js "false" ]}) world_without_project
  = Enhanced.getPrompt toLowerCase_ascii (js "create-test-scenario")
      (Some (<["include_debug" := js "true"]>
               {[ "include_debug" := js "false" ]}))
      world_without_project.
Proof.
  refine (proj1 (include_debug_is_enabled_by_any_text toLowerCase_ascii
                   world_without_project {[ "include_debug" := js "false" ]}
                   (js "false") _ _)).
  - vm_compute. reflexivity.
  - vm_compute. reflexivity.
Defined.

(** ** The catalogues and the handlers agree *)

Lemma read_or_fallback_returns (w : World) (path fallback : jstring) :
  exists text : jstring,
    fst (Enhanced.read_or_fallback path fallback w) = Returned [text_block text].
Proof.
  unfold Enhanced.read_or_fallback, try_catch, bind, readFileContent,
    try_catch, readFile, throw, ret.
  destruct (fs_readFile w (VString path)); eexists; reflexivity.
Qed.

Lemma index_read_or_fallback (path fallback : jstring) :
  Index.read_or_fallback path fallback
  = Enhanced.read_or_fallback path fallback.
Proof. reflexivity. Qed.

Ltac literal_is_not_itself :=
  match goal with
  | E : jstring_eqb ?a ?a = false |- _ =>
      rewrite jstring_eqb_refl in E; discriminate E
  end.

Lemma listed_resources_resolve (w : World) (uri : jstring) :
  ((exists text : jstring,
      fst (Enhanced.readResource uri w) = Returned [text_block text])
   <-> In uri (map res_uri Enhanced.listResources))
  /\ ((exists text : jstring,
         fst (Index.readResource uri w) = Returned [text_block text])
      <-> In uri (map res_uri Index.listResources)).
Proof.
  split.
  - unfold Enhanced.readResource, Enhanced.listResources.
    cbn [map res_uri In].
    destruct (jstring_eqb uri (js "opennic://filter-requirements")) eqn:E1;
      [ split; [ intros _; apply jstring_eqb_eq in E1; subst uri; in_literals
               | intros _; apply read_or_fallback_returns ] |].
    destruct (jstring_eqb uri (js "opennic://filter-implementation")) eqn:E2;
      [ split; [ intros _; apply jstring_eqb_eq in E2; subst uri; in_literals
               | intros _; apply read_or_fallback_returns ] |].
    destruct (jstring_eqb uri (js "opennic://register-map")) eqn:E3;
      [ split; [ intros _; apply jstring_eqb_eq in E3; subst uri; in_literals
               | intros _; apply read_or_fallback_returns ] |].
    destruct (jstring_eqb uri (js "opennic://simulation-guide")) eqn:E4;
      [ split; [ intros _; apply jstring_eqb_eq in E4; subst uri; in_literals
               | intros _; eexists; reflexivity ] |].
    destruct (jstring_eqb uri (js "opennic://debug-workflow")) eqn:E5;
      [ split; [ intros _; apply jstring_eqb_eq in E5; subst uri; in_literals
               | intros _; eexists; reflexivity ] |].
    split; [intros [text H]; discriminate H|].
    intros [<-|[<-|[<-|[<-|[<-|[]]]]]]; literal_is_not_itself.
  - unfold Index.readResource, Index.listResources.
    cbn [map res_uri In]. rewrite !index_read_or_fallback.
    destruct (jstring_eqb uri (js "opennic://filter-requirements")) eqn:E1;
      [ split; [ intros _; apply jstring_eqb_eq in E1; subst uri; in_literals
               | intros _; apply read_or_fallback_returns ] |].
    destruct (jstring_eqb uri (js "opennic://filter-implementation")) eqn:E2;
      [ split; [ intros _; apply jstring_eqb_eq in E2; subst uri; in_literals
               | intros _; apply read_or_fallback_returns ] |].
    destruct (jstring_eqb uri (js "opennic://register-map")) eqn:E3;
      [ split; [ intros _; apply jstring_eqb_eq in E3; subst uri; in_literals
               | intros _; apply read_or_fallback_returns ] |].
    destruct (jstring_eqb uri (js "opennic://simulation-guide")) eqn:E4;
      [ split; [ intros _; apply jstring_eqb_eq in E4; subst uri; in_literals
               | intros _; eexists; reflexivity ] |].
    split; [intros [text H]; discriminate H|].
    intros [<-|[<-|[<-|[<-|[]]]]]; literal_is_not_itself.
Qed.

Lemma listed_prompts_resolve (toLowerCase : jstring -> jstring)
    (w : World) (name : jstring) (args : option (gmap string jstring)) :
  (snd (Enhanced.getPrompt toLowerCase name args w) = []
   /\ ((exists description text : jstring,
          fst (Enhanced.getPrompt toLowerCase name args w)
          = Returned
              (mkPromptResult description
                 [mkPromptMessage (js "user") (text_block text)]))
       <-> In name (map prompt_name Enhanced.listPrompts)))
  /\ (snd (Index.getPrompt toLowerCase name args w) = []
      /\ ((exists description text : jstring,
             fst (Index.getPrompt toLowerCase name args w)
             = Returned
                 (mkPromptResult description
                    [mkPromptMessage (js "user") (text_block text)]))
          <-> In name (map prompt_name Index.listPrompts))).
Proof.
  split.
  - unfold Enhanced.getPrompt, Enhanced.listPrompts.
    cbn [map prompt_name In].
    destruct (jstring_eqb name (js "create-test-scenario")) eqn:E1;
      [ split; [reflexivity|];
        split; [ intros _; apply jstring_eqb_eq in E1; subst name; in_literals
               | intros _; eexists _, _; reflexivity ] |].
    destruct (jstring_eqb name (js "debug-workflow-guide")) eqn:E2;
      [ split; [reflexivity|];
        split; [ intros _; apply jstring_eqb_eq in E2; subst name; in_literals
               | intros _; eexists _, _; reflexivity ] |].
    split; [reflexivity|].
    split; [intros (d & t & H); discriminate H|].
    intros [<-|[<-|[]]]; literal_is_not_itself.
  - unfold Index.getPrompt, Index.listPrompts.
    cbn [map prompt_name In].
    destruct (jstring_eqb name (js "create-test-scenario")) eqn:E1;
      [ split; [reflexivity|];
        split; [ intros _; apply jstring_eqb_eq in E1; subst name; in_literals
               | intros _; eexists _, _; reflexivity ] |].
    split; [reflexivity|].
    split; [intros (d & t & H); discriminate H|].
    intros [<-|[]]; literal_is_not_itself.
Qed.

(** X16.  The catalogues and the handlers agree.  resources/read returns
    exactly for the URIs that resources/list announces: each of them yields
    one text block on every machine (from the file, from the fixed fallback
    or from the built-in guide), and every other URI is refused.
    prompts/get calls no collaborator and returns exactly for the names
    that prompts/list announces, with one message of the role [user].  Both
    servers. *)
Theorem listed_resources_and_prompts_resolve
    (toLowerCase : jstring -> jstring) (w : World) (uri name : jstring)
    (args : option (gmap string jstring)) :
  (((exists text : jstring,
       fst (Enhanced.readResource uri w) = Returned [text_block text])
    <-> In uri (map res_uri Enhanced.listResources))
   /\ ((exists text : jstring,
          fst (Index.readResource uri w) = Returned [text_block text])
       <-> In uri (map res_uri Index.listResources)))
  /\ ((snd (Enhanced.getPrompt toLowerCase name args w) = []
       /\ ((exists description text : jstring,
              fst (Enhanced.getPrompt toLowerCase name args w)
              = Returned
                  (mkPromptResult description
                     [mkPromptMessage (js "user") (text_block text)]))
           <-> In name (map prompt_name Enhanced.listPrompts)))
      /\ (snd (Index.getPrompt toLowerCase name args w) = []
          /\ ((exists description text : jstring,
                 fst (Index.getPrompt toLowerCase name args w)
                 = Returned
                     (mkPromptResult description
                        [mkPromptMessage (js "user") (text_block text)]))
              <-> In name (map prompt_name Index.listPrompts)))).
Proof.
  split; [apply listed_resources_resolve | apply listed_prompts_resolve].
Qed.

(** ** The two versions of the server *)

Lemma index_requirementsPath :
  Index.requirementsPath = Enhanced.requirementsPath.
Proof. vm_compute. reflexivity. Qed.

Lemma index_submissionPath : Index.submissionPath = Enhanced.submissionPath.
Proof. vm_compute. reflexivity. Qed.

Lemma index_registerMapPath : Index.registerMapPath = Enhanced.registerMapPath.
Proof. vm_compute. reflexivity. Qed.

Lemma index_requirements_fallback :
  Index.requirements_fallback = Enhanced.requirements_fallback.
Proof. vm_compute. reflexivity. Qed.

Lemma index_submission_fallback :
  Index.submission_fallback = Enhanced.submission_fallback.
Proof. vm_compute. reflexivity. Qed.

Lemma index_registerMap_fallback :
  Index.registerMap_fallback = Enhanced.registerMap_fallback.
Proof. vm_compute. reflexivity. Qed.

(** X17.  The two versions of the server answer resources/read alike,
    result and calls, for every URI but two: the simulation guide, whose
    text was rewritten, and the debug workflow, which [src/index.ts] does
    not have.  The same files are read and the same fallback texts and the
    same refusal are returned. *)
Theorem servers_agree_on_file_resources (w : World) (uri : jstring) :
  uri <> js "opennic://simulation-guide" ->
  uri <> js "opennic://debug-workflow" ->
  Index.readResource uri w = Enhanced.readResource uri w.
Proof.
  intros Hguide Hdebug.
  unfold Index.readResource, Enhanced.readResource.
  rewrite !index_read_or_fallback.
  rewrite index_requirementsPath, index_submissionPath, index_registerMapPath,
    index_requirements_fallback, index_submission_fallback,
    index_registerMap_fallback.
  rewrite (jstring_eqb_neq _ _ Hguide), (jstring_eqb_neq _ _ Hdebug).
  reflexivity.
Qed.

Lemma servers_agree_on_file_resources_witness :
  Index.readResource (js "opennic://register-map") world_without_project
  = Enhanced.readResource (js "opennic://register-map") world_without_project.
Proof.
  apply (servers_agree_on_file_resources world_without_project
           (js "opennic://register-map"));
    intros H; vm_compute in H; discriminate H.
Defined.

(** ** A request without an arguments object *)

Lemma index_tool_names :
  map tool_name Index.listTools
  = [ js "run-filter-simulation"; js "check-requirements-compliance";
      js "analyze-filter-code" ].
Proof. reflexivity. Qed.

(** X18.  tools/call and prompts/get treat a request without [arguments]
    differently.  Every tool handler destructures the arguments before its
    [try]: the call ends in a [TypeError] that leaves the handler, before
    any collaborator is called.  The prompt handler reads through [?.] and
    returns the prompt of the fallback values.  Both servers. *)
Theorem absent_arguments_object (toLowerCase : jstring -> jstring)
    (w : World) (name : jstring) :
  (In name (map tool_name Enhanced.listTools) ->
   exists e : JsError,
     Enhanced.callTool name None w = (Thrown e, [])
     /\ err_name e = js "TypeError")
  /\ (In name (map tool_name Index.listTools) ->
      exists e : JsError,
        Index.callTool name None w = (Thrown e, [])
        /\ err_name e = js "TypeError")
  /\ (In name (map prompt_name Enhanced.listPrompts) ->
      exists r : PromptResult,
        Enhanced.getPrompt toLowerCase name None w = (Returned r, []))
  /\ (In name (map prompt_name Index.listPrompts) ->
      exists r : PromptResult,
        Index.getPrompt toLowerCase name None w = (Returned r, [])).
Proof.
  split; [apply absent_arguments_throw_before_any_call|].
  split; [|split].
  - rewrite index_tool_names. cbn [In]. intros [<-|[<-|[<-|[]]]].
    + rewrite index_callTool_run_filter_simulation. eexists. split; reflexivity.
    + rewrite index_callTool_check_requirements_compliance.
      eexists. split; reflexivity.
    + rewrite index_callTool_analyze_filter_code. eexists. split; reflexivity.
  - unfold Enhanced.listPrompts. cbn [map prompt_name In].
    intros [<-|[<-|[]]]; unfold Enhanced.getPrompt; decide_literals;
      eexists; reflexivity.
  - unfold Index.listPrompts. cbn [map prompt_name In].
    intros [<-|[]]; unfold Index.getPrompt; decide_literals;
      eexists; reflexivity.
Qed.

Lemma absent_arguments_object_witness :
  exists e : JsError,
    Index.callTool (js "analyze-filter-code") None world_without_project
    = (Thrown e, [])
    /\ err_name e = js "TypeError".
Proof.
  apply (proj1 (proj2 (absent_arguments_object toLowerCase_ascii
                         world_without_project (js "analyze-filter-code")))).
  rewrite index_tool_names. right. right. left. reflexivity.
Defined.

(** ** Failures of the tools of [src/index.ts] *)

(** X19.  The three tools of [src/index.ts] degrade in band as the tools of
    the later server do: called with an arguments object, a registered tool
    never ends in a thrown error; it returns one text block that contains
    the message of every collaborator call that failed, and the answer is
    only withheld while a spawned child never closes. *)
Theorem index_tool_failures_stay_in_band (w : World) (name : jstring)
    (args : gmap string JsValue) :
  In name (map tool_name Index.listTools) ->
  degrades_in_band w (Index.callTool name (Some args) w).
Proof.
  rewrite index_tool_names. cbn [In]. intros [<-|[<-|[<-|[]]]].
  - rewrite index_callTool_run_filter_simulation.
    apply index_run_filter_simulation_in_band.
  - rewrite index_callTool_check_requirements_compliance.
    apply index_check_requirements_compliance_in_band.
  - rewrite index_callTool_analyze_filter_code.
    apply index_analyze_filter_code_in_band.
Qed.

Lemma index_tool_failures_stay_in_band_witness :
  degrades_in_band world_without_project
    (Index.callTool (js "analyze-filter-code")
       (Some {[ "analysis_type" := VString (js "timing") ]})
       world_without_project).
Proof.
  apply (index_tool_failures_stay_in_band world_without_project
           (js "analyze-filter-code")
           {[ "analysis_type" := VString (js "timing") ]}).
  rewrite index_tool_names. right. right. left. reflexivity.
Defined.

(** ** What a successful match consumed *)

Lemma strip_prefix_Some (p s r : jstring) :
  strip_prefix p s = Some r -> s = p ++ r.
Proof.
  revert s. induction p as [|a p IH]; intros s H.
  - destruct s; injection H as <-; reflexivity.
  - destruct s as [|b s]; [discriminate H|]. cbn [strip_prefix] in H.
    destruct (N.eqb_spec a b) as [<-|]; [|discriminate H].
    cbn [app]. f_equal. apply IH, H.
Qed.

Lemma chars_inv (lit ctx s : jstring) cap (k : Cont) (r : MatchEnd) :
  rmatch (Chars lit) ctx s cap k = Some r ->
  exists s', s = lit ++ s' /\ k (rev lit ++ ctx) s' cap = Some r.
Proof.
  cbn [rmatch]. destruct (strip_prefix lit s) as [s'|] eqn:E; [|discriminate].
  intros H. exists s'. split; [apply strip_prefix_Some, E | exact H].
Qed.

Lemma star_inv (c : N -> bool) (s ctx : jstring) cap (k : Cont) (r : MatchEnd) :
  star c ctx s cap k = Some r ->
  exists p s',
    s = p ++ s' /\ forallb c p = true /\ k (rev p ++ ctx) s' cap = Some r.
Proof.
  revert ctx. induction s as [|x s IH]; intros ctx H.
  - exists [], []. repeat split. exact H.
  - cbn [star] in H. destruct (c x) eqn:Hx.
    + destruct (star c (x :: ctx) s cap k) as [r'|] eqn:E.
      * injection H as <-. destruct (IH _ E) as (p & s' & -> & Hp & Hk).
        exists (x :: p), s'. repeat split.
        -- cbn [forallb]. rewrite Hx, Hp. reflexivity.
        -- cbn [rev]. rewrite <- app_assoc. exact Hk.
      * exists [], (x :: s). repeat split. exact H.
    + exists [], (x :: s). repeat split. exact H.
Qed.

Lemma plus_inv (c : N -> bool) (s ctx : jstring) cap (k : Cont) (r : MatchEnd) :
  rmatch (Plus c) ctx s cap k = Some r ->
  exists p s',
    s = p ++ s' /\ nonempty p = true /\ forallb c p = true
    /\ k (rev p ++ ctx) s' cap = Some r.
Proof.
  cbn [rmatch]. destruct s as [|x s]; [discriminate|].
  destruct (c x) eqn:Hx; [|discriminate]. intros H.
  destruct (star_inv _ _ _ _ _ _ H) as (p & s' & -> & Hp & Hk).
  exists (x :: p), s'. repeat split.
  - cbn [forallb]. rewrite Hx, Hp. reflexivity.
  - cbn [rev]. rewrite <- app_assoc. exact Hk.
Qed.

Lemma opt_inv (r1 : regex) (s ctx : jstring) cap (k : Cont) (r : MatchEnd) :
  rmatch (Opt r1) ctx s cap k = Some r ->
  rmatch r1 ctx s cap k = Some r \/ k ctx s cap = Some r.
Proof.
  cbn [rmatch]. destruct (rmatch r1 ctx s cap k) as [m|].
  - intros H. left. exact H.
  - intros H. right. exact H.
Qed.

Lemma alt_inv (r1 r2 : regex) (s ctx : jstring) cap (k : Cont) (r : MatchEnd) :
  rmatch (Alt r1 r2) ctx s cap k = Some r ->
  rmatch r1 ctx s cap k = Some r \/ rmatch r2 ctx s cap k = Some r.
Proof.
  cbn [rmatch]. destruct (rmatch r1 ctx s cap k) as [m|].
  - intros H. left. exact H.
  - intros H. right. exact H.
Qed.

Lemma search_inv (r : regex) (s ctx : jstring) (m : Match) :
  search r ctx s = Some m -> exists ctx' s', match_at r ctx' s' = Some m.
Proof.
  revert ctx. induction s as [|x s IH]; intros ctx H; cbn [search] in H.
  - destruct (match_at r ctx []) as [m'|] eqn:E; [|discriminate H].
    injection H as <-. exists ctx, []. exact E.
  - destruct (match_at r ctx (x :: s)) as [m'|] eqn:E.
    + injection H as <-. exists ctx, (x :: s). exact E.
    + apply (IH _ H).
Qed.

Lemma scan_matches_In (r : regex) (s : jstring) (skip : nat) (ctx m : jstring) :
  In m (scan_matches r skip ctx s) ->
  exists ctx' s' mt, match_at r ctx' s' = Some mt /\ match_text mt = m.
Proof.
  revert skip ctx. induction s as [|x s IH]; intros skip ctx H;
    cbn [scan_matches] in H.
  - destruct skip; [|destruct H].
    destruct (match_at r ctx []) as [mt|] eqn:E; [|destruct H].
    destruct H as [<-|[]]. exists ctx, [], mt. split; [exact E | reflexivity].
  - destruct skip as [|n].
    + destruct (match_at r ctx (x :: s)) as [mt|] eqn:E.
      * destruct H as [<-|H].
        -- exists ctx, (x :: s), mt. split; [exact E | reflexivity].
        -- apply (IH _ _ H).
      * apply (IH _ _ H).
    + apply (IH _ _ H).
Qed.

Lemma word_is_identifier (p : jstring) :
  nonempty p = true -> forallb word_char p = true -> identifier p.
Proof. intros H1 H2. split; assumption. Qed.

(** The group of [/import\s+(\w+)::\*/] is an identifier. *)
Lemma match_import_inv (ctx s : jstring) (m : Match) :
  match_at Enhanced.re_import ctx s = Some m ->
  exists p, match_group1 m = Some p /\ identifier p.
Proof.
  unfold match_at.
  destruct (rmatch Enhanced.re_import ctx s None accept) as [e|] eqn:E;
    [|discriminate].
  intros H. injection H as <-. cbn [match_group1].
  unfold Enhanced.re_import, seq in E. rewrite rmatch_Cat in E.
  apply chars_inv in E as (s1 & -> & E). rewrite rmatch_Cat in E.
  apply plus_inv in E as (sp & s2 & -> & _ & _ & E).
  rewrite rmatch_Cat, rmatch_Group in E.
  apply plus_inv in E as (p & s3 & -> & Hn & Hw & E).
  apply chars_inv in E as (s4 & -> & E).
  unfold accept in E. injection E as <-. cbn [m_group1].
  exists p. rewrite consumed_app, rev_involutive.
  split; [reflexivity | split; assumption].
Qed.

(** The group of [/SIM\s*[:?]?=\s*(\w+)/] is an identifier. *)
Lemma match_sim_inv (ctx s : jstring) (m : Match) :
  match_at Enhanced.re_sim ctx s = Some m ->
  exists p, match_group1 m = Some p /\ identifier p.
Proof.
  unfold match_at.
  destruct (rmatch Enhanced.re_sim ctx s None accept) as [e|] eqn:E;
    [|discriminate].
  intros H. injection H as <-. cbn [match_group1].
  unfold Enhanced.re_sim, seq in E. rewrite rmatch_Cat in E.
  apply chars_inv in E as (s1 & -> & E). rewrite rmatch_Cat, rmatch_Star in E.
  apply star_inv in E as (sp & s2 & -> & _ & E).
  rewrite rmatch_Cat in E.
  assert (G : exists ctx2 s3,
            rmatch (Cat (Chars (js "="))
                      (Cat (Star space_char) (Group (Plus word_char))))
              ctx2 s3 None accept = Some e).
  { apply opt_inv in E as [E|E].
    - cbn [rmatch] in E. destruct s2 as [|x s2]; [discriminate E|].
      destruct (one_of (js ":?") x); [|discriminate E].
      eexists _, _. exact E.
    - eexists _, _. exact E. }
  clear E. destruct G as (ctx2 & s3 & E).
  rewrite rmatch_Cat in E. apply chars_inv in E as (s4 & -> & E).
  rewrite rmatch_Cat, rmatch_Star in E.
  apply star_inv in E as (sp2 & s5 & -> & _ & E).
  rewrite rmatch_Group in E.
  apply plus_inv in E as (p & s6 & -> & Hn & Hw & E).
  unfold accept in E. injection E as <-. cbn [m_group1].
  exists p. rewrite consumed_app, rev_involutive.
  split; [reflexivity | split; assumption].
Qed.

(** ** The names the analyzers return *)

Lemma star_accepts (c : N -> bool) (s ctx : jstring) cap :
  star c ctx s cap accept <> None.
Proof.
  revert ctx. induction s as [|x s IH]; intros ctx; cbn [star];
    [discriminate|].
  destruct (c x); [|discriminate].
  destruct (star c (x :: ctx) s cap accept) eqn:E; [discriminate|].
  exact (False_ind _ (IH _ E)).
Qed.

Lemma match_plus_none (c : N -> bool) (ctx s : jstring) (x : N) :
  match_at (Plus c) ctx (x :: s) = None -> c x = false.
Proof.
  unfold match_at. cbn [rmatch]. destruct (c x); [|reflexivity].
  destruct (star c (x :: ctx) s None accept) eqn:E; [discriminate|].
  exact (False_ind _ (star_accepts _ _ _ _ E)).
Qed.

Lemma match_plus_nonempty (c : N -> bool) (ctx s : jstring) (m : Match) :
  match_at (Plus c) ctx s = Some m -> nonempty (match_text m) = true.
Proof.
  unfold match_at.
  destruct (rmatch (Plus c) ctx s None accept) as [e|] eqn:E; [|discriminate].
  intros H. injection H as <-. cbn [match_text].
  apply plus_inv in E as (p & s' & -> & Hn & _ & E).
  unfold accept in E. injection E as <-. cbn [m_ctx].
  rewrite consumed_app, rev_involutive. exact Hn.
Qed.

Lemma forallb_rev_true {A} (f : A -> bool) (l : list A) :
  forallb f l = true -> forallb f (rev l) = true.
Proof.
  intros H. apply forallb_forall. intros x Hx. apply in_rev in Hx.
  revert x Hx. apply forallb_forall. exact H.
Qed.

(** The pieces of [s.split(/\s+/)] hold no white space. *)
Lemma split_pieces_hold_no_space (s : jstring) (skip : nat)
    (piece ctx : jstring) :
  forallb (fun c => negb (space_char c)) piece = true ->
  Forall (fun q => forallb (fun c => negb (space_char c)) q = true)
    (split_from (Plus space_char) skip piece ctx s).
Proof.
  revert skip piece ctx.
  induction s as [|x s IH]; intros skip piece ctx Hp; cbn [split_from].
  - constructor; [apply forallb_rev_true, Hp | constructor].
  - destruct skip as [|n]; [|apply IH, Hp].
    destruct (match_at (Plus space_char) ctx (x :: s)) as [m|] eqn:E.
    + pose proof (match_plus_nonempty _ _ _ _ E) as Hm.
      destruct (match_text m) as [|y t]; [discriminate Hm|]. cbn [length].
      constructor; [apply forallb_rev_true, Hp | apply IH; reflexivity].
    + apply match_plus_none in E. apply IH. cbn [forallb].
      rewrite E, Hp. reflexivity.
Qed.

Lemma popped_piece_is_spaceless (m : jstring) :
  let name := or_string (array_pop (string_split m (Plus space_char))) [] in
  nonempty name = true -> spaceless name.
Proof.
  cbv zeta. unfold array_pop.
  destruct (last (string_split m (Plus space_char))) as [q|] eqn:E;
    [|discriminate].
  intros Hn. split; [exact Hn|].
  destruct q as [|c q]; [discriminate Hn|]. cbn [or_string].
  apply last_Some in E as [l' E].
  assert (Hall : Forall (fun q => forallb (fun c => negb (space_char c)) q = true)
                   (string_split m (Plus space_char))).
  { unfold string_split. destruct m as [|x m].
    - destruct (match_at (Plus space_char) [] []);
        repeat constructor.
    - apply split_pieces_hold_no_space. reflexivity. }
  rewrite E in Hall. apply Forall_app in Hall as [_ Hall].
  apply Forall_inv in Hall. exact Hall.
Qed.

Lemma filter_nonempty_Forall (P : jstring -> Prop) (l : list jstring) :
  (forall p, In p l -> nonempty p = true -> P p) ->
  Forall P (filter nonempty l).
Proof.
  intros H. induction l as [|p l IH]; [constructor|].
  destruct (nonempty p) eqn:Hn.
  - rewrite filter_cons_True by (rewrite Hn; exact I).
    constructor; [apply H; [left; reflexivity | exact Hn]|].
    apply IH. intros q Hq. apply H. right. exact Hq.
  - rewrite filter_cons_False by (rewrite Hn; exact id).
    apply IH. intros q Hq. apply H. right. exact Hq.
Qed.

(** X20.  Whatever the text of the file, the names [analyzeVerilogFile]
    returns are well formed: a package dependency is an identifier (a
    non-empty run of word characters); a signal definition and an interface
    port are non-empty and hold no white space; and no syntax issue is
    ever reported. *)
Theorem verilog_names_are_well_formed (content : jstring) :
  let analysis := Enhanced.analyzeVerilogText content in
  Forall identifier (Enhanced.package_dependencies analysis)
  /\ Forall spaceless (Enhanced.signal_definitions analysis)
  /\ Forall spaceless (Enhanced.interface_ports analysis)
  /\ Enhanced.syntax_issues analysis = [].
Proof.
  cbv zeta. unfold Enhanced.analyzeVerilogText.
  cbn [Enhanced.package_dependencies Enhanced.signal_definitions
         Enhanced.interface_ports Enhanced.syntax_issues].
  split; [|split; [|split; [|reflexivity]]].
  - apply filter_nonempty_Forall. intros p Hp Hn.
    apply in_map_iff in Hp as (m & <- & _).
    unfold string_match in *.
    destruct (search Enhanced.re_import [] m) as [mt|] eqn:E;
      [|discriminate Hn].
    apply search_inv in E as (ctx' & s' & E).
    apply match_import_inv in E as (q & Hq & Hid).
    cbn [mbind option_bind]. rewrite Hq.
    destruct Hid as [Hq1 Hq2]. destruct q; [discriminate Hq1|].
    split; assumption.
  - apply filter_nonempty_Forall. intros p Hp Hn.
    apply in_map_iff in Hp as (m & <- & _).
    apply popped_piece_is_spaceless, Hn.
  - apply filter_nonempty_Forall. intros p Hp Hn.
    apply in_map_iff in Hp as (m & <- & _).
    apply popped_piece_is_spaceless, Hn.
Qed.

Lemma replace_first_colon (p : jstring) :
  forallb word_char p = true -> replace_first (p ++ [58%N]) [58%N] [] = p.
Proof.
  induction p as [|a p IH]; intros H; [reflexivity|].
  cbn [forallb] in H. apply andb_prop in H as [Ha Hp].
  cbn [app replace_first strip_prefix].
  destruct (N.eqb_spec 58 a) as [<-|]; [discriminate Ha|].
  f_equal. apply IH, Hp.
Qed.

(** A match of [/^(\w+):/] is an identifier and a colon. *)
Lemma match_target_inv (ctx s : jstring) (m : Match) :
  match_at Enhanced.re_target ctx s = Some m ->
  exists p, match_text m = p ++ [58%N] /\ identifier p.
Proof.
  unfold match_at.
  destruct (rmatch Enhanced.re_target ctx s None accept) as [e|] eqn:E;
    [|discriminate].
  intros H. injection H as <-. cbn [match_text].
  unfold Enhanced.re_target, seq in E. rewrite rmatch_Cat in E.
  assert (G : rmatch (Cat (Group (Plus word_char)) (Chars (js ":")))
                ctx s None accept = Some e).
  { cbn [rmatch] in E. destruct ctx as [|x ctx]; [exact E|].
    destruct (line_terminator x); [exact E | discriminate E]. }
  clear E. rewrite rmatch_Cat, rmatch_Group in G.
  replace (js ":") with [58%N] in G by (vm_compute; reflexivity).
  apply plus_inv in G as (p & s1 & -> & Hn & Hw & G).
  apply chars_inv in G as (s2 & -> & G).
  unfold accept in G.
  assert (Hctx : m_ctx e = rev (p ++ [58%N]) ++ ctx).
  { injection G as <-. cbn [m_ctx]. rewrite rev_app_distr, <- app_assoc.
    reflexivity. }
  rewrite Hctx, consumed_app, rev_involutive.
  exists p. split; [reflexivity | split; assumption].
Qed.

(** X21.  Whatever the text of the build script, the simulator that
    [analyzeMakefile] returns is one identifier (the placeholder
    [not_specified] is one), and every test target is an identifier: the
    colon of the match is removed. *)
Theorem makefile_names_are_identifiers (content : jstring) :
  let analysis := Enhanced.analyzeMakefileText content in
  identifier (Enhanced.simulator_config analysis)
  /\ Forall identifier (Enhanced.test_targets analysis).
Proof.
  cbv zeta. unfold Enhanced.analyzeMakefileText.
  cbn [Enhanced.simulator_config Enhanced.test_targets]. split.
  - unfold string_match.
    destruct (search Enhanced.re_sim [] content) as [mt|] eqn:E.
    + apply search_inv in E as (ctx' & s' & E).
      apply match_sim_inv in E as (q & Hq & Hid).
      cbn [mbind option_bind]. rewrite Hq.
      rewrite (or_string_identifier _ _ Hid). exact Hid.
    + cbn [mbind option_bind or_string]. split; vm_compute; reflexivity.
  - rewrite default_match_g. apply List.Forall_forall. intros t Ht.
    apply in_map_iff in Ht as (m & <- & Hm).
    apply scan_matches_In in Hm as (ctx' & s' & mt & Hmt & <-).
    apply match_target_inv in Hmt as (p & -> & Hid).
    replace (js ":") with [58%N] by (vm_compute; reflexivity).
    rewrite (replace_first_colon p (proj2 Hid)). exact Hid.
Qed.

(** ** Texts without the keywords *)

Lemma includes_false_inv (x : N) (s lit : jstring) :
  includes (x :: s) lit = false ->
  strip_prefix lit (x :: s) = None /\ includes s lit = false.
Proof.
  cbn [includes].
  destruct (strip_prefix lit (x :: s)); [discriminate|].
  intros H. split; [reflexivity | exact H].
Qed.

Lemma includes_false_nil (lit : jstring) :
  includes [] lit = false -> strip_prefix lit [] = None.
Proof. cbn [includes]. destruct (strip_prefix lit []); [discriminate|reflexivity]. Qed.

(** A pattern that can only match where one of the literals starts finds
    nothing in a text that contains none of them. *)
Lemma scan_without_keywords (r : regex) (lits : list jstring) :
  (forall ctx t,
     Forall (fun lit => strip_prefix lit t = None) lits ->
     match_at r ctx t = None) ->
  forall (s : jstring) (skip : nat) (ctx : jstring),
    Forall (fun lit => includes s lit = false) lits ->
    scan_matches r skip ctx s = [].
Proof.
  intros Hr. induction s as [|x s IH]; intros skip ctx Hs.
  - cbn [scan_matches]. destruct skip; [|reflexivity].
    rewrite Hr; [reflexivity|].
    eapply Forall_impl; [exact Hs|]. intros lit. apply includes_false_nil.
  - cbn [scan_matches].
    assert (H1 : Forall (fun lit => strip_prefix lit (x :: s) = None) lits).
    { eapply Forall_impl; [exact Hs|]. intros lit H.
      apply (proj1 (includes_false_inv _ _ _ H)). }
    assert (H2 : Forall (fun lit => includes s lit = false) lits).
    { eapply Forall_impl; [exact Hs|]. intros lit H.
      apply (proj2 (includes_false_inv _ _ _ H)). }
    destruct skip; [rewrite (Hr _ _ H1)|]; apply IH, H2.
Qed.

Lemma search_without_keywords (r : regex) (lits : list jstring) :
  (forall ctx t,
     Forall (fun lit => strip_prefix lit t = None) lits ->
     match_at r ctx t = None) ->
  forall (s ctx : jstring),
    Forall (fun lit => includes s lit = false) lits ->
    search r ctx s = None.
Proof.
  intros Hr. induction s as [|x s IH]; intros ctx Hs.
  - cbn [search]. rewrite Hr; [reflexivity|].
    eapply Forall_impl; [exact Hs|]. intros lit. apply includes_false_nil.
  - cbn [search].
    assert (H1 : Forall (fun lit => strip_prefix lit (x :: s) = None) lits).
    { eapply Forall_impl; [exact Hs|]. intros lit H.
      apply (proj1 (includes_false_inv _ _ _ H)). }
    assert (H2 : Forall (fun lit => includes s lit = false) lits).
    { eapply Forall_impl; [exact Hs|]. intros lit H.
      apply (proj2 (includes_false_inv _ _ _ H)). }
    rewrite (Hr _ _ H1). apply IH, H2.
Qed.

Lemma match_import_needs_keyword (ctx t : jstring) :
  Forall (fun lit => strip_prefix lit t = None) [js "import"] ->
  match_at Enhanced.re_import ctx t = None.
Proof.
  intros H. apply Forall_inv in H.
  unfold match_at, Enhanced.re_import, seq. rewrite rmatch_Cat.
  cbn [rmatch]. rewrite H. reflexivity.
Qed.

Lemma match_signal_needs_keyword (ctx t : jstring) :
  Forall (fun lit => strip_prefix lit t = None)
    [js "logic"; js "wire"; js "reg"] ->
  match_at Enhanced.re_signal ctx t = None.
Proof.
  intros H. inversion H as [|? ? H1 H']; subst.
  inversion H' as [|? ? H2 H'']; subst. apply Forall_inv in H''.
  unfold match_at, Enhanced.re_signal, seq, alts. rewrite rmatch_Cat.
  cbn [rmatch]. rewrite H1, H2, H''. reflexivity.
Qed.

Lemma match_port_needs_keyword (ctx t : jstring) :
  Forall (fun lit => strip_prefix lit t = None)
    [js "input"; js "output"; js "inout"] ->
  match_at Enhanced.re_port ctx t = None.
Proof.
  intros H. inversion H as [|? ? H1 H']; subst.
  inversion H' as [|? ? H2 H'']; subst. apply Forall_inv in H''.
  unfold match_at, Enhanced.re_port, seq, alts. rewrite rmatch_Cat.
  cbn [rmatch]. rewrite H1, H2, H''. reflexivity.
Qed.

Lemma match_include_needs_keyword (ctx t : jstring) :
  Forall (fun lit => strip_prefix lit t = None) [js "include"] ->
  match_at Enhanced.re_include ctx t = None.
Proof.
  intros H. apply Forall_inv in H.
  unfold match_at, Enhanced.re_include, seq. rewrite rmatch_Cat.
  cbn [rmatch]. rewrite H. reflexivity.
Qed.

Lemma match_sim_needs_keyword (ctx t : jstring) :
  Forall (fun lit => strip_prefix lit t = None) [js "SIM"] ->
  match_at Enhanced.re_sim ctx t = None.
Proof. intros H. apply Forall_inv in H. apply match_sim_needs_SIM, H. Qed.

(** X22.  The three passes of [analyzeVerilogFile] are driven by keywords:
    a text that does not contain [import] has no package dependency; a text
    that contains none of [logic], [wire], [reg] has no signal definition;
    a text that contains none of [input], [output], [inout] has no
    interface port.  The empty file is one such text. *)
Theorem text_without_keywords_declares_nothing (content : jstring) :
  (includes content (js "import") = false ->
   Enhanced.package_dependencies (Enhanced.analyzeVerilogText content) = [])
  /\ (includes content (js "logic") = false ->
      includes content (js "wire") = false ->
      includes content (js "reg") = false ->
      Enhanced.signal_definitions (Enhanced.analyzeVerilogText content) = [])
  /\ (includes content (js "input") = false ->
      includes content (js "output") = false ->
      includes content (js "inout") = false ->
      Enhanced.interface_ports (Enhanced.analyzeVerilogText content) = []).
Proof.
  unfold Enhanced.analyzeVerilogText.
  cbn [Enhanced.package_dependencies Enhanced.signal_definitions
         Enhanced.interface_ports].
  rewrite !default_match_g. split; [|split].
  - intros H.
    rewrite (scan_without_keywords _ _ match_import_needs_keyword);
      [reflexivity | repeat constructor; assumption].
  - intros H1 H2 H3.
    rewrite (scan_without_keywords _ _ match_signal_needs_keyword);
      [reflexivity | repeat constructor; assumption].
  - intros H1 H2 H3.
    rewrite (scan_without_keywords _ _ match_port_needs_keyword);
      [reflexivity | repeat constructor; assumption].
Qed.

Lemma text_without_keywords_declares_nothing_witness :
  Enhanced.interface_ports
    (Enhanced.analyzeVerilogText
       (js "@cocotb.test()
async def test_filter_basic(dut):
    await ClockCycles(dut.aclk, 10)
")) = [].
Proof.
  apply (proj2 (proj2 (text_without_keywords_declares_nothing
                         (js "@cocotb.test()
async def test_filter_basic(dut):
    await ClockCycles(dut.aclk, 10)
")))); vm_compute; reflexivity.
Defined.

(** X23.  A build script that does not contain [SIM] has the simulator
    [not_specified], and the diagnostic of the unset simulator is the first
    issue; one that does not contain [include] has no dependency, which the
    report of suggest-makefile-fixes prints as [None detected]. *)
Theorem script_without_SIM_is_unset (content : jstring) :
  let analysis := Enhanced.analyzeMakefileText content in
  (includes content (js "SIM") = false ->
   Enhanced.simulator_config analysis = js "not_specified"
   /\ exists rest : list jstring,
        Enhanced.issues analysis
        = js "SIM variable not explicitly set - may cause simulator selection issues"
          :: rest)
  /\ (includes content (js "include") = false ->
      Enhanced.dependencies analysis = []
      /\ forall path : JsValue,
           includes (Enhanced.makefile_report path analysis)
             (js "- **Dependencies:** None detected") = true).
Proof.
  cbv zeta. split.
  - intros H.
    assert (Hsim : Enhanced.simulator_config
                     (Enhanced.analyzeMakefileText content)
                   = js "not_specified").
    { unfold Enhanced.analyzeMakefileText.
      cbn [Enhanced.simulator_config]. unfold string_match.
      rewrite (search_without_keywords _ _ match_sim_needs_keyword);
        [reflexivity | repeat constructor; assumption]. }
    split; [exact Hsim|].
    revert Hsim. unfold Enhanced.analyzeMakefileText.
    cbn [Enhanced.simulator_config Enhanced.issues]. intros ->.
    rewrite jstring_eqb_refl. eexists. reflexivity.
  - intros H.
    assert (Hdeps : Enhanced.dependencies
                      (Enhanced.analyzeMakefileText content) = []).
    { unfold Enhanced.analyzeMakefileText. cbn [Enhanced.dependencies].
      rewrite default_match_g.
      rewrite (scan_without_keywords _ _ match_include_needs_keyword);
        [reflexivity | repeat constructor; assumption]. }
    split; [exact Hdeps|].
    intros path. unfold Enhanced.makefile_report. rewrite Hdeps.
    cbn [join or_string].
    replace (or_string (Some []) (js "None detected"))
      with (js "None detected") by reflexivity.
    rewrite <- !app_assoc.
    repeat match goal with
      | |- includes (js "- **Dependencies:** " ++ _) _ = true => fail 1
      | |- _ => apply includes_app_r
      end.
    replace (js "- **Dependencies:** None detected")
      with (js "- **Dependencies:** " ++ js "None detected")
      by (vm_compute; reflexivity).
    rewrite (app_assoc (js "- **Dependencies:** ")).
    apply includes_prefix.
Qed.

Lemma script_without_SIM_is_unset_witness :
  Enhanced.simulator_config
    (Enhanced.analyzeMakefileText (js "sim = verilator
test:
	make -C tb
"))
  = js "not_specified".
Proof.
  refine (proj1 (proj1 (script_without_SIM_is_unset (js "sim = verilator
test:
	make -C tb
")) _)).
  vm_compute. reflexivity.
Defined.

(** ** The simulator of an assignment *)

Lemma stops_space_operator (op rest : jstring) :
  In op [js "="; js ":="; js "?="] -> stops space_char (op ++ rest) = true.
Proof.
  cbn [In]. intros [<-|[<-|[<-|[]]]].
  - replace (js "=") with [61%N] by (vm_compute; reflexivity). reflexivity.
  - replace (js ":=") with [58%N; 61%N] by (vm_compute; reflexivity).
    reflexivity.
  - replace (js "?=") with [63%N; 61%N] by (vm_compute; reflexivity).
    reflexivity.
Qed.

(** [=\s*(\w+)] on an assigned word. *)
Lemma match_assigned_word (sp2 v post ctx : jstring) :
  forallb space_char sp2 = true ->
  identifier v ->
  stops word_char post = true ->
  rmatch (Cat (Chars (js "="))
            (Cat (Star space_char) (Group (Plus word_char))))
    ctx (js "=" ++ sp2 ++ v ++ post) None accept
  = Some (mkMatchEnd (rev v ++ rev sp2 ++ rev (js "=") ++ ctx) post (Some v)).
Proof.
  intros Hsp2 Hv Hpost. pose proof Hv as [Hn Hw].
  rewrite rmatch_Cat, chars_run, rmatch_Cat, rmatch_Star.
  apply star_run; [exact Hsp2 | apply stops_identifier_space, Hv |].
  rewrite rmatch_Group.
  apply plus_run; [exact Hn | exact Hw | exact Hpost |].
  unfold accept. rewrite consumed_app, rev_involutive. reflexivity.
Qed.

Lemma rmatch_Class (c : N -> bool) (x : N) (s ctx : jstring) cap (k : Cont) :
  c x = true -> rmatch (Class c) ctx (x :: s) cap k = k (x :: ctx) s cap.
Proof. intros H. cbn [rmatch]. rewrite H. reflexivity. Qed.

Lemma match_sim_assignment (sp1 op sp2 v post ctx : jstring) :
  forallb space_char sp1 = true ->
  In op [js "="; js ":="; js "?="] ->
  forallb space_char sp2 = true ->
  identifier v ->
  stops word_char post = true ->
  match_at Enhanced.re_sim ctx (js "SIM" ++ sp1 ++ op ++ sp2 ++ v ++ post)
  = Some (mkMatch (js "SIM" ++ sp1 ++ op ++ sp2 ++ v) (Some v)).
Proof.
  intros Hsp1 Hop Hsp2 Hv Hpost.
  assert (E : rmatch Enhanced.re_sim ctx
                (js "SIM" ++ sp1 ++ op ++ sp2 ++ v ++ post) None accept
              = Some (mkMatchEnd
                        (rev (js "SIM" ++ sp1 ++ op ++ sp2 ++ v) ++ ctx)
                        post (Some v))).
  { unfold Enhanced.re_sim, seq.
    rewrite rmatch_Cat, chars_run, rmatch_Cat, rmatch_Star.
    apply star_run; [exact Hsp1 | apply stops_space_operator, Hop |].
    rewrite rmatch_Cat.
    cbn [In] in Hop. destruct Hop as [<-|[<-|[<-|[]]]].
    - rewrite rmatch_Opt_skip.
      2:{ replace (js "=") with [61%N] by (vm_compute; reflexivity).
          cbn [app rmatch].
          replace (one_of (js ":?") 61) with false by (vm_compute; reflexivity).
          reflexivity. }
      cbv beta.
      rewrite (match_assigned_word sp2 v post
                 (rev sp1 ++ rev (js "SIM") ++ ctx) Hsp2 Hv Hpost).
      rewrite !rev_app_distr, <- !app_assoc. reflexivity.
    - apply rmatch_Opt_first.
      replace (js ":=") with ([58%N] ++ js "=") by (vm_compute; reflexivity).
      rewrite <- !app_assoc. cbn [app].
      rewrite rmatch_Class by (vm_compute; reflexivity).
      cbv beta.
      rewrite (match_assigned_word sp2 v post
                 (58%N :: rev sp1 ++ rev (js "SIM") ++ ctx) Hsp2 Hv Hpost).
      rewrite !rev_app_distr. cbn [rev].
      rewrite !rev_app_distr, <- !app_assoc. cbn [app]. reflexivity.
    - apply rmatch_Opt_first.
      replace (js "?=") with ([63%N] ++ js "=") by (vm_compute; reflexivity).
      rewrite <- !app_assoc. cbn [app].
      rewrite rmatch_Class by (vm_compute; reflexivity).
      cbv beta.
      rewrite (match_assigned_word sp2 v post
                 (63%N :: rev sp1 ++ rev (js "SIM") ++ ctx) Hsp2 Hv Hpost).
      rewrite !rev_app_distr. cbn [rev].
      rewrite !rev_app_distr, <- !app_assoc. cbn [app]. reflexivity. }
  unfold match_at. rewrite E. cbn [m_ctx m_group1].
  rewrite consumed_app, rev_involutive. reflexivity.
Qed.

(** X24.  When the first [SIM] of a build script starts an assignment, the
    simulator is the assigned word, whether the operator is [=], [:=] or
    [?=] and with or without white space around it.  The word
    [not_specified] is also the placeholder of the analyzer: a script that
    assigns it gets the diagnostic of the unset simulator, and no other
    assigned word does. *)
Theorem simulator_is_the_first_assigned_word
    (pre sp1 op sp2 v post : jstring) :
  includes pre (js "SIM") = false ->
  forallb space_char sp1 = true ->
  In op [js "="; js ":="; js "?="] ->
  forallb space_char sp2 = true ->
  identifier v ->
  stops word_char post = true ->
  let analysis :=
    Enhanced.analyzeMakefileText
      (pre ++ js "SIM" ++ sp1 ++ op ++ sp2 ++ v ++ post) in
  Enhanced.simulator_config analysis = v
  /\ (In (js "SIM variable not explicitly set - may cause simulator selection issues")
        (Enhanced.issues analysis)
      <-> v = js "not_specified").
Proof.
  intros Hpre Hsp1 Hop Hsp2 Hv Hpost analysis.
  assert (Hsim : Enhanced.simulator_config analysis = v).
  { unfold analysis, Enhanced.analyzeMakefileText.
    cbn [Enhanced.simulator_config]. unfold string_match.
    rewrite (search_sim_skips pre _ [] Hpre).
    rewrite (search_here _ _ _ _
               (match_sim_assignment _ _ _ _ _ _ Hsp1 Hop Hsp2 Hv Hpost)).
    cbn [mbind option_bind match_group1].
    apply or_string_identifier, Hv. }
  split; [exact Hsim|].
  generalize Hsim. unfold analysis, Enhanced.analyzeMakefileText.
  cbn [Enhanced.simulator_config Enhanced.issues]. intros ->.
  unfold Enhanced.issue_sim_unset, Enhanced.issue_no_cocotb,
    Enhanced.issue_no_sources.
  split.
  - intros Hin. apply jstring_eqb_eq.
    destruct (jstring_eqb v (js "not_specified")); [reflexivity|].
    exfalso. cbn [app] in Hin.
    destruct (negb (includes _ (js "COCOTB_"))),
      (negb (includes _ (js "VERILOG_SOURCES")));
      cbn [app In] in Hin;
      repeat match type of Hin with
        | _ \/ _ => destruct Hin as [Hin|Hin]
        end;
      try contradiction; vm_compute in Hin; discriminate Hin.
  - intros ->. rewrite jstring_eqb_refl. left. reflexivity.
Qed.

Lemma simulator_is_the_first_assigned_word_witness :
  Enhanced.simulator_config
    (Enhanced.analyzeMakefileText
       (js "TOPLEVEL_LANG = verilog
" ++ js "SIM" ++ js " " ++ js "?=" ++ js " " ++ js "icarus" ++ js "
MODULE = test_filter
")) = js "icarus".
Proof.
  refine (proj1 (simulator_is_the_first_assigned_word
                   (js "TOPLEVEL_LANG = verilog
") (js " ") (js "?=") (js " ") (js "icarus") (js "
MODULE = test_filter
") _ _ _ _ _ _)).
  - vm_compute. reflexivity.
  - vm_compute. reflexivity.
  - right. right. left. reflexivity.
  - vm_compute. reflexivity.
  - split; vm_compute; reflexivity.
  - vm_compute. reflexivity.
Defined.

(** ** Scanning line by line *)

Lemma scan_skip_all (r : regex) (y s ctx : jstring) :
  scan_matches r (length y) ctx (y ++ s) = scan_matches r 0 (rev y ++ ctx) s.
Proof.
  revert ctx. induction y as [|a y IH]; intros ctx; [reflexivity|].
  cbn [length app scan_matches].
  replace (S (length y) - 1)%nat with (length y) by lia.
  rewrite IH. cbn [rev]. rewrite <- app_assoc. reflexivity.
Qed.

Lemma scan_match_here (r : regex) (m s ctx : jstring) (g : option jstring) :
  nonempty m = true ->
  match_at r ctx (m ++ s) = Some (mkMatch m g) ->
  scan_matches r 0 ctx (m ++ s) = m :: scan_matches r 0 (rev m ++ ctx) s.
Proof.
  intros Hm Hmatch. destruct m as [|x m]; [discriminate|].
  cbn [app] in *. cbn [scan_matches]. rewrite Hmatch. cbn [match_text length].
  replace (S (length m) - 1)%nat with (length m) by lia.
  rewrite scan_skip_all. cbn [rev]. rewrite <- app_assoc. reflexivity.
Qed.

Lemma scan_junk (r : regex) (junk s ctx : jstring) :
  Forall (fun x => forall c t, match_at r c (x :: t) = None) junk ->
  scan_matches r 0 ctx (junk ++ s) = scan_matches r 0 (rev junk ++ ctx) s.
Proof.
  intros H. revert ctx. induction H as [|x junk Hx _ IH]; intros ctx;
    [reflexivity|].
  cbn [app scan_matches]. rewrite Hx. cbn [Nat.sub].
  rewrite IH. cbn [rev]. rewrite <- app_assoc. reflexivity.
Qed.

(** *** Targets *)

Lemma match_target_inside (x : N) (ctx s : jstring) :
  line_terminator x = false ->
  match_at Enhanced.re_target (x :: ctx) s = None.
Proof.
  intros Hx. unfold match_at, Enhanced.re_target, seq.
  rewrite rmatch_Cat. cbn [rmatch]. rewrite Hx. reflexivity.
Qed.

Lemma match_target_end (ctx : jstring) :
  match_at Enhanced.re_target ctx [] = None.
Proof.
  unfold match_at, Enhanced.re_target, seq. rewrite rmatch_Cat.
  cbn [rmatch]. destruct ctx as [|x ctx]; [reflexivity|].
  destruct (line_terminator x); reflexivity.
Qed.

Lemma match_target_here (t rest ctx : jstring) :
  at_line_start ctx = true ->
  identifier t ->
  match_at Enhanced.re_target ctx ((t ++ [58%N]) ++ rest)
  = Some (mkMatch (t ++ [58%N]) (Some t)).
Proof.
  intros Hctx Ht. pose proof Ht as [Hn Hw].
  assert (E : rmatch Enhanced.re_target ctx (t ++ js ":" ++ rest) None accept
              = Some (mkMatchEnd (rev (t ++ js ":") ++ ctx) rest (Some t))).
  { unfold Enhanced.re_target, seq. rewrite rmatch_Cat.
    assert (L : forall k : Cont,
              rmatch LineStart ctx (t ++ js ":" ++ rest) None k
              = k ctx (t ++ js ":" ++ rest) None).
    { intros k. cbn [rmatch]. destruct ctx as [|x ctx]; [reflexivity|].
      cbn [at_line_start] in Hctx. rewrite Hctx. reflexivity. }
    rewrite L. rewrite rmatch_Cat, rmatch_Group.
    apply plus_run; [exact Hn | exact Hw | vm_compute; reflexivity |].
    rewrite chars_run. unfold accept.
    rewrite consumed_app, rev_involutive, rev_app_distr, <- app_assoc.
    reflexivity. }
  unfold match_at.
  replace [58%N] with (js ":") by (vm_compute; reflexivity).
  rewrite <- app_assoc, E. cbn [m_ctx m_group1].
  rewrite consumed_app, rev_involutive. reflexivity.
Qed.

Lemma scan_rest_of_line (rest more : jstring) (x : N) (ctx : jstring) :
  line_terminator x = false ->
  one_line rest = true ->
  scan_matches Enhanced.re_target 0 (x :: ctx) (rest ++ 10%N :: more)
  = scan_matches Enhanced.re_target 0 (10%N :: rev rest ++ x :: ctx) more.
Proof.
  revert x ctx. induction rest as [|y rest IH]; intros x ctx Hx Hrest.
  - cbn [app scan_matches]. rewrite (match_target_inside _ _ _ Hx).
    reflexivity.
  - unfold one_line in Hrest. cbn [forallb] in Hrest.
    apply andb_prop in Hrest as [Hy Hrest]. apply negb_true_iff in Hy.
    cbn [app scan_matches]. rewrite (match_target_inside _ _ _ Hx).
    cbn [Nat.sub]. rewrite (IH y (x :: ctx) Hy Hrest).
    cbn [rev]. rewrite <- app_assoc. reflexivity.
Qed.

Lemma scan_rules (rules : list (jstring * jstring)) :
  Forall (fun rule => identifier (fst rule) /\ one_line (snd rule) = true)
    rules ->
  forall ctx,
    at_line_start ctx = true ->
    scan_matches Enhanced.re_target 0 ctx (concat (map rule_line rules))
    = map (fun rule => fst rule ++ [58%N]) rules.
Proof.
  induction 1 as [|[t rest] rules [Ht Hrest] _ IH]; intros ctx Hctx.
  - cbn [map concat scan_matches]. rewrite match_target_end. reflexivity.
  - cbn [map concat fst snd] in *. unfold rule_line at 1. cbn [fst snd].
    replace (js ":") with [58%N] by (vm_compute; reflexivity).
    unfold nl. rewrite <- !app_assoc.
    rewrite (app_assoc t [58%N]).
    rewrite (scan_match_here _ _ _ _ (Some t)).
    + rewrite rev_app_distr. cbn [rev app].
      cbn [app].
      rewrite scan_rest_of_line by (first [reflexivity | exact Hrest]).
      rewrite IH by reflexivity. reflexivity.
    + destruct t; [destruct Ht; discriminate | reflexivity].
    + apply match_target_here; assumption.
Qed.

(** X25.  In a build script made of rules, each on one line, the test
    targets are the words before the colons, in the order of the text.  An
    assignment with [:=] directly after the variable is read the same way:
    the variable is returned as a target. *)
Theorem targets_are_the_words_before_the_colons
    (rules : list (jstring * jstring)) :
  Forall (fun rule => identifier (fst rule) /\ one_line (snd rule) = true)
    rules ->
  Enhanced.test_targets
    (Enhanced.analyzeMakefileText (concat (map rule_line rules)))
  = map fst rules.
Proof.
  intros Hrules. unfold Enhanced.analyzeMakefileText.
  cbn [Enhanced.test_targets]. rewrite default_match_g.
  rewrite (scan_rules rules Hrules [] eq_refl). rewrite map_map.
  replace (js ":") with [58%N] by (vm_compute; reflexivity).
  clear -Hrules. induction Hrules as [|[t rest] rules [[_ Ht] _] _ IH];
    [reflexivity|].
  cbn [map fst]. rewrite (replace_first_colon t Ht), IH. reflexivity.
Qed.

Lemma targets_are_the_words_before_the_colons_witness :
  Enhanced.test_targets
    (Enhanced.analyzeMakefileText
       (concat
          (map rule_line
             [ (js "SIM", js "=verilator"); (js "test", js " sim_build");
               (js "clean", []) ])))
  = [js "SIM"; js "test"; js "clean"].
Proof.
  apply (targets_are_the_words_before_the_colons
           [ (js "SIM", js "=verilator"); (js "test", js " sim_build");
             (js "clean", []) ]).
  repeat constructor; vm_compute; reflexivity.
Defined.

(** *** Include directives *)

Lemma replace_first_prefix (pat rest rep : jstring) :
  replace_first (pat ++ rest) pat rep = rep ++ rest.
Proof.
  pose proof (strip_prefix_app pat rest) as H.
  destruct (pat ++ rest); cbn [replace_first]; rewrite H; reflexivity.
Qed.

Lemma stops_spaceless (p s : jstring) :
  spaceless p -> stops space_char (p ++ s) = true.
Proof.
  intros [Hn Hp]. destruct p as [|x p]; [discriminate|].
  cbn [forallb] in Hp. apply andb_prop in Hp as [Hx _].
  cbn [app stops]. exact Hx.
Qed.

(** A literal does not start in a text that lacks it, when the text is
    followed by a character the literal does not contain. *)
Lemma strip_prefix_straddle (lit l t : jstring) (x : N) :
  nonempty lit = true ->
  ~ In x lit ->
  strip_prefix lit l = None ->
  strip_prefix lit (l ++ x :: t) = None.
Proof.
  revert l. induction lit as [|a lit IH]; intros l Hn Hx H; [discriminate|].
  destruct l as [|b l]; cbn [app strip_prefix] in *.
  - destruct (N.eqb_spec a x) as [->|]; [|reflexivity].
    exfalso. apply Hx. left. reflexivity.
  - destruct (a =? b)%N; [|reflexivity].
    destruct lit as [|a' lit]; [discriminate H|].
    apply IH; [reflexivity | | exact H].
    intros Hin. apply Hx. right. exact Hin.
Qed.

Lemma scan_rest_without_keyword (r : regex) (lit : jstring) :
  nonempty lit = true ->
  ~ In 10%N lit ->
  (forall ctx t, strip_prefix lit t = None -> match_at r ctx t = None) ->
  forall (rest more ctx : jstring),
    includes rest lit = false ->
    scan_matches r 0 ctx (rest ++ 10%N :: more)
    = scan_matches r 0 (10%N :: rev rest ++ ctx) more.
Proof.
  intros Hn H10 Hr. induction rest as [|x rest IH]; intros more ctx Hrest.
  - cbn [app scan_matches rev]. rewrite Hr; [reflexivity|].
    apply (strip_prefix_straddle lit [] more 10 Hn H10).
    apply includes_false_nil, Hrest.
  - apply includes_false_inv in Hrest as [Hx Hrest].
    cbn [app scan_matches]. rewrite Hr.
    + cbn [Nat.sub]. rewrite (IH more (x :: ctx) Hrest).
      cbn [rev]. rewrite <- app_assoc. reflexivity.
    + apply (strip_prefix_straddle lit (x :: rest) more 10 Hn H10 Hx).
Qed.

Lemma match_include_line (p rest more ctx : jstring) :
  spaceless p ->
  stops (fun c => negb (space_char c)) rest = true ->
  match_at Enhanced.re_include ctx
    ((js "include " ++ p) ++ rest ++ 10%N :: more)
  = Some (mkMatch (js "include " ++ p) (Some p)).
Proof.
  intros Hp Hrest. pose proof Hp as [Hn Hns].
  assert (E : rmatch Enhanced.re_include ctx
                (js "include" ++ [32%N] ++ p ++ rest ++ 10%N :: more)
                None accept
              = Some (mkMatchEnd
                        (rev (js "include" ++ [32%N] ++ p) ++ ctx)
                        (rest ++ 10%N :: more) (Some p))).
  { unfold Enhanced.re_include, seq.
    rewrite rmatch_Cat, chars_run, rmatch_Cat.
    apply plus_run;
      [ reflexivity | reflexivity | apply stops_spaceless, Hp |].
    rewrite rmatch_Group.
    apply plus_run; [exact Hn | exact Hns | |].
    - destruct rest as [|x rest]; [reflexivity | exact Hrest].
    - unfold accept. rewrite consumed_app, rev_involutive.
      rewrite !rev_app_distr, <- !app_assoc. reflexivity. }
  unfold match_at.
  replace (js "include ") with (js "include" ++ [32%N])
    by (vm_compute; reflexivity).
  rewrite <- !app_assoc. rewrite E. cbn [m_ctx m_group1].
  rewrite consumed_app, rev_involutive. reflexivity.
Qed.

Lemma match_include_needs_include (ctx t : jstring) :
  strip_prefix (js "include") t = None ->
  match_at Enhanced.re_include ctx t = None.
Proof.
  intros H. apply match_include_needs_keyword. repeat constructor. exact H.
Qed.

Lemma scan_includes (directives : list (jstring * jstring)) :
  Forall (fun d => spaceless (fst d) /\ rest_of_directive (snd d))
    directives ->
  forall ctx,
    scan_matches Enhanced.re_include 0 ctx
      (concat (map include_line directives))
    = map (fun d => js "include " ++ fst d) directives.
Proof.
  induction 1 as [|[p rest] directives [Hp [Hstop Hrest]] _ IH]; intros ctx.
  - cbn [map concat scan_matches]. vm_compute. reflexivity.
  - cbn [map concat fst snd] in *. unfold include_line at 1. cbn [fst snd].
    unfold nl. rewrite <- !app_assoc. rewrite (app_assoc (js "include ") p).
    cbn [app].
    rewrite (scan_match_here _ _ _ _ (Some p)).
    + rewrite (scan_rest_without_keyword Enhanced.re_include (js "include"));
        [ rewrite IH; reflexivity
        | vm_compute; reflexivity
        | vm_compute; intros H;
          repeat (destruct H as [H|H]; [discriminate H|]); exact H
        | apply match_include_needs_include
        | exact Hrest ].
    + replace (js "include ") with (105%N :: js "nclude ")
        by (vm_compute; reflexivity).
      reflexivity.
    + apply match_include_line; assumption.
Qed.

(** X26.  In a build script made of include directives, each on one line
    and written with one space, the dependencies are the first words after
    the keyword, in the order of the text and with every repetition.  A
    path ends at its first white space: of a directive that includes the
    output of a shell command, only the text up to the first space is
    returned. *)
Theorem dependencies_are_the_first_words_included
    (directives : list (jstring * jstring)) :
  Forall (fun d => spaceless (fst d) /\ rest_of_directive (snd d))
    directives ->
  Enhanced.dependencies
    (Enhanced.analyzeMakefileText (concat (map include_line directives)))
  = map fst directives.
Proof.
  intros Hd. unfold Enhanced.analyzeMakefileText.
  cbn [Enhanced.dependencies]. rewrite default_match_g.
  rewrite (scan_includes directives Hd []). rewrite map_map.
  clear. induction directives as [|[p rest] directives IH]; [reflexivity|].
  cbn [map fst]. rewrite replace_first_prefix, IH. reflexivity.
Qed.

Lemma dependencies_are_the_first_words_included_witness :
  Enhanced.dependencies
    (Enhanced.analyzeMakefileText
       (concat
          (map include_line
             [ (js "../common.mk", []);
               (js "$(shell", js " cocotb-config --makefiles)/Makefile.sim") ])))
  = [js "../common.mk"; js "$(shell"].
Proof.
  apply (dependencies_are_the_first_words_included
           [ (js "../common.mk", []);
             (js "$(shell", js " cocotb-config --makefiles)/Makefile.sim") ]).
  repeat constructor; vm_compute; reflexivity.
Defined.

(** ** Ports that are signals too *)

Lemma scan_typed_ports (names : list jstring) :
  Forall identifier names ->
  forall ctx,
    scan_matches Enhanced.re_signal 0 ctx (concat (map port_line names))
    = map (fun p => js "logic " ++ p) names.
Proof.
  induction 1 as [|p names Hp _ IH]; intros ctx.
  - cbn [map concat scan_matches]. vm_compute. reflexivity.
  - cbn [map concat]. unfold port_line at 1. unfold nl.
    replace (js "input logic ") with (js "input " ++ js "logic ")
      by (vm_compute; reflexivity).
    replace (js ";") with [59%N] by (vm_compute; reflexivity).
    rewrite <- !app_assoc. cbn [app].
    rewrite scan_junk.
    2:{ replace (js "input ")
          with [105%N; 110%N; 112%N; 117%N; 116%N; 32%N]
          by (vm_compute; reflexivity).
        repeat (apply List.Forall_cons;
                [intros c t; vm_compute; reflexivity|]).
        apply List.Forall_nil. }
    rewrite (app_assoc (js "logic ") p).
    rewrite (scan_declaration _ _ _ _ (Some p)).
    + rewrite IH. reflexivity.
    + replace (js "logic ") with (108%N :: js "ogic ")
        by (vm_compute; reflexivity).
      reflexivity.
    + rewrite <- app_assoc. apply match_signal; [exact Hp | reflexivity].
    + intros c t. vm_compute. reflexivity.
    + intros c t. vm_compute. reflexivity.
Qed.

(** X27.  The pass for signals does not look at what stands before the
    net type.  In a text that declares ports with a net type, one per
    line, every port is returned twice: as an interface port and as a
    signal definition. *)
Theorem typed_ports_are_signals_too (names : list jstring) :
  Forall identifier names ->
  let analysis :=
    Enhanced.analyzeVerilogText (concat (map port_line names)) in
  Enhanced.interface_ports analysis = names
  /\ Enhanced.signal_definitions analysis = names.
Proof.
  intros Hnames analysis. split; [apply ports_of_declarations, Hnames|].
  unfold analysis, Enhanced.analyzeVerilogText.
  cbn [Enhanced.signal_definitions]. rewrite default_match_g.
  rewrite (scan_typed_ports names Hnames []). rewrite map_map.
  rewrite (map_identifiers _ names); [apply filter_identifiers, Hnames | |
                                      exact Hnames].
  intros p Hp. rewrite (pop_signal_match p Hp).
  apply or_string_identifier, Hp.
Qed.

Lemma typed_ports_are_signals_too_witness :
  Enhanced.signal_definitions
    (Enhanced.analyzeVerilogText
       (concat (map port_line [js "aclk"; js "aresetn"])))
  = [js "aclk"; js "aresetn"].
Proof.
  refine (proj2 (typed_ports_are_signals_too [js "aclk"; js "aresetn"] _)).
  repeat constructor; vm_compute; reflexivity.
Defined.

(** ** A testbench without ports *)

Lemma filter_everything (l : list jstring) (f : jstring -> bool) :
  (forall x, f x = true) -> filter f l = l.
Proof.
  intros H. induction l as [|x l IH]; [reflexivity|].
  rewrite filter_cons_True by (rewrite H; exact I). f_equal. exact IH.
Qed.

Lemma compatibility_report_without_ports (testbench_file rtl_file : JsValue)
    (testbenchAnalysis rtlAnalysis : Enhanced.VerilogAnalysis) :
  Enhanced.interface_ports testbenchAnalysis = [] ->
  Enhanced.compatibility_report testbench_file rtl_file testbenchAnalysis
    rtlAnalysis
  = js "# Interface Compatibility Analysis" ++ nl ++ nl
    ++ js "**Testbench:** " ++ to_string testbench_file ++ nl
    ++ js "**RTL:** " ++ to_string rtl_file ++ nl ++ nl
    ++ js "## ✅ Matching Interfaces" ++ nl
    ++ js "No matching port names found." ++ nl ++ nl
    ++ match Enhanced.interface_ports rtlAnalysis with
       | [] => []
       | _ =>
           js "## ⚠️ RTL-Only Ports" ++ nl
           ++ bullet_list (Enhanced.interface_ports rtlAnalysis) ++ nl ++ nl
       end
    ++ js "## Compatibility Score: 0.0%" ++ nl ++ nl
    ++ js "⚠️ **Recommendation:** Review interface connections - low compatibility score suggests potential issues."
    ++ nl.
Proof.
  intros Htb. unfold Enhanced.compatibility_report. rewrite Htb.
  rewrite (filter_everything (Enhanced.interface_ports rtlAnalysis))
    by reflexivity.
  rewrite !filter_nil. cbn [length Nat.ltb Nat.leb].
  replace (toFixed1 (Enhanced.compatibility_score 0 0)) with (js "0.0")
    by (vm_compute; reflexivity).
  replace (PrimFloat.ltb (Enhanced.compatibility_score 0 0) (float_of_nat 80))
    with true by (vm_compute; reflexivity).
  replace (js "## Compatibility Score: 0.0%")
    with (js "## Compatibility Score: " ++ js "0.0" ++ js "%")
    by (vm_compute; reflexivity).
  destruct (Enhanced.interface_ports rtlAnalysis) as [|p ports];
    cbn [length Nat.ltb Nat.leb]; rewrite <- !app_assoc, ?app_nil_l;
    reflexivity.
Qed.

Lemma ports_need_a_keyword (content : jstring) :
  includes content (js "input") = false ->
  includes content (js "output") = false ->
  includes content (js "inout") = false ->
  Enhanced.interface_ports (Enhanced.analyzeVerilogText content) = [].
Proof.
  intros H1 H2 H3. unfold Enhanced.analyzeVerilogText.
  cbn [Enhanced.interface_ports]. rewrite default_match_g.
  rewrite (scan_without_keywords _ _ match_port_needs_keyword);
    [reflexivity | repeat constructor; assumption].
Qed.

(** X28.  check-interface-compatibility divides by the number of testbench
    ports, or by one when there is none.  A testbench whose text contains
    no port keyword (a Python testbench is one) therefore scores [0.0%],
    never [NaN]: the report says that no port matches, lists every RTL
    port as RTL-only and ends with the recommendation to review the
    connections. *)
Theorem testbench_without_ports_scores_zero (w : World)
    (args : gmap string JsValue) (tb_content rtl_content : jstring) :
  let testbench_file := get_arg args "testbench_file" in
  let rtl_file := get_arg args "rtl_file" in
  let rtl_ports :=
    Enhanced.interface_ports (Enhanced.analyzeVerilogText rtl_content) in
  fs_readFile w testbench_file = inr tb_content ->
  fs_readFile w rtl_file = inr rtl_content ->
  includes tb_content (js "input") = false ->
  includes tb_content (js "output") = false ->
  includes tb_content (js "inout") = false ->
  Enhanced.callTool (js "check-interface-compatibility") (Some args) w
  = (Returned
       [text_block
          (js "# Interface Compatibility Analysis" ++ nl ++ nl
           ++ js "**Testbench:** " ++ to_string testbench_file ++ nl
           ++ js "**RTL:** " ++ to_string rtl_file ++ nl ++ nl
           ++ js "## ✅ Matching Interfaces" ++ nl
           ++ js "No matching port names found." ++ nl ++ nl
           ++ match rtl_ports with
              | [] => []
              | _ =>
                  js "## ⚠️ RTL-Only Ports" ++ nl
                  ++ bullet_list rtl_ports ++ nl ++ nl
              end
           ++ js "## Compatibility Score: 0.0%" ++ nl ++ nl
           ++ js "⚠️ **Recommendation:** Review interface connections - low compatibility score suggests potential issues."
           ++ nl)],
     [EffReadFile testbench_file; EffReadFile rtl_file]).
Proof.
  intros testbench_file rtl_file rtl_ports Htb Hrtl H1 H2 H3.
  rewrite callTool_check_interface_compatibility.
  unfold Enhanced.check_interface_compatibility, destructure.
  unfold bind at 1. unfold ret at 1. cbv beta iota.
  unfold try_catch at 1. unfold bind at 1.
  fold testbench_file. rewrite analyzeVerilogFile_cases, Htb.
  cbv beta iota. unfold bind at 1.
  fold rtl_file. rewrite analyzeVerilogFile_cases, Hrtl.
  cbv beta iota. unfold ret. cbn [app].
  rewrite (compatibility_report_without_ports _ _ _ _
             (ports_need_a_keyword _ H1 H2 H3)).
  reflexivity.
Qed.

Lemma testbench_without_ports_scores_zero_witness :
  fst (Enhanced.callTool (js "check-interface-compatibility")
         (Some {[ "testbench_file" := VString (js "test_filter.py");
                  "rtl_file" := VString (js "test_filter.py") ]})
         (world_with (js "import cocotb") [] 0))
  = Returned
      [text_block
         (js "# Interface Compatibility Analysis

**Testbench:** test_filter.py
**RTL:** test_filter.py

## ✅ Matching Interfaces
No matching port names found.

## Compatibility Score: 0.0%

⚠️ **Recommendation:** Review interface connections - low compatibility score suggests potential issues.
")].
Proof.
  rewrite (testbench_without_ports_scores_zero
             (world_with (js "import cocotb") [] 0)
             {[ "testbench_file" := VString (js "test_filter.py");
                "rtl_file" := VString (js "test_filter.py") ]}
             (js "import cocotb") (js "import cocotb")).
  - vm_compute. reflexivity.
  - reflexivity.
  - reflexivity.
  - vm_compute. reflexivity.
  - vm_compute. reflexivity.
  - vm_compute. reflexivity.
Defined.

(** ** The compatibility score *)

Lemma all_pairs_spec (bound : nat) (f : nat -> nat -> bool) :
  all_pairs bound f = true ->
  forall common total : nat,
    (common <= total)%nat -> (total <= bound)%nat -> f common total = true.
Proof.
  unfold all_pairs. intros H common total Hc Ht.
  rewrite forallb_forall in H.
  specialize (H total). rewrite forallb_forall in H.
  apply H; apply in_seq; lia.
Qed.

(** X29.  For a testbench of up to 256 ports, computed in binary64 as the
    code computes it: the recommendation to review the connections is
    printed exactly when fewer than four fifths of the testbench ports
    have a match; and when every testbench port has a match the score is
    printed as [100.0] and the recommendation is not. *)
Theorem low_score_is_below_four_fifths (common total : nat) :
  (common <= total)%nat ->
  (total <= 256)%nat ->
  let score := Enhanced.compatibility_score common total in
  (PrimFloat.ltb score (float_of_nat 80) = true
   <-> (5 * common < 4 * Nat.max total 1)%nat)
  /\ (common = total -> (0 < total)%nat ->
      toFixed1 score = js "100.0"
      /\ PrimFloat.ltb score (float_of_nat 80) = false).
Proof.
  intros Hc Ht score.
  assert (H : score_as_expected common total = true).
  { apply (all_pairs_spec 256); [vm_compute; reflexivity | exact Hc | exact Ht]. }
  unfold score_as_expected in H. fold score in H.
  apply andb_prop in H as [H1 H2]. apply Bool.eqb_prop in H1.
  assert (Hlow : PrimFloat.ltb score (float_of_nat 80) = true
                 <-> (5 * common < 4 * Nat.max total 1)%nat).
  { rewrite H1. apply Nat.ltb_lt. }
  split; [exact Hlow|].
  intros -> Hpos. rewrite Nat.eqb_refl in H2. cbn [negb orb] in H2.
  apply jstring_eqb_eq in H2.
  destruct total as [|n]; [lia|]. cbn [Nat.eqb] in H2.
  split; [exact H2|].
  apply not_true_is_false. intros Hlt. apply Hlow in Hlt. lia.
Qed.

Lemma low_score_is_below_four_fifths_witness :
  PrimFloat.ltb (Enhanced.compatibility_score 7 9) (float_of_nat 80) = true.
Proof.
  apply (proj1 (low_score_is_below_four_fifths 7 9 ltac:(lia) ltac:(lia))).
  cbn. lia.
Defined.

(** ** The list of signals in the report *)

Lemma strip_prefix_app_both (a n s : jstring) :
  strip_prefix (a ++ n) (a ++ s) = strip_prefix n s.
Proof.
  induction a as [|x a IH]; [reflexivity|].
  cbn [app strip_prefix]. rewrite N.eqb_refl. exact IH.
Qed.

Lemma includes_at_head (s needle r : jstring) :
  strip_prefix needle s = Some r -> includes s needle = true.
Proof. intros H. destruct s; cbn [includes]; rewrite H; reflexivity. Qed.

(** X30.  The report of analyze-verilog-syntax lists at most ten signal
    definitions.  For a text that declares more than ten signals, one per
    line, the section holds the first ten names in the order of the text,
    then the number of the remaining ones, and nothing else before the
    heading of the interface ports. *)
Theorem signal_list_is_cut_at_ten (file_path check_packages : JsValue)
    (names : list jstring) :
  Forall identifier names ->
  (10 < length names)%nat ->
  includes
    (Enhanced.verilog_report file_path check_packages
       (Enhanced.analyzeVerilogText (concat (map signal_line names))))
    (js "## Signal Definitions" ++ nl
     ++ bullet_list (take 10 names) ++ nl
     ++ js "... and " ++ string_of_nat (length names - 10)
     ++ js " more signals" ++ nl ++ nl ++ js "## Interface Ports")
  = true.
Proof.
  intros Hnames Hlen. unfold Enhanced.verilog_report.
  rewrite (signals_of_declarations names Hnames).
  replace (0 <? length names)%nat with true
    by (symmetry; apply Nat.ltb_lt; lia).
  replace (10 <? length names)%nat with true
    by (symmetry; apply Nat.ltb_lt; lia).
  destruct (truthy check_packages);
    [destruct (0 <? length
                 (Enhanced.package_dependencies
                    (Enhanced.analyzeVerilogText
                       (concat (map signal_line names)))))%nat|];
    destruct (0 <? length
                (Enhanced.interface_ports
                   (Enhanced.analyzeVerilogText
                      (concat (map signal_line names)))))%nat;
    rewrite <- !app_assoc;
    repeat match goal with
      | |- includes (js "## Signal Definitions" ++ _) _ = true => fail 1
      | |- _ => apply includes_app_r
      end;
    (eapply includes_at_head;
     rewrite !strip_prefix_app_both; apply strip_prefix_app).
Qed.

Lemma signal_list_is_cut_at_ten_witness :
  includes
    (Enhanced.verilog_report (VString (js "regs.sv")) (VBool false)
       (Enhanced.analyzeVerilogText
          (concat
             (map signal_line
                [ js "r0"; js "r1"; js "r2"; js "r3"; js "r4"; js "r5";
                  js "r6"; js "r7"; js "r8"; js "r9"; js "r10"; js "r11" ]))))
    (js "## Signal Definitions" ++ nl
     ++ bullet_list
          (take 10
             [ js "r0"; js "r1"; js "r2"; js "r3"; js "r4"; js "r5";
               js "r6"; js "r7"; js "r8"; js "r9"; js "r10"; js "r11" ])
     ++ nl
     ++ js "... and "
     ++ string_of_nat
          (length
             [ js "r0"; js "r1"; js "r2"; js "r3"; js "r4"; js "r5";
               js "r6"; js "r7"; js "r8"; js "r9"; js "r10"; js "r11" ]
           - 10)
     ++ js " more signals" ++ nl ++ nl ++ js "## Interface Ports")
  = true.
Proof.
  apply (signal_list_is_cut_at_ten (VString (js "regs.sv")) (VBool false)
           [ js "r0"; js "r1"; js "r2"; js "r3"; js "r4"; js "r5";
             js "r6"; js "r7"; js "r8"; js "r9"; js "r10"; js "r11" ]).
  - repeat constructor; vm_compute; reflexivity.
  - cbn [length]. lia.
Defined.
